(** * enviroagent: the article curation pipeline, embedded and verified

    A shallow embedding of the Python sources

      - [src/rl_agent.py]        the scoring orchestrator,
      - [src/summary_agent.py]   the summary stage and its deduplication,
      - [src/gdelt_pipeline.py]  the fetch stage and the saving of a batch,
      - [src/prompt_updater.py]  the feedback aggregator and prompt rewriter,
      - [src/prompt_agent.py] and [main.py]  the update, extract and agent
        commands,
      - [app.py]                 the review gate,

    together with the pieces of the Python runtime these sources call
    ([str] methods, [dict] operations, [json.loads], two regular
    expressions, [float], [int] and fixed-point formatting on binary64).

    Modelling conventions.
      - A Python [str] is a Rocq [string] whose characters are the code
        points U+0000..U+00FF; text outside that range is outside the model.
      - Python objects of JSON shape are values of [pyval]; a [dict] is an
        association list in insertion order with unique keys.
      - A Python [float] is a [spec_float] computed with the binary64
        operations of the standard library ([prec = 53], [emax = 1024]).
        A Python [int] is a [Z]: the limit an interpreter may put on the
        number of digits of an integer literal is not modelled, and neither
        is its recursion limit; the texts of [spec.plain] stay within
        both.
      - Exceptions are values of [exn]; code that can raise returns
        [result]; code that touches the file system, the evaluator or the
        console runs in the state monad [M] over [world], which records
        every such effect in a trace.
      - The file system is a finite map from path to content, and folders
        are implicit in it. Paths are compared as texts: two spellings of
        one path (a doubled slash, a dot part) are two paths. [write_text] and [makedirs] go through at every
        path but the empty folder name; the paths at which the calls of the
        source do not (a name that ends in a slash, a folder on the way
        that is a regular file, a folder that is missing) are told apart
        by [spec.can_create] and [spec.can_open], and the statements about
        a file written at a path of the caller's choosing carry them as
        provisos.
      - [json.loads] is the decoder of the [json] package on the texts that
        [spec.plain] describes. A text with an escape [\u] beyond U+00FF
        is refused by the model, whose strings cannot hold the character;
        the statements that depend on what an answer decodes to take the
        answer to be plain.
      - The language model is an oracle of the world it is called in. *)

From Stdlib Require Import ZArith Floats.SpecFloat DecimalString Ascii String.
From Stdlib Require Import Sorting.Sorted.
From stdpp Require Import base strings gmap list.

Open Scope string_scope.

(** ** Python strings *)

Module pystr.

Definition code (c : ascii) : N := N_of_ascii c.

(** [str.isspace] on one character, for the code points of the model:
    TAB..CR, FS..US, SPACE, NEL and NBSP. *)
Definition isspace (c : ascii) : bool :=
  let n := code c in
  ((9 <=? n) && (n <=? 13) || (28 <=? n) && (n <=? 32)
   || (n =? 133) || (n =? 160))%N.

(** The double quote, and a helper to write text that contains double
    quotes: [dq] turns every apostrophe of its argument into a double
    quote. *)
Definition quote : ascii := ascii_of_nat 34.

Fixpoint dq (s : string) : string :=
  match s with
  | EmptyString => EmptyString
  | String c r => String (if Ascii.eqb c "'" then quote else c) (dq r)
  end.

Fixpoint lstrip_by (p : ascii -> bool) (s : string) : string :=
  match s with
  | EmptyString => EmptyString
  | String c r => if p c then lstrip_by p r else s
  end.

Fixpoint rstrip_by (p : ascii -> bool) (s : string) : string :=
  match s with
  | EmptyString => EmptyString
  | String c r =>
      match rstrip_by p r with
      | EmptyString => if p c then EmptyString else String c EmptyString
      | r' => String c r'
      end
  end.

(** [s.strip()] *)
Definition strip (s : string) : string :=
  rstrip_by isspace (lstrip_by isspace s).

Fixpoint mem (c : ascii) (chars : string) : bool :=
  match chars with
  | EmptyString => false
  | String x r => Ascii.eqb c x || mem c r
  end.

(** [s.strip(chars)] *)
Definition strip_chars (chars s : string) : string :=
  rstrip_by (fun c => mem c chars) (lstrip_by (fun c => mem c chars) s).

(** [s.startswith(p)] *)
Definition startswith (p s : string) : bool := String.prefix p s.

Fixpoint endswith_list (p s : list ascii) : bool :=
  match p, s with
  | [], _ => true
  | _ :: _, [] => false
  | x :: p', y :: s' => Ascii.eqb x y && endswith_list p' s'
  end.

(** [s.endswith(p)] *)
Definition endswith (p s : string) : bool :=
  endswith_list (rev (list_ascii_of_string p)) (rev (list_ascii_of_string s)).

(** [str.lower] on one character: A..Z, and the upper-case letters of
    the Latin-1 block (U+00C0..U+00DE without the multiplication sign). *)
Definition lower_char (c : ascii) : ascii :=
  let n := code c in
  if ((65 <=? n) && (n <=? 90)
      || (192 <=? n) && (n <=? 222) && negb (n =? 215))%N
  then ascii_of_N (n + 32) else c.

Fixpoint lower (s : string) : string :=
  match s with
  | EmptyString => EmptyString
  | String c r => String (lower_char c) (lower r)
  end.

(** Decimal rendering of an integer, as [str(int)] gives it. *)
Definition str_of_N (n : N) : string :=
  NilEmpty.string_of_uint (N.to_uint n).

Definition str_of_Z (z : Z) : string :=
  match z with
  | Zneg p => "-" +:+ str_of_N (Npos p)
  | _ => str_of_N (Z.to_N z)
  end.

End pystr.

(** ** Python values, exceptions and dictionaries *)

(** The Python objects the pipeline handles: what [json.loads] can
    return. A [PDict] lists its items in insertion order, keys unique. *)
#[warnings="-register-all"]
Inductive pyval : Type :=
| PNone
| PBool (b : bool)
| PInt (z : Z)
| PFloat (f : spec_float)
| PStr (s : string)
| PList (l : list pyval)
| PDict (d : list (string * pyval)).

Inductive exn : Type :=
| AttributeError
| TypeError
| ValueError
| OverflowError
| KeyError (key : string)
| NameError (name : string)
| FileNotFoundError (path : string)
| JSONDecodeError.

Inductive result (A : Type) : Type :=
| Ok (a : A)
| Raise (e : exn).
Arguments Ok {A} a.
Arguments Raise {A} e.

Definition rbind {A B} (r : result A) (k : A -> result B) : result B :=
  match r with
  | Ok a => k a
  | Raise e => Raise e
  end.

(** [try: r except Exception: h] *)
Definition try_except {A} (r : result A) (h : exn -> result A) : result A :=
  match r with
  | Ok a => Ok a
  | Raise e => h e
  end.

Fixpoint rmapM {A B} (f : A -> result B) (l : list A) : result (list B) :=
  match l with
  | [] => Ok []
  | a :: r => rbind (f a) (fun b => rbind (rmapM f r) (fun bs => Ok (b :: bs)))
  end.

Module pydict.

Definition dict := list (string * pyval).

(** [d.get(k)] as an option: [None] when the key is absent. *)
Fixpoint lookup (d : dict) (k : string) : option pyval :=
  match d with
  | [] => None
  | (k', v) :: r => if String.eqb k k' then Some v else lookup r k
  end.

(** [d.get(k, default)] *)
Definition get (d : dict) (k : string) (default : pyval) : pyval :=
  match lookup d k with
  | Some v => v
  | None => default
  end.

(** [k in d] *)
Definition contains (d : dict) (k : string) : bool :=
  match lookup d k with
  | Some _ => true
  | None => false
  end.

(** [d[k] = v]: an existing key keeps its position, a new key goes
    last. *)
Fixpoint set (d : dict) (k : string) (v : pyval) : dict :=
  match d with
  | [] => [(k, v)]
  | (k', v') :: r =>
      if String.eqb k k' then (k', v) :: r else (k', v') :: set r k v
  end.

(** [d.update(other)] *)
Definition update (d other : dict) : dict :=
  fold_left (fun acc kv => set acc (fst kv) (snd kv)) other d.

(** [dict(pairs)]: the last value of a repeated key wins. *)
Definition of_pairs (pairs : dict) : dict := update [] pairs.

End pydict.

(** [v.get(k, default)]: only a dict has the method. *)
Definition py_get (v : pyval) (k : string) (default : pyval) : result pyval :=
  match v with
  | PDict d => Ok (pydict.get d k default)
  | _ => Raise AttributeError
  end.

Definition is_zero_float (f : spec_float) : bool :=
  match f with
  | S754_zero _ => true
  | _ => false
  end.

(** Truth value of an object, as [if v:] and [not v] test it. *)
Definition truthy (v : pyval) : bool :=
  match v with
  | PNone => false
  | PBool b => b
  | PInt z => negb (z =? 0)%Z
  | PFloat f => negb (is_zero_float f)
  | PStr s => negb (String.eqb s "")
  | PList l => match l with [] => false | _ => true end
  | PDict d => match d with [] => false | _ => true end
  end.

(** ** binary64 *)

Module pyfloat.

Definition prec : Z := 53.
Definition emax : Z := 1024.

Definition add := SFadd prec emax.
Definition div := SFdiv prec emax.

(** The float nearest to the integer [z] (ties to even). *)
Definition of_Z (z : Z) : spec_float := binary_normalize prec emax z 0 false.

(** The float nearest to [(-1)^neg * m * 10^e], correctly rounded, as
    the decimal-to-binary conversion of CPython gives it. *)
Definition of_decimal (neg : bool) (m : N) (e : Z) : spec_float :=
  match m with
  | N0 => S754_zero neg
  | Npos p =>
      match e with
      | Zneg k =>
          let '(q, e', l) :=
            SFdiv_core_binary prec emax (Zpos p) 0 (Z.pow 10 (Zpos k)) 0 in
          binary_round_aux prec emax neg q e' l
      | _ =>
          match (Zpos p * Z.pow 10 e)%Z with
          | Zpos q => binary_round prec emax neg q 0
          | _ => S754_zero neg
          end
      end
  end.

(** Round the non-negative rational [num / den] to the nearest integer,
    ties to even. *)
Definition round_half_even (num den : Z) : Z :=
  let q := (num / den)%Z in
  let r := (num mod den)%Z in
  match (2 * r ?= den)%Z with
  | Lt => q
  | Gt => (q + 1)%Z
  | Eq => if Z.even q then q else (q + 1)%Z
  end.

Fixpoint zeros (n : nat) : string :=
  match n with
  | O => ""
  | S k => "0" +:+ zeros k
  end.

(** [format(x, '.<d>f')] for [d >= 1]. *)
Definition format_fixed (d : nat) (x : spec_float) : string :=
  match x with
  | S754_nan => "nan"
  | S754_infinity s => if s then "-inf" else "inf"
  | S754_zero s => (if s then "-" else "") +:+ "0." +:+ zeros d
  | S754_finite s m e =>
      let scale := Z.pow 10 (Z.of_nat d) in
      let n :=
        match e with
        | Zneg k => round_half_even (Zpos m * scale) (Z.pow 2 (Zpos k))
        | _ => (Zpos m * Z.pow 2 e * scale)%Z
        end in
      let frac := pystr.str_of_Z (n mod scale) in
      (if s then "-" else "") +:+ pystr.str_of_Z (n / scale) +:+ "."
        +:+ zeros (d - String.length frac) +:+ frac
  end.

Definition is_digit (c : ascii) : bool :=
  ((48 <=? pystr.code c) && (pystr.code c <=? 57))%N.

Definition digit_val (c : ascii) : N := (pystr.code c - 48)%N.

(** Read a maximal run of decimal digits: the number read so far, how
    many digits were read, and the rest of the text. *)
Fixpoint take_digits (s : list ascii) (acc : N) (n : nat)
  : N * nat * list ascii :=
  match s with
  | c :: r =>
      if is_digit c then take_digits r (acc * 10 + digit_val c)%N (S n)
      else (acc, n, s)
  | [] => (acc, n, [])
  end.

Definition take_sign (s : list ascii) : bool * list ascii :=
  match s with
  | c :: r =>
      if Ascii.eqb c "-" then (true, r)
      else if Ascii.eqb c "+" then (false, r)
      else (false, s)
  | [] => (false, [])
  end.

(** An underscore of a numeric literal must stand between two digits;
    the literal is then read without its underscores. *)
Fixpoint drop_underscores (prev_digit : bool) (s : list ascii)
  : option (list ascii) :=
  match s with
  | [] => Some []
  | c :: r =>
      if Ascii.eqb c "_" then
        match r with
        | d :: _ =>
            if prev_digit && is_digit d then drop_underscores false r
            else None
        | [] => None
        end
      else option_map (cons c) (drop_underscores (is_digit c) r)
  end.

(** The digits, point and exponent of a literal, after its sign. *)
Definition of_literal (neg : bool) (s : list ascii) : option spec_float :=
  let '(m1, n1, r1) := take_digits s 0%N 0 in
  let '(m2, n2, r2) :=
    match r1 with
    | c :: r => if Ascii.eqb c "." then take_digits r m1 0 else (m1, 0, r1)
    | [] => (m1, 0, r1)
    end in
  if Nat.eqb (n1 + n2) 0 then None
  else
    match r2 with
    | [] => Some (of_decimal neg m2 (- Z.of_nat n2))
    | c :: r3 =>
        if Ascii.eqb c "e" || Ascii.eqb c "E" then
          let '(eneg, r4) := take_sign r3 in
          let '(x, nx, r5) := take_digits r4 0%N 0 in
          match nx, r5 with
          | S _, [] =>
              let ex := if eneg then (- Z.of_N x)%Z else Z.of_N x in
              Some (of_decimal neg m2 (ex - Z.of_nat n2))
          | _, _ => None
          end
        else None
    end.

(** The white space that [float] and [int] ignore around a literal: TAB..CR,
    SPACE, NEL and NBSP. The separators FS..US, which [str.strip] removes,
    are not among them. *)
Definition is_space (c : ascii) : bool :=
  let n := pystr.code c in
  ((9 <=? n) && (n <=? 13) || (n =? 32) || (n =? 133) || (n =? 160))%N.

Definition strip_space (s : string) : string :=
  pystr.rstrip_by is_space (pystr.lstrip_by is_space s).

(** [float(s)] for a string: surrounding white space is ignored, then a
    signed decimal literal, [inf], [infinity] or [nan] (in any letter
    case) is read. *)
Definition of_str (s : string) : result spec_float :=
  let body := list_ascii_of_string (strip_space s) in
  match drop_underscores false body with
  | None => Raise ValueError
  | Some body' =>
      let '(neg, r) := take_sign body' in
      let word := pystr.lower (string_of_list_ascii r) in
      if String.eqb word "inf" || String.eqb word "infinity" then
        Ok (S754_infinity neg)
      else if String.eqb word "nan" then Ok S754_nan
      else
        match of_literal neg r with
        | Some f => Ok f
        | None => Raise ValueError
        end
  end.

End pyfloat.

(** [float(v)] *)
Definition py_float (v : pyval) : result spec_float :=
  match v with
  | PFloat f => Ok f
  | PInt z =>
      match pyfloat.of_Z z with
      | S754_infinity _ => Raise OverflowError
      | f => Ok f
      end
  | PBool b => Ok (pyfloat.of_Z (if b then 1 else 0))
  | PStr s => pyfloat.of_str s
  | _ => Raise TypeError
  end.

(** ** [json.loads] *)

Module json.

Definition is_ws (c : ascii) : bool :=
  Ascii.eqb c " " || (pystr.code c =? 9)%N || (pystr.code c =? 10)%N
  || (pystr.code c =? 13)%N.

Fixpoint skip_ws (s : list ascii) : list ascii :=
  match s with
  | c :: r => if is_ws c then skip_ws r else s
  | [] => []
  end.

Fixpoint strip_prefix (p s : list ascii) : option (list ascii) :=
  match p, s with
  | [], _ => Some s
  | x :: p', y :: s' => if Ascii.eqb x y then strip_prefix p' s' else None
  | _ :: _, [] => None
  end.

Definition hex_val (c : ascii) : option N :=
  let n := pystr.code c in
  if ((48 <=? n) && (n <=? 57))%N then Some (n - 48)%N
  else if ((65 <=? n) && (n <=? 70))%N then Some (n - 55)%N
  else if ((97 <=? n) && (n <=? 102))%N then Some (n - 87)%N
  else None.

Definition hex4 (a b c d : ascii) : option N :=
  match hex_val a, hex_val b, hex_val c, hex_val d with
  | Some x, Some y, Some z, Some w => Some (((x * 16 + y) * 16 + z) * 16 + w)%N
  | _, _, _, _ => None
  end.

(** The character an escape letter stands for. *)
Definition unescape (c : ascii) : option ascii :=
  if Ascii.eqb c pystr.quote then Some pystr.quote
  else if Ascii.eqb c "\" then Some "\"%char
  else if Ascii.eqb c "/" then Some "/"%char
  else if Ascii.eqb c "b" then Some (ascii_of_nat 8)
  else if Ascii.eqb c "f" then Some (ascii_of_nat 12)
  else if Ascii.eqb c "n" then Some (ascii_of_nat 10)
  else if Ascii.eqb c "r" then Some (ascii_of_nat 13)
  else if Ascii.eqb c "t" then Some (ascii_of_nat 9)
  else None.

Definition push (c : ascii) (r : option (list ascii * list ascii))
  : option (list ascii * list ascii) :=
  match r with
  | Some (str, rest) => Some (c :: str, rest)
  | None => None
  end.

(** The body of a string literal, after its opening quote: the decoded
    text and what follows the closing quote. Control characters are not
    accepted unescaped. An escape [\uXXXX] above U+00FF names a character
    the model does not have and is not accepted here, though [json.loads]
    accepts it; [spec.plain] describes the texts that hold no such
    escape. *)
Fixpoint scan_string (s : list ascii) : option (list ascii * list ascii) :=
  match s with
  | [] => None
  | c :: r =>
      if Ascii.eqb c pystr.quote then Some ([], r)
      else if Ascii.eqb c "\" then
        match r with
        | [] => None
        | e :: r' =>
            match unescape e with
            | Some x => push x (scan_string r')
            | None =>
                if Ascii.eqb e "u" then
                  match r' with
                  | h1 :: h2 :: h3 :: h4 :: r'' =>
                      match hex4 h1 h2 h3 h4 with
                      | Some n =>
                          if (n <? 256)%N
                          then push (ascii_of_N n) (scan_string r'')
                          else None
                      | None => None
                      end
                  | _ => None
                  end
                else None
            end
        end
      else if (pystr.code c <? 32)%N then None
      else push c (scan_string r)
  end.

(** A number at the head of the text: an optional minus sign; a single
    zero, or a non-zero digit and further digits; optionally a point and
    one or more digits; optionally an exponent letter, a sign and one or
    more digits. It is an [int] when it has neither fraction nor exponent,
    a [float] otherwise. *)
Definition scan_number (s : list ascii) : option (pyval * list ascii) :=
  let '(neg, r0) :=
    match s with
    | c :: r => if Ascii.eqb c "-" then (true, r) else (false, s)
    | [] => (false, s)
    end in
  match r0 with
  | c :: r1 =>
      if pyfloat.is_digit c then
        let '(m, _, r2) :=
          if Ascii.eqb c "0" then (0%N, 1, r1)
          else pyfloat.take_digits r0 0%N 0 in
        let '(m', nfrac, r3, has_frac) :=
          match r2 with
          | p :: d :: _ =>
              if Ascii.eqb p "." && pyfloat.is_digit d then
                let '(x, n, r) := pyfloat.take_digits (tail r2) m 0 in
                (x, n, r, true)
              else (m, 0, r2, false)
          | _ => (m, 0, r2, false)
          end in
        let exponent :=
          match r3 with
          | e :: r4 =>
              if Ascii.eqb e "e" || Ascii.eqb e "E" then
                let '(eneg, r5) := pyfloat.take_sign r4 in
                let '(x, n, r6) := pyfloat.take_digits r5 0%N 0 in
                match n with
                | O => None
                | S _ => Some (if eneg then (- Z.of_N x)%Z else Z.of_N x, r6)
                end
              else None
          | [] => None
          end in
        match exponent with
        | Some (ex, r6) =>
            Some (PFloat (pyfloat.of_decimal neg m' (ex - Z.of_nat nfrac)), r6)
        | None =>
            if has_frac
            then Some (PFloat (pyfloat.of_decimal neg m' (- Z.of_nat nfrac)), r3)
            else Some (PInt (if neg then (- Z.of_N m)%Z else Z.of_N m), r3)
        end
      else None
  | [] => None
  end.

Definition literal (word : string) (v : pyval) (s : list ascii)
  : option (pyval * list ascii) :=
  match strip_prefix (list_ascii_of_string word) s with
  | Some r => Some (v, r)
  | None => None
  end.

(** The constants, then numbers, then the non-standard constants, in the
    order the scanner of the [json] package tries them. *)
Definition scan_atom (s : list ascii) : option (pyval * list ascii) :=
  match literal "null" PNone s with
  | Some r => Some r
  | None =>
  match literal "true" (PBool true) s with
  | Some r => Some r
  | None =>
  match literal "false" (PBool false) s with
  | Some r => Some r
  | None =>
  match scan_number s with
  | Some r => Some r
  | None =>
  match literal "NaN" (PFloat S754_nan) s with
  | Some r => Some r
  | None =>
  match literal "Infinity" (PFloat (S754_infinity false)) s with
  | Some r => Some r
  | None => literal "-Infinity" (PFloat (S754_infinity true)) s
  end end end end end end.

(** One JSON value at the head of the text. [fuel] bounds the number of
    nested calls; [loads] gives enough for the whole text. *)
Fixpoint scan_once (fuel : nat) (s : list ascii) : option (pyval * list ascii) :=
  match fuel with
  | O => None
  | S n =>
      match s with
      | [] => None
      | c :: r =>
          if Ascii.eqb c pystr.quote then
            match scan_string r with
            | Some (str, r') => Some (PStr (string_of_list_ascii str), r')
            | None => None
            end
          else if Ascii.eqb c "{" then
            match skip_ws r with
            | [] => None
            | c' :: r' =>
                if Ascii.eqb c' "}" then Some (PDict [], r')
                else
                  match scan_members n (c' :: r') with
                  | Some (pairs, r'') => Some (PDict (pydict.of_pairs pairs), r'')
                  | None => None
                  end
            end
          else if Ascii.eqb c "[" then
            match skip_ws r with
            | [] => None
            | c' :: r' =>
                if Ascii.eqb c' "]" then Some (PList [], r')
                else
                  match scan_elems n (c' :: r') with
                  | Some (l, r'') => Some (PList l, r'')
                  | None => None
                  end
            end
          else scan_atom s
      end
  end

with scan_members (fuel : nat) (s : list ascii)
  : option (list (string * pyval) * list ascii) :=
  match fuel with
  | O => None
  | S n =>
      match s with
      | [] => None
      | q :: r =>
          if Ascii.eqb q pystr.quote then
            match scan_string r with
            | None => None
            | Some (k, r1) =>
                match skip_ws r1 with
                | [] => None
                | colon :: r2 =>
                    if Ascii.eqb colon ":" then
                      match scan_once n (skip_ws r2) with
                      | None => None
                      | Some (v, r3) =>
                          match skip_ws r3 with
                          | [] => None
                          | sep :: r4 =>
                              if Ascii.eqb sep "," then
                                match scan_members n (skip_ws r4) with
                                | Some (rest, r5) =>
                                    Some ((string_of_list_ascii k, v) :: rest, r5)
                                | None => None
                                end
                              else if Ascii.eqb sep "}" then
                                Some ([(string_of_list_ascii k, v)], r4)
                              else None
                          end
                      end
                    else None
                end
            end
          else None
      end
  end

with scan_elems (fuel : nat) (s : list ascii)
  : option (list pyval * list ascii) :=
  match fuel with
  | O => None
  | S n =>
      match scan_once n s with
      | None => None
      | Some (v, r1) =>
          match skip_ws r1 with
          | [] => None
          | sep :: r2 =>
              if Ascii.eqb sep "," then
                match scan_elems n (skip_ws r2) with
                | Some (rest, r3) => Some (v :: rest, r3)
                | None => None
                end
              else if Ascii.eqb sep "]" then Some ([v], r2)
              else None
          end
      end
  end.

(** [json.loads(s)]: one value, white space around it, nothing else. *)
Definition loads (s : string) : result pyval :=
  let l := list_ascii_of_string s in
  match scan_once (2 * length l + 2) (skip_ws l) with
  | Some (v, r) =>
      match skip_ws r with
      | [] => Ok v
      | _ :: _ => Raise JSONDecodeError
      end
  | None => Raise JSONDecodeError
  end.

End json.

(** ** Two regular expressions of the [re] package *)

Module re.

(** The pattern [.*c] with [re.DOTALL], anchored at the head of [s]: the
    longest prefix of [s] that ends with [c]. *)
Fixpoint greedy_until (c : ascii) (s : string) : option string :=
  match s with
  | EmptyString => None
  | String x r =>
      match greedy_until c r with
      | Some m => Some (String x m)
      | None => if Ascii.eqb x c then Some (String x EmptyString) else None
      end
  end.

(** The pattern [o.*c] anchored at the head of [s]. *)
Definition match_span (o c : ascii) (s : string) : option string :=
  match s with
  | EmptyString => None
  | String x r =>
      if Ascii.eqb x o then option_map (String x) (greedy_until c r) else None
  end.

(** [re.search('(o.*c)', s, re.DOTALL)] and its group 1: the match at the
    leftmost position that has one. *)
Fixpoint search_span (o c : ascii) (s : string) : option string :=
  match match_span o c s with
  | Some m => Some m
  | None =>
      match s with
      | EmptyString => None
      | String _ r => search_span o c r
      end
  end.

(** One or more characters other than the double quote, then a double
    quote, anchored at the head of [s]: the characters before the quote. *)
Fixpoint until_quote (s : string) : option string :=
  match s with
  | EmptyString => None
  | String x r =>
      if Ascii.eqb x pystr.quote then Some EmptyString
      else option_map (String x) (until_quote r)
  end.

Fixpoint drop_prefix (p s : string) : option string :=
  match p, s with
  | EmptyString, _ => Some s
  | String x p', String y s' => if Ascii.eqb x y then drop_prefix p' s' else None
  | String _ _, EmptyString => None
  end.

(** The pattern of the title attribute, anchored at the head of [s]: the
    word title, white space, an equals sign, white space, a double quote,
    one or more characters other than the double quote (group 1), a double
    quote. The result is group 1. *)
Definition match_title (s : string) : option string :=
  match drop_prefix "title" s with
  | None => None
  | Some r =>
      match pystr.lstrip_by pystr.isspace r with
      | String e r1 =>
          if Ascii.eqb e "=" then
            match pystr.lstrip_by pystr.isspace r1 with
            | String q r2 =>
                if Ascii.eqb q pystr.quote then
                  match until_quote r2 with
                  | Some (String x g) => Some (String x g)
                  | _ => None
                  end
                else None
            | EmptyString => None
            end
          else None
      | EmptyString => None
      end
  end.

(** [re.search] with that pattern. *)
Fixpoint search_title (s : string) : option string :=
  match match_title s with
  | Some g => Some g
  | None =>
      match s with
      | EmptyString => None
      | String _ r => search_title r
      end
  end.

End re.

(** ** The world: files, collaborators, console *)

Inductive event : Type :=
| EvRead (path : string)
| EvWrite (path content : string)
| EvRename (src dst : string)
| EvEval (template state_text : string)
| EvRewrite (original_prompt feedback_section : string)
| EvPrint (text : string).

Record world : Type := World {
  files : gmap string string;
  trace : list event
}.

(** What the sources take from outside the repository and no claim looks
    into: [repr] of a float or a container, the text [json.dump] writes
    with [ensure_ascii=False, indent=4], the optional [json5] package and
    the calendar date. *)
Record runtime : Type := Runtime {
  py_repr : pyval -> string;
  json_dump : pyval -> string;
  json5_loads : option (string -> result pyval);
  today : string
}.

(** [str(v)] *)
Definition py_str (rt : runtime) (v : pyval) : string :=
  match v with
  | PStr s => s
  | PNone => "None"
  | PBool true => "True"
  | PBool false => "False"
  | PInt z => pystr.str_of_Z z
  | _ => py_repr rt v
  end.

Definition nl : string := String (ascii_of_nat 10) EmptyString.

Definition M (A : Type) : Type := world -> result A * world.

Definition ret {A} (a : A) : M A := fun w => (Ok a, w).

Definition bind {A B} (m : M A) (k : A -> M B) : M B :=
  fun w =>
    match m w with
    | (Ok a, w') => k a w'
    | (Raise e, w') => (Raise e, w')
    end.

Definition lift {A} (r : result A) : M A := fun w => (r, w).

Definition raise {A} (e : exn) : M A := fun w => (Raise e, w).

(** [try: m except Exception: h] *)
Definition try_catch {A} (m : M A) (h : exn -> M A) : M A :=
  fun w =>
    match m w with
    | (Ok a, w') => (Ok a, w')
    | (Raise e, w') => h e w'
    end.

Declare Scope io_scope.
Delimit Scope io_scope with io.
Notation "x <- m ;; k" := (bind m (fun x => k))
  (at level 100, m at next level, right associativity) : io_scope.
Notation "m ;; k" := (bind m (fun _ => k))
  (at level 100, right associativity) : io_scope.
Open Scope io_scope.

Definition emit (e : event) : M unit :=
  fun w => (Ok tt, World (files w) (trace w ++ [e])).

(** [open(p).read()] *)
Definition read_text (p : string) : M string :=
  fun w =>
    match files w !! p with
    | Some c => (Ok c, World (files w) (trace w ++ [EvRead p]))
    | None => (Raise (FileNotFoundError p), w)
    end.

(** [open(p, 'w').write(c)]. The write goes through at every path and is
    all or nothing; [spec.can_create] and [spec.can_open] describe the
    paths at which [open] goes through, and [spec.plain] the texts that
    leave nothing behind that [json.dump] could stop at. *)
Definition write_text (p c : string) : M unit :=
  fun w => (Ok tt, World (<[p := c]> (files w)) (trace w ++ [EvWrite p c])).

(** [print(s)] *)
Definition print (s : string) : M unit := emit (EvPrint s).

Module ospath.

(** The part of [p] up to and including its last slash. *)
Fixpoint head (p : string) : option string :=
  match p with
  | EmptyString => None
  | String c r =>
      match head r with
      | Some h => Some (String c h)
      | None => if Ascii.eqb c "/" then Some (String c EmptyString) else None
      end
  end.

Definition is_slash (c : ascii) : bool := Ascii.eqb c "/".

(** [os.path.dirname(p)] *)
Definition dirname (p : string) : string :=
  match head p with
  | None => EmptyString
  | Some h =>
      match pystr.lstrip_by is_slash h with
      | EmptyString => h
      | _ => pystr.rstrip_by is_slash h
      end
  end.

(** [os.path.join(d, name)] for a relative [name]. *)
Definition join (d name : string) : string :=
  if String.eqb d "" || pystr.endswith "/" d then d +:+ name
  else d +:+ "/" +:+ name.

End ospath.

(** ** Directories over the file map

    Directories are implicit: one exists when a file lies under it.
    Creating a directory changes nothing, and no path is refused for lack
    of permission. *)

Module osdir.

Fixpoint first_component (s : string) : string :=
  match s with
  | EmptyString => EmptyString
  | String c r =>
      if Ascii.eqb c "/" then EmptyString else String c (first_component r)
  end.

(** The entry of directory [d] that leads to the file [key], if [key]
    lies under [d]. *)
Definition entry_under (d key : string) : option string :=
  match re.drop_prefix (ospath.join d "") key with
  | Some rest =>
      match first_component rest with
      | EmptyString => None
      | name => Some name
      end
  | None => None
  end.

(** The entries of [d], in the order the file map lists them
    ([os.listdir] promises no order). *)
Definition entries (fs : gmap string string) (d : string) : list string :=
  if String.eqb d "" then []
  else remove_dups (omap (entry_under d) (map fst (map_to_list fs))).

(** [os.path.isdir(d)] *)
Definition isdir (d : string) : M bool :=
  fun w =>
    (Ok (match entries (files w) d with [] => false | _ => true end), w).

(** [os.listdir(d)] *)
Definition listdir (d : string) : M (list string) :=
  fun w =>
    match entries (files w) d with
    | [] => (Raise (FileNotFoundError d), w)
    | names => (Ok names, w)
    end.

(** Move every file under directory [src] to the same place under
    [dst]. *)
Definition move_tree (fs : gmap string string) (src dst : string)
  : gmap string string :=
  fold_left
    (fun acc kv =>
       match re.drop_prefix (ospath.join src "") (fst kv) with
       | Some rest => <[ospath.join dst rest := snd kv]> (delete (fst kv) acc)
       | None => acc
       end)
    (map_to_list fs) fs.

(** [os.rename(src, dst)] *)
Definition rename (src dst : string) : M unit :=
  fun w =>
    match files w !! src with
    | Some c =>
        (Ok tt, World (<[dst := c]> (delete src (files w)))
                      (trace w ++ [EvRename src dst]))
    | None =>
        match entries (files w) src with
        | [] => (Raise (FileNotFoundError src), w)
        | _ => (Ok tt, World (move_tree (files w) src dst)
                             (trace w ++ [EvRename src dst]))
        end
    end.

End osdir.

(** [os.path.exists(p)]: a file, or a directory. *)
Definition exists_in (fs : gmap string string) (p : string) : bool :=
  bool_decide (is_Some (fs !! p))
  || match osdir.entries fs p with [] => false | _ => true end.

Definition path_exists (p : string) : M bool :=
  fun w => (Ok (exists_in (files w) p), w).

(** [os.makedirs(d, exist_ok=True)]. Directories are implicit in the
    file map, so the call changes nothing; it raises on the empty path,
    which is what [dirname] gives for a file name without a slash. A
    folder that lies under a regular file, which [os.makedirs] refuses,
    is not refused here: [spec.can_create] excludes it. *)
Definition makedirs (d : string) : M unit :=
  if String.eqb d "" then raise (FileNotFoundError d) else ret tt.

(** Iteration over an object, as [for x in v] does it. *)
Definition py_iter (v : pyval) : result (list pyval) :=
  match v with
  | PList l => Ok l
  | PDict d => Ok (map (fun kv => PStr (fst kv)) d)
  | PStr s =>
      Ok (map (fun c => PStr (String c EmptyString)) (list_ascii_of_string s))
  | _ => Raise TypeError
  end.

(** [v[k] = x] for a string key. *)
Definition py_setitem (v : pyval) (k : string) (x : pyval) : result pyval :=
  match v with
  | PDict d => Ok (PDict (pydict.set d k x))
  | _ => Raise TypeError
  end.

(** [v.strip()] *)
Definition py_strip (v : pyval) : result string :=
  match v with
  | PStr s => Ok (pystr.strip s)
  | _ => Raise AttributeError
  end.

(** ** [src/rl_agent.py]: the scoring orchestrator *)

Module rl_agent.

Section orchestrator.

Variable rt : runtime.

(** The evaluator collaborator (the chain built in [get_agent_action]):
    what the [n]-th invocation in a world returns or raises, given the
    prompt template and the state text. *)
Variable evaluator : nat -> string -> string -> result pyval.

Definition is_eval (e : event) : bool :=
  match e with
  | EvEval _ _ => true
  | _ => false
  end.

Definition invoke_evaluator (template state_text : string) : M pyval :=
  fun w =>
    (evaluator (length (filter is_eval (trace w))) template state_text,
     World (files w) (trace w ++ [EvEval template state_text])).

Definition load_articles (filename : string) : M pyval :=
  file_content <- read_text filename ;;
  lift (try_except (json.loads file_content)
          (fun e =>
             match json5_loads rt with
             | Some loads5 => loads5 file_content
             | None => Raise e
             end)).

Definition state_representation (article : pyval) : result string :=
  rbind (py_get article "title" (PStr "N/A")) (fun title =>
  rbind (py_get article "name" (PStr "N/A")) (fun name =>
  rbind (py_get article "count" (PStr "N/A")) (fun count =>
  rbind (py_get article "html" (PStr "")) (fun html =>
  Ok ("Title: " +:+ py_str rt title +:+ nl
      +:+ "Name: " +:+ py_str rt name +:+ nl
      +:+ "Count: " +:+ py_str rt count +:+ nl
      +:+ "HTML: " +:+ py_str rt html))))).

Definition prompt_path : string := "config/agent_prompt.txt".

(** The built-in prompt, after [dedent]. *)
Definition default_prompt : string := pystr.dq "
You are a news evaluation agent using the state-of-the-art Gemini model. Your task is to analyze the following article details and assess its tweet-worthiness. Consider aspects such as relevance, timeliness, clarity, and public interest.

Article details:
{state}

Provide your evaluation as a JSON object with the following keys:
    'tweet_worthiness': an integer score between 0 (not tweet-worthy) and 10 (highly tweet-worthy).
    'summary': a brief (1-2 sentence) summary explaining your evaluation.

Example output:
{{'tweet_worthiness': 8, 'summary': 'The article provides timely insights with significant public interest.'}}

Now, please provide your JSON evaluation.
".

Definition get_agent_prompt : M string :=
  found <- path_exists prompt_path ;;
  if found : bool then read_text prompt_path else ret default_prompt.

Definition get_agent_action (state_text : string) : M pyval :=
  prompt_template <- get_agent_prompt ;;
  result <- invoke_evaluator prompt_template state_text ;;
  print (py_str rt result) ;;
  ret result.

(** Lines 124 to 131: the answer as text. A dict gives its [text] item,
    which need not be a string. *)
Definition response_text_of (response_text : pyval) : pyval :=
  match response_text with
  | PStr s => PStr s
  | PDict d => pydict.get d "text" (PStr "")
  | v => PStr (py_str rt v)
  end.

(** Lines 136 to 144, on the stripped answer: drop the code fences, then
    take the span from the first opening brace to the last closing brace
    when there is one. *)
Definition extract_json (response_str : string) : string :=
  let response_str :=
    if pystr.startswith "```" response_str
    then pystr.strip (pystr.strip_chars "`" response_str)
    else response_str in
  match re.search_span "{" "}" response_str with
  | Some m => m
  | None => response_str
  end.

(** Lines 124 to 146 of [run_simulation]: the body of the [try]. *)
Definition parse_response (response_text : pyval) : M pyval :=
  response_str <- lift (py_strip (response_text_of response_text)) ;;
  print response_str ;;
  lift (json.loads (extract_json response_str)).

Definition fallback_action : pyval :=
  PDict [("tweet_worthiness", PInt 0);
         ("summary", PStr "Could not evaluate article.")].

(** Lines 152 and 153: the verdict goes into the record. *)
Definition inject (article action : pyval) : result pyval :=
  rbind (py_get action "tweet_worthiness" (PInt 0)) (fun tweet_worthiness =>
  rbind (py_setitem article "tweet_worthiness" tweet_worthiness) (fun article =>
  rbind (py_get action "summary" (PStr "No summary provided")) (fun summary =>
  py_setitem article "summary" summary))).

(** One turn of the loop of [run_simulation], lines 121 to 154. *)
Definition score_article (article : pyval) : M pyval :=
  state_text <- lift (state_representation article) ;;
  response_text <- get_agent_action state_text ;;
  action <- try_catch (parse_response response_text)
              (fun _ => ret fallback_action) ;;
  lift (inject article action).

(** The loop of [run_simulation]: [scored_articles] grows by one record
    per turn. *)
Fixpoint score_loop (articles scored_articles : list pyval) : M (list pyval) :=
  match articles with
  | [] => ret scored_articles
  | article :: rest =>
      scored <- score_article article ;;
      score_loop rest (scored_articles ++ [scored])
  end.

Definition default_input_file : string :=
  "data/raw/gdelt_articles_" +:+ today rt +:+ ".json".

Definition default_output_file : string :=
  "data/scored/generated_scored_articles_" +:+ today rt +:+ ".json".

Definition run_simulation (input_file output_file : option string) : M unit :=
  let input_file := default default_input_file input_file in
  let output_file := default default_output_file output_file in
  skip <- path_exists output_file ;;
  if skip : bool then ret tt
  else
    articles <- load_articles input_file ;;
    if negb (truthy articles) then ret tt
    else
      items <- lift (py_iter articles) ;;
      scored_articles <- score_loop items [] ;;
      try_catch
        (makedirs (ospath.dirname output_file) ;;
         write_text output_file (json_dump rt (PList scored_articles)))
        (fun _ => ret tt).

End orchestrator.

End rl_agent.

(** [v >= n] for an integer [n] that binary64 holds exactly: only numbers
    are ordered against an integer, and a NaN is below everything. *)
Definition py_ge_int (v : pyval) (n : Z) : result bool :=
  match v with
  | PInt z => Ok (n <=? z)%Z
  | PBool b => Ok (n <=? (if b then 1 else 0))%Z
  | PFloat f =>
      Ok match SFcompare f (pyfloat.of_Z n) with
         | Some Gt | Some Eq => true
         | _ => false
         end
  | _ => Raise TypeError
  end.

(** [len(v)] *)
Definition py_len (v : pyval) : result nat :=
  match v with
  | PList l => Ok (length l)
  | PDict d => Ok (length d)
  | PStr s => Ok (String.length s)
  | _ => Raise TypeError
  end.

Module pyint.

(** [int(s)] for a string, in base ten: surrounding white space is
    ignored, then an optional sign and digits are read, single underscores
    allowed between digits. Integers are unbounded: the limit an
    interpreter may put on the number of digits is not modelled. *)
Definition of_str (s : string) : result Z :=
  let body := list_ascii_of_string (pyfloat.strip_space s) in
  let '(neg, r) := pyfloat.take_sign body in
  match pyfloat.drop_underscores false r with
  | None => Raise ValueError
  | Some digits =>
      let '(m, n, rest) := pyfloat.take_digits digits 0%N 0 in
      match n, rest with
      | S _, [] => Ok (if neg : bool then (- Z.of_N m)%Z else Z.of_N m)
      | _, _ => Raise ValueError
      end
  end.

End pyint.

(** ** [src/summary_agent.py]: deduplication by title *)

Module summary_agent.

(** The normalised title of a record: [article.get("title", "")], then
    [.strip().lower()]. *)
Definition normalized_title (article : pyval) : result string :=
  rbind (py_get article "title" (PStr "")) (fun t =>
  rbind (py_strip t) (fun s => Ok (pystr.lower s))).

(** One turn of the loop of [deduplicate_articles] on the pair
    [(seen, unique_articles)]. *)
Definition dedup_step (st : gset string * list pyval) (article : pyval)
  : result (gset string * list pyval) :=
  rbind (normalized_title article) (fun title =>
  if negb (String.eqb title "") && bool_decide (title ∉ st.1)
  then Ok ({[title]} ∪ st.1, (st.2 ++ [article])%list)
  else Ok st).

Fixpoint dedup_loop (articles : list pyval) (st : gset string * list pyval)
  : result (gset string * list pyval) :=
  match articles with
  | [] => Ok st
  | article :: rest => rbind (dedup_step st article) (dedup_loop rest)
  end.

Definition deduplicate_articles (articles : list pyval) : result (list pyval) :=
  rbind (dedup_loop articles (∅, [])) (fun st => Ok st.2).

Section summary.

Variable rt : runtime.

(** [json.dumps(v, ensure_ascii=False, indent=2)], the text handed to the
    summarizer. *)
Variable json_dumps_indent2 : pyval -> string.

(** The summarizer collaborator (the chain built in [run_summary_agent]):
    what [chain.ainvoke] returns or raises for the JSON text of the
    batch. *)
Variable summarizer : string -> result pyval.

(** The prompt template of the chain, lines 71 to 79. *)
Definition summary_template : string :=
  "You are a news summary agent using the Gemini model. Your task is to produce a clean summary JSON from the provided list of scored news articles.
The summary JSON should include only articles with a tweet_worthiness score of 7 or higher, and duplicates (based on title) should be removed.
For each article, include all available metadata (such as title, name, count, shareimage, html, tweet_worthiness, summary, geometry, etc.).
Additionally, extract a valid URL from the article's HTML content (assume that the first <a> tag's href is the original story link) 
and include it in a field called " +:+ String pystr.quote "link" +:+ String pystr.quote ".
Output ONLY the final JSON array of article objects with no additional commentary.
Input JSON:
{articles}
".

Definition invoke_summarizer (articles_json : string) : M pyval :=
  fun w =>
    (summarizer articles_json,
     World (files w) (trace w ++ [EvEval summary_template articles_json])).

Definition load_scored_articles (filename : string) : M pyval :=
  content <- read_text filename ;;
  lift (json.loads content).

(** The test of the comprehension of line 65. *)
Definition worthy (a : pyval) : result bool :=
  rbind (py_get a "tweet_worthiness" (PInt 0)) (fun score => py_ge_int score 7).

(** The comprehension of line 65: the records are tested in order, and
    the first test that raises ends it. *)
Fixpoint filter_worthy (articles : list pyval) : result (list pyval) :=
  match articles with
  | [] => Ok []
  | a :: rest =>
      rbind (worthy a) (fun keep =>
      rbind (filter_worthy rest) (fun filtered =>
      Ok (if keep : bool then a :: filtered else filtered)))
  end.

(** Lines 91 to 94: the answer as text. *)
Definition response_text_of (raw_response : pyval) : pyval :=
  match raw_response with
  | PDict d => pydict.get d "text" (PStr "")
  | v => PStr (py_str rt v)
  end.

(** Lines 97 to 104, on the stripped answer: drop the code fences, then
    take the span from the first opening bracket to the last closing
    bracket when there is one. *)
Definition extract_array (response_str : string) : string :=
  let response_str :=
    if pystr.startswith "```" response_str
    then pystr.strip (pystr.strip_chars "`" response_str)
    else response_str in
  match re.search_span "[" "]" response_str with
  | Some m => m
  | None => response_str
  end.

(** Lines 91 to 105: the body of the [try]. *)
Definition parse_summary (raw_response : pyval) : result pyval :=
  rbind (py_strip (response_text_of raw_response)) (fun response_str =>
  json.loads (extract_array response_str)).

Definition default_input_file : string :=
  "data/scored/generated_scored_articles_" +:+ today rt +:+ ".json".

Definition default_output_file : string :=
  "data/summary/summary_" +:+ today rt +:+ ".json".

Definition run_summary_agent (input_file output_file : option string) : M unit :=
  let input_file := default default_input_file input_file in
  let output_file := default default_output_file output_file in
  found <- path_exists input_file ;;
  if negb found then ret tt
  else
    articles <- load_scored_articles input_file ;;
    if negb (truthy articles) then ret tt
    else
      items <- lift (py_iter articles) ;;
      filtered <- lift (filter_worthy items) ;;
      unique_articles <- lift (deduplicate_articles filtered) ;;
      let articles_json := json_dumps_indent2 (PList unique_articles) in
      raw_response <- invoke_summarizer articles_json ;;
      let summary_articles :=
        match parse_summary raw_response with
        | Ok summary_articles => summary_articles
        | Raise _ => PList unique_articles
        end in
      makedirs (ospath.dirname output_file) ;;
      try_catch (write_text output_file (json_dump rt summary_articles))
        (fun _ => ret tt).

End summary.

End summary_agent.

(** ** [src/gdelt_pipeline.py]: the fetch stage *)

Module gdelt_pipeline.

(** What [requests.get] returns: the success flag, the status code and
    what [response.json()] gives or raises. *)
Record response : Type := Response {
  ok : bool;
  status_code : Z;
  body : result pyval
}.

Section fetch.

(** The news-source collaborator: the outcome of the request for the
    given query parameters. [Raise] is a transport failure or a timeout. *)
Variable news_source : pydict.dict -> result response.

Definition default_params : pydict.dict :=
  [("query", PStr "landslide");
   ("mode", PStr "PointData");
   ("timespan", PStr "1d");
   ("format", PStr "geojson");
   ("maxrecords", PInt 10)].

(** [features[:10]] *)
Definition first_ten (features : pyval) : result (list pyval) :=
  match features with
  | PList l => Ok (take 10 l)
  | PStr s =>
      Ok (take 10 (map (fun c => PStr (String c EmptyString))
                     (list_ascii_of_string s)))
  | _ => Raise TypeError
  end.

(** [re.search(pattern, html_content)] and [match.group(1)] *)
Definition search_title (html_content : pyval) : result (option string) :=
  match html_content with
  | PStr h => Ok (re.search_title h)
  | _ => Raise TypeError
  end.

(** The body of the loop over the features, lines 59 to 78. *)
Definition process_feature (feature : pyval) : result pyval :=
  rbind (py_get feature "properties" (PDict [])) (fun properties =>
  rbind (py_get feature "geometry" (PDict [])) (fun geometry =>
  rbind (py_get properties "html" (PStr "")) (fun html_content =>
  rbind (py_get properties "title" PNone) (fun title_value =>
  rbind (if negb (truthy title_value) then
           rbind (search_title html_content) (fun m =>
             match m with
             | Some g => Ok (PStr g)
             | None => py_get properties "name" (PStr "N/A")
             end)
         else Ok title_value) (fun title_value =>
  rbind (py_get properties "name" (PStr "N/A")) (fun name =>
  rbind (py_get properties "count" (PStr "N/A")) (fun count =>
  rbind (py_get properties "shareimage" (PStr "N/A")) (fun shareimage =>
  Ok (PDict [("title", title_value);
             ("name", name);
             ("count", count);
             ("shareimage", shareimage);
             ("html", html_content);
             ("geometry", geometry)]))))))))).

Fixpoint process_loop (features processed_articles : list pyval)
  : result (list pyval) :=
  match features with
  | [] => Ok processed_articles
  | feature :: rest =>
      rbind (process_feature feature) (fun processed =>
      process_loop rest (processed_articles ++ [processed]))
  end.

(** The body of the [try] of [fetch_gdelt_articles]. *)
Definition fetch_body (params : pydict.dict) : result (list pyval) :=
  rbind (news_source params) (fun response =>
  if ok response then
    rbind (body response) (fun data =>
    rbind (py_get data "features" (PList [])) (fun features =>
    if negb (truthy features) then Ok []
    else rbind (first_ten features) (fun l => process_loop l [])))
  else Ok []).

(** Lines 32 to 41: a non-empty configuration updates the defaults. *)
Definition merge_params (custom_params : option pydict.dict) : pydict.dict :=
  match custom_params with
  | Some (kv :: more) => pydict.update default_params (kv :: more)
  | _ => default_params
  end.

Definition fetch_gdelt_articles (custom_params : option pydict.dict)
  : list pyval :=
  match fetch_body (merge_params custom_params) with
  | Ok processed_articles => processed_articles
  | Raise _ => []
  end.

End fetch.

Section pipeline.

Variable rt : runtime.
Variable news_source : pydict.dict -> result response.

Definition default_filename : string := "data/gdelt_articles.json".

Definition save_articles_to_file (articles : pyval) (filename : string)
  : M unit :=
  try_catch
    (makedirs (ospath.dirname filename) ;;
     write_text filename (json_dump rt articles))
    (fun _ => ret tt).

Definition main : M unit :=
  let articles := fetch_gdelt_articles news_source None in
  match articles with
  | [] => ret tt
  | _ :: _ => save_articles_to_file (PList articles) default_filename
  end.

End pipeline.

End gdelt_pipeline.

(** [k in v] for a string [k] *)
Fixpoint substring_of (needle s : string) : bool :=
  String.prefix needle s
  || match s with
     | EmptyString => false
     | String _ r => substring_of needle r
     end.

Definition is_str (k : string) (v : pyval) : bool :=
  match v with
  | PStr s => String.eqb s k
  | _ => false
  end.

Definition py_contains (v : pyval) (k : string) : result bool :=
  match v with
  | PDict d => Ok (pydict.contains d k)
  | PList l => Ok (existsb (is_str k) l)
  | PStr s => Ok (substring_of k s)
  | _ => Raise TypeError
  end.

(** [v[k]] for a string key *)
Definition py_getitem (v : pyval) (k : string) : result pyval :=
  match v with
  | PDict d =>
      match pydict.lookup d k with
      | Some x => Ok x
      | None => Raise (KeyError k)
      end
  | _ => Raise TypeError
  end.

(** ** [src/prompt_updater.py]: feedback aggregation and prompt rewrite *)

Module prompt_updater.

Section updater.

Variable rt : runtime.

(** The rewrite collaborator (the chain built in [agent_improve_prompt]):
    what [chain.run] returns or raises for the current instructions and
    the feedback document. *)
Variable rewriter : string -> string -> result pyval.

(** One turn of the loop of lines 71 to 78 on the pair
    [(human_scores, feedback_entries)]. *)
Definition feedback_step (acc : list spec_float * list string) (article : pyval)
  : result (list spec_float * list string) :=
  rbind (py_contains article "user_score") (fun has_score =>
  rbind (if has_score : bool then py_contains article "user_reasoning"
         else Ok false) (fun reviewed =>
  if reviewed : bool then
    match rbind (py_getitem article "user_score") py_float with
    | Raise _ => Ok acc
    | Ok score =>
        rbind (py_getitem article "user_reasoning") (fun reasoning =>
        Ok ((acc.1 ++ [score])%list,
            (acc.2 ++ ["Score: " +:+ pyfloat.format_fixed 1 score
                       +:+ " - " +:+ py_str rt reasoning])%list))
    end
  else Ok acc)).

Fixpoint feedback_loop (articles : list pyval)
  (acc : list spec_float * list string)
  : result (list spec_float * list string) :=
  match articles with
  | [] => Ok acc
  | article :: rest => rbind (feedback_step acc article) (feedback_loop rest)
  end.

(** [sum(human_scores)]: the additions run left to right from zero. An
    interpreter that compensates the rounding error of [sum] gives the
    same float whenever the partial sums are exact, as they are for
    integer scores. *)
Definition sum (human_scores : list spec_float) : spec_float :=
  fold_left pyfloat.add human_scores (S754_zero false).

(** [sum(human_scores) / len(human_scores)] *)
Definition avg_score (human_scores : list spec_float) : spec_float :=
  pyfloat.div (sum human_scores) (pyfloat.of_Z (Z.of_nat (length human_scores))).

Fixpoint entry_lines (feedback_entries : list string) : string :=
  match feedback_entries with
  | [] => ""
  | entry :: rest => entry +:+ nl +:+ entry_lines rest
  end.

(** Lines 87 to 91: the feedback document. *)
Definition feedback_section (human_scores : list spec_float)
  (feedback_entries : list string) : string :=
  nl +:+ nl +:+ "=== Human Feedback Integration ===" +:+ nl
  +:+ "Average Human Score: "
  +:+ pyfloat.format_fixed 2 (avg_score human_scores) +:+ nl
  +:+ "Detailed Feedback:" +:+ nl
  +:+ entry_lines feedback_entries.

Definition agent_improve_prompt (original_prompt feedback : string) : M string :=
  emit (EvRewrite original_prompt feedback) ;;
  raw_response <- lift (rewriter original_prompt feedback) ;;
  let improved_prompt :=
    match raw_response with
    | PDict d => pydict.get d "text" raw_response
    | v => v
    end in
  lift (py_strip improved_prompt).

(** [json.load] of the file at [path]. *)
Definition load_json (path : string) : M pyval :=
  content <- read_text path ;;
  lift (json.loads content).

Definition is_json_name (filename : string) : bool :=
  pystr.endswith ".json" (pystr.lower filename).

(** Lines 32 to 40: the files of the daily directory, one after the
    other; a file that fails to load is passed over. *)
Fixpoint load_daily (daily_dir : string) (names : list string)
  (articles : list pyval) : M (list pyval) :=
  match names with
  | [] => ret articles
  | filename :: rest =>
      if is_json_name filename then
        articles <- try_catch
          (daily_articles <- load_json (ospath.join daily_dir filename) ;;
           more <- lift (py_iter daily_articles) ;;
           ret (articles ++ more)%list)
          (fun _ => ret articles) ;;
        load_daily daily_dir rest articles
      else load_daily daily_dir rest articles
  end.

(** Lines 111 to 119: archive the daily files; a file that cannot be
    moved is passed over. *)
Fixpoint archive_daily (daily_dir archive_dir : string) (names : list string)
  : M unit :=
  match names with
  | [] => ret tt
  | filename :: rest =>
      (if is_json_name filename then
         try_catch
           (osdir.rename (ospath.join daily_dir filename)
              (ospath.join archive_dir filename))
           (fun _ => ret tt)
       else ret tt) ;;
      archive_daily daily_dir archive_dir rest
  end.

(** Lines 45 to 54 and 58 to 67: the single scored file. [None] stands
    for the early [return False]. *)
Definition load_generated (generated_json_path : string) : M (option pyval) :=
  found <- path_exists generated_json_path ;;
  if found : bool then
    try_catch
      (articles <- load_json generated_json_path ;; ret (Some articles))
      (fun _ => ret None)
  else ret None.

(** Lines 69 to 123, from the loaded [articles] on. *)
Definition update_from (articles : pyval) (daily_dir : option string)
  (prompt_path : string) : M bool :=
  items <- lift (py_iter articles) ;;
  acc <- lift (feedback_loop items ([], [])) ;;
  match acc.1 with
  | [] => ret false
  | _ :: _ =>
      let feedback := feedback_section acc.1 acc.2 in
      try_catch
        (found <- path_exists prompt_path ;;
         original_prompt <- (if found : bool then read_text prompt_path
                             else ret "") ;;
         improved_prompt <- agent_improve_prompt original_prompt feedback ;;
         write_text prompt_path improved_prompt ;;
         match daily_dir with
         | Some dir =>
             let archive_dir :=
               ospath.join (ospath.dirname dir) "processed_daily" in
             found <- path_exists archive_dir ;;
             (if found : bool then ret tt else makedirs archive_dir) ;;
             names <- osdir.listdir dir ;;
             archive_daily dir archive_dir names
         | None => ret tt
         end ;;
         ret true)
        (fun _ => ret false)
  end.

Definition improve_prompt (generated_json_path : string)
  (daily_dir : option string) (prompt_path : string) : M bool :=
  match daily_dir with
  | Some dir =>
      is_dir <- osdir.isdir dir ;;
      articles <- (if is_dir : bool then
                     names <- osdir.listdir dir ;;
                     load_daily dir names []
                   else ret []) ;;
      match articles with
      | [] =>
          loaded <- load_generated generated_json_path ;;
          match loaded with
          | Some articles => update_from articles daily_dir prompt_path
          | None => ret false
          end
      | _ :: _ => update_from (PList articles) daily_dir prompt_path
      end
  | None =>
      loaded <- load_generated generated_json_path ;;
      match loaded with
      | Some articles => update_from articles daily_dir prompt_path
      | None => ret false
      end
  end.

End updater.

End prompt_updater.

(** ** [src/prompt_agent.py] and [main.py]: the update command *)

Module prompt_agent.

(** What a name can be bound to in this module: a function of the
    repository or of the interpreter. Neither has a method. *)
Inductive pyobj : Type :=
| OFunction (qualname : string)
| OBuiltin (name : string).

(** The names the module binds at import: its only statement is the
    definition of [improve_agent_prompt]. *)
Definition module_globals : list string :=
  ["__name__"; "__doc__"; "__package__"; "__loader__"; "__spec__";
   "__file__"; "__cached__"; "__builtins__"; "improve_agent_prompt"].

(** The names of the [builtins] module. *)
Definition builtins : list string :=
  ["abs"; "aiter"; "all"; "anext"; "any"; "ascii"; "bin"; "bool";
   "breakpoint"; "bytearray"; "bytes"; "callable"; "chr"; "classmethod";
   "compile"; "complex"; "copyright"; "credits"; "delattr"; "dict"; "dir";
   "divmod"; "enumerate"; "eval"; "exec"; "exit"; "filter"; "float";
   "format"; "frozenset"; "getattr"; "globals"; "hasattr"; "hash"; "help";
   "hex"; "id"; "input"; "int"; "isinstance"; "issubclass"; "iter"; "len";
   "license"; "list"; "locals"; "map"; "max"; "memoryview"; "min"; "next";
   "object"; "oct"; "open"; "ord"; "pow"; "print"; "property"; "quit";
   "range"; "repr"; "reversed"; "round"; "set"; "setattr"; "slice";
   "sorted"; "staticmethod"; "str"; "sum"; "super"; "tuple"; "type";
   "vars"; "zip"; "__import__"; "__debug__"; "Ellipsis"; "NotImplemented";
   "ArithmeticError"; "AssertionError"; "AttributeError"; "BaseException";
   "BlockingIOError"; "BrokenPipeError"; "BufferError"; "BytesWarning";
   "ChildProcessError"; "ConnectionAbortedError"; "ConnectionError";
   "ConnectionRefusedError"; "ConnectionResetError"; "DeprecationWarning";
   "EOFError"; "EnvironmentError"; "Exception"; "FileExistsError";
   "FileNotFoundError"; "FloatingPointError"; "FutureWarning";
   "GeneratorExit"; "IOError"; "ImportError"; "ImportWarning";
   "IndentationError"; "IndexError"; "InterruptedError";
   "IsADirectoryError"; "KeyError"; "KeyboardInterrupt"; "LookupError";
   "MemoryError"; "ModuleNotFoundError"; "NameError";
   "NotADirectoryError"; "NotImplementedError"; "OSError";
   "OverflowError"; "PendingDeprecationWarning"; "PermissionError";
   "ProcessLookupError"; "RecursionError"; "ReferenceError";
   "ResourceWarning"; "RuntimeError"; "RuntimeWarning";
   "StopAsyncIteration"; "StopIteration"; "SyntaxError"; "SyntaxWarning";
   "SystemError"; "SystemExit"; "TabError"; "TimeoutError"; "TypeError";
   "UnboundLocalError"; "UnicodeDecodeError"; "UnicodeEncodeError";
   "UnicodeError"; "UnicodeTranslateError"; "UnicodeWarning";
   "UserWarning"; "ValueError"; "Warning"; "ZeroDivisionError"].

(** A name that the function neither takes as a parameter nor assigns is
    looked up in the module, then in [builtins]. *)
Definition load_global (name : string) : result pyobj :=
  if bool_decide (name ∈ module_globals) then Ok (OFunction name)
  else if bool_decide (name ∈ builtins) then Ok (OBuiltin name)
  else Raise (NameError name).

(** [obj.run(...)] on such an object. *)
Definition call_run (obj : pyobj) (args : list pyobj) : result pyval :=
  Raise AttributeError.

(** The three parameters are never used. Line 17 loads [chain], then the
    two values of the argument dict, and calls. *)
Definition improve_agent_prompt (generated_json_path : string)
  (daily_dir : option string) (prompt_path : string) : M pyval :=
  chain <- lift (load_global "chain") ;;
  original_prompt <- lift (load_global "original_prompt") ;;
  feedback_section <- lift (load_global "feedback_section") ;;
  raw_response <- lift (call_run chain [original_prompt; feedback_section]) ;;
  let improved_prompt :=
    match raw_response with
    | PDict d => pydict.get d "text" raw_response
    | v => v
    end in
  improved_prompt <- lift (py_strip improved_prompt) ;;
  ret (PStr improved_prompt).

End prompt_agent.

Module main.

Section commands.

Variable rt : runtime.

(** The parsed arguments of the [update_prompt] command. *)
Record args : Type := Args {
  generated : string;
  daily_dir : option string;
  prompt : string
}.

(** The defaults of the argument parser. *)
Definition default_args : args :=
  Args "data/generated_scored_articles.json" None "config/agent_prompt.txt".

Definition run_prompt_update (a : args) : M unit :=
  let default_generated :=
    "data/scored/generated_scored_articles_" +:+ today rt +:+ ".json" in
  let generated_path :=
    if String.eqb (generated a) "data/generated_scored_articles.json"
    then default_generated else generated a in
  updated <- prompt_agent.improve_agent_prompt generated_path (daily_dir a)
               (prompt a) ;;
  if truthy updated then print "Prompt updated successfully."
  else print "Failed to update prompt.".

(** The collaborators of the other commands. *)
Variable news_source : pydict.dict -> result gdelt_pipeline.response.
Variable evaluator : nat -> string -> string -> result pyval.

(** [default_params.update(l)] for a list [l]: each item is read as a
    pair whose first part becomes a key, of any hashable type; the
    dictionaries of the model have string keys only, so this case of
    [dict.update] is left to the interpreter. *)
Variable dict_update_list : pydict.dict -> list pyval -> result pydict.dict.






End commands.

End main.

(** ** [app.py]: the review gate *)

Module app.

Inductive http_method : Type := GET | HEAD | POST.

(** What the routes read of a request: its method and the fields of the
    submitted form, in the order they were sent. *)
Record request : Type := Request {
  method : http_method;
  form : list (string * string)
}.

(** What a route returns: a redirect to a location, or a template with
    the values it is rendered from. *)
Inductive response : Type :=
| Redirect (location : string)
| Render (template : string) (context : list (string * pyval)).

(** [request.form.get(k)]: the first value sent for [k]. *)
Fixpoint form_get (fields : list (string * string)) (k : string)
  : option string :=
  match fields with
  | [] => None
  | (k', v) :: r => if String.eqb k k' then Some v else form_get r k
  end.

(** [int(x)] for what [form.get] gives. *)
Definition py_int (x : option string) : result Z :=
  match x with
  | Some s => pyint.of_str s
  | None => Raise TypeError
  end.

Definition of_option (x : option string) : pyval :=
  match x with
  | Some s => PStr s
  | None => PNone
  end.

(** [name] matches [generated_scored_articles_*.json]. *)
Definition is_scored_name (name : string) : bool :=
  match re.drop_prefix "generated_scored_articles_" name with
  | Some rest => pystr.endswith ".json" rest
  | None => false
  end.

Fixpoint insert_sorted (x : string) (l : list string) : list string :=
  match l with
  | [] => [x]
  | y :: r => if String.leb x y then x :: l else y :: insert_sorted x r
  end.

(** [files.sort()]: code-point order. *)
Definition sort (l : list string) : list string :=
  fold_right insert_sorted [] l.

(** [glob.glob("data/scored/generated_scored_articles_*.json")]: the
    entries of the folder whose name matches, files and folders alike. *)
Definition glob_scored (fs : gmap string string) : list string :=
  map (fun name => "data/scored/" +:+ name)
    (List.filter is_scored_name (osdir.entries fs "data/scored")).

Definition get_latest_file : M string :=
  fun w =>
    (Ok match sort (glob_scored (files w)) with
        | [] => "data/generated_scored_articles.json"
        | f :: more => List.last more f
        end, w).

Definition url_for_article (article_index : nat) : string :=
  "/article/" +:+ pystr.str_of_N (N.of_nat article_index).

Section routes.

Variable rt : runtime.

(** The scored file chosen when the module is loaded. *)
Variable DATA_PATH : string.

Definition load_articles : M pyval :=
  content <- read_text DATA_PATH ;;
  lift (json.loads content).

Definition save_articles (articles : pyval) : M unit :=
  write_text DATA_PATH (json_dump rt articles).

(** [articles[article_index]] for an index below [len(articles)]. An
    object has no integer key. *)
Definition item_at (articles : pyval) (article_index : nat) : result pyval :=
  match articles with
  | PList l =>
      match l !! article_index with
      | Some x => Ok x
      | None => Raise (KeyError (pystr.str_of_N (N.of_nat article_index)))
      end
  | PStr s =>
      match list_ascii_of_string s !! article_index with
      | Some c => Ok (PStr (String c EmptyString))
      | None => Raise (KeyError (pystr.str_of_N (N.of_nat article_index)))
      end
  | PDict _ => Raise (KeyError (pystr.str_of_N (N.of_nat article_index)))
  | _ => Raise TypeError
  end.

(** [articles[article_index] = article_data] for an index below
    [len(articles)]. *)
Definition set_item_at (articles : pyval) (article_index : nat)
  (article_data : pyval) : result pyval :=
  match articles with
  | PList l => Ok (PList (<[article_index := article_data]> l))
  | _ => Raise TypeError
  end.

(** Lines 49 to 54: the human verdict, from the record itself when the
    reviewer agrees, from the form otherwise. *)
Definition submitted (article_data : pyval) (fields : list (string * string))
  : result (pyval * pyval) :=
  if bool_decide (form_get fields "action" = Some "agree") then
    rbind (py_get article_data "tweet_worthiness" PNone) (fun user_score =>
    rbind (py_get article_data "summary" PNone) (fun user_reasoning =>
    Ok (user_score, user_reasoning)))
  else
    rbind (py_int (form_get fields "user_score")) (fun user_score =>
    Ok (PInt user_score, of_option (form_get fields "user_reasoning"))).

(** [(article_index / total_articles) * 100] *)
Definition progress (article_index total_articles : nat) : spec_float :=
  SFmul pyfloat.prec pyfloat.emax
    (pyfloat.div (pyfloat.of_Z (Z.of_nat article_index))
       (pyfloat.of_Z (Z.of_nat total_articles)))
    (pyfloat.of_Z 100).

(** The route [/article/<int:article_index>]. *)
Definition article (article_index : nat) (req : request) : M response :=
  articles <- load_articles ;;
  total_articles <- lift (py_len articles) ;;
  if (total_articles <=? article_index)%nat then ret (Redirect "/completed")
  else
    article_data <- lift (item_at articles article_index) ;;
    match method req with
    | POST =>
        verdict <- lift (submitted article_data (form req)) ;;
        article_data <- lift (py_setitem article_data "user_score" verdict.1) ;;
        article_data <- lift (py_setitem article_data "user_reasoning"
                                verdict.2) ;;
        articles <- lift (set_item_at articles article_index article_data) ;;
        save_articles articles ;;
        ret (Redirect (url_for_article (article_index + 1)))
    | _ =>
        ret (Render "article.html"
               [("article", article_data);
                ("article_index", PInt (Z.of_nat article_index));
                ("total_articles", PInt (Z.of_nat total_articles));
                ("progress", PFloat (progress article_index total_articles))])
    end.

End routes.

End app.

(** ** Notions used in the statements *)

Module spec.

(** The recovery protocol of the orchestrator without its console
    output: the answer as text, stripped, unfenced, cut to the brace
    span, decoded. *)
Definition decode (rt : runtime) (response_text : pyval) : result pyval :=
  rbind (py_strip (rl_agent.response_text_of rt response_text)) (fun s =>
  json.loads (rl_agent.extract_json s)).

(** The verdict merged into a record: what [decode] gives, or the
    fallback when it raises. *)
Definition verdict (rt : runtime) (response_text : pyval) : pyval :=
  match decode rt response_text with
  | Ok action => action
  | Raise _ => rl_agent.fallback_action
  end.

(** Record [s] is record [a] with the verdict of an answer the
    evaluator gave for it. *)
Definition scored_from (rt : runtime)
  (evaluator : nat -> string -> string -> result pyval) (a s : pyval) : Prop :=
  exists n template state_text response,
    rl_agent.state_representation rt a = Ok state_text
    /\ evaluator n template state_text = Ok response
    /\ rl_agent.inject a (verdict rt response) = Ok s.

(** An integer from 0 to 10. *)
Definition in_range (v : pyval) : Prop :=
  exists z : Z, v = PInt z /\ (0 <= z <= 10)%Z.

Definition is_read (p : string) (e : event) : bool :=
  match e with
  | EvRead q => String.eqb p q
  | _ => false
  end.

Definition is_write (e : event) : bool :=
  match e with
  | EvWrite _ _ => true
  | _ => false
  end.

(** How often the file [p] is read in a trace. *)
Definition count_reads (p : string) (t : list event) : nat :=
  length (filter (is_read p) t).

(** How often the evaluator is invoked in a trace. *)
Definition count_evals (t : list event) : nat :=
  length (filter rl_agent.is_eval t).

(** How often a file is written in a trace. *)
Definition count_writes (t : list event) : nat :=
  length (filter is_write t).

(** Record [i] of a batch is the first one with its title: the title is
    not empty and no earlier record has it. [titles] are the normalised
    titles of the batch. *)
Definition first_with_title (titles : list string) (i : nat) : bool :=
  match titles !! i with
  | Some t =>
      negb (String.eqb t "") && negb (existsb (String.eqb t) (take i titles))
  | None => false
  end.

(** The records of a batch that are the first with their title, in the
    order of the batch. *)
Definition firsts_by_title (articles : list pyval) (titles : list string)
  : list pyval :=
  mjoin (imap (fun i a => if first_with_title titles i then [a] else [])
           articles).

(** A record is reviewed when it carries both human fields. *)
Definition reviewed (d : pydict.dict) : bool :=
  pydict.contains d "user_score" && pydict.contains d "user_reasoning".

(** The score of a reviewed record, when it can be made a number. *)
Definition usable_score (d : pydict.dict) : option spec_float :=
  if reviewed d then
    match pydict.lookup d "user_score" with
    | Some v =>
        match py_float v with
        | Ok f => Some f
        | Raise _ => None
        end
    | None => None
    end
  else None.

(** The line of the feedback document for a record with score [f]. *)
Definition feedback_line (rt : runtime) (d : pydict.dict) (f : spec_float)
  : string :=
  "Score: " +:+ pyfloat.format_fixed 1 f +:+ " - "
  +:+ py_str rt (pydict.get d "user_reasoning" PNone).

(** A computation that writes no file: whatever its outcome, the files
    are as before and the events it adds hold no write. *)
Definition writes_nothing {A} (m : M A) : Prop :=
  forall w r w',
    m w = (r, w') ->
    files w' = files w
    /\ exists t, trace w' = (trace w ++ t)%list /\ count_writes t = 0.

(** The text of the answer of the rewrite collaborator, when it has one:
    the answer itself, or its [text] item when the answer is a dict. *)
Definition answer_text (raw_response : pyval) : option string :=
  match match raw_response with
        | PDict d => pydict.get d "text" raw_response
        | v => v
        end with
  | PStr s => Some s
  | _ => None
  end.

(** A record that survives, with its score. *)
Definition survivor (d : pydict.dict) : option (pydict.dict * spec_float) :=
  match usable_score d with
  | Some f => Some (d, f)
  | None => None
  end.

(** The scored file of a date, as the scoring stage names it. *)
Definition scored_file (date : string) : string :=
  "data/scored/generated_scored_articles_" +:+ date +:+ ".json".

(** The record that the review gate stores for record [d] and a human
    verdict. *)
Definition reviewed_as (d : pydict.dict) (user_score user_reasoning : pyval)
  : pydict.dict :=
  pydict.set (pydict.set d "user_score" user_score)
    "user_reasoning" user_reasoning.

(** The feedback document made from a batch of records. *)
Definition feedback_of (rt : runtime) (ds : list pydict.dict) : string :=
  prompt_updater.feedback_section (map snd (omap survivor ds))
    (map (fun df => feedback_line rt df.1 df.2) (omap survivor ds)).

(** The instructions that a run in a world with the files [fs] hands to
    the evaluator: the content of the instruction file, or the built-in
    prompt when there is none. *)
Definition prompt_of (fs : gmap string string) : string :=
  default rl_agent.default_prompt (fs !! rl_agent.prompt_path).

(** Record [s] is record [a] with the verdict of the answer that
    invocation number [n] of the evaluator gave for it under the
    instructions [template]. *)
Definition scored_at (rt : runtime)
  (evaluator : nat -> string -> string -> result pyval)
  (template : string) (n : nat) (a s : pyval) : Prop :=
  exists state_text response,
    rl_agent.state_representation rt a = Ok state_text
    /\ evaluator n template state_text = Ok response
    /\ rl_agent.inject a (verdict rt response) = Ok s.

(** Text that [json.loads] of the model reads as the interpreter does.
    It holds no escape [\u]: such an escape may name a character beyond
    U+00FF, a lone surrogate among them, which the strings of the model do
    not have; [json.loads] accepts it, the decoder of the model does not,
    and [json.dump] with [ensure_ascii=False] stops in the middle of the
    file at a lone surrogate. It holds no run of more than 4300 digits,
    the longest integer literal an interpreter converts by default. Its
    brackets nest less than a hundred deep, well within the recursion
    limit of an interpreter. *)
Definition no_escape (s : string) : bool := negb (substring_of "\u" s).

Fixpoint short_numbers_from (run : nat) (s : string) : bool :=
  match s with
  | EmptyString => true
  | String c r =>
      if pyfloat.is_digit c
      then (run <? 4300)%nat && short_numbers_from (S run) r
      else short_numbers_from 0 r
  end.

(** The depth of the brackets outside the string literals of [s], read
    from the left, stays below a hundred. *)
Fixpoint shallow_from (in_string escaped : bool) (depth : nat) (s : string)
  : bool :=
  match s with
  | EmptyString => true
  | String c r =>
      if in_string then
        if escaped then shallow_from true false depth r
        else if Ascii.eqb c "\" then shallow_from true true depth r
        else if Ascii.eqb c pystr.quote then shallow_from false false depth r
        else shallow_from true false depth r
      else if Ascii.eqb c pystr.quote then shallow_from true false depth r
      else if Ascii.eqb c "[" || Ascii.eqb c "{"
      then (depth <? 99)%nat && shallow_from false false (S depth) r
      else if Ascii.eqb c "]" || Ascii.eqb c "}"
      then shallow_from false false (pred depth) r
      else shallow_from false false depth r
  end.

Definition plain (s : string) : bool :=
  no_escape s && short_numbers_from 0 s && shallow_from false false 0 s.

(** The text that the scoring stage hands to [json.loads] for an answer
    of the evaluator is plain. *)
Definition plain_answer (rt : runtime) (response_text : pyval) : bool :=
  match py_strip (rl_agent.response_text_of rt response_text) with
  | Ok s => plain (rl_agent.extract_json s)
  | Raise _ => true
  end.

(** The text that the summary stage hands to [json.loads] for an answer
    of the summarizer is plain. *)
Definition plain_summary (rt : runtime) (raw_response : pyval) : bool :=
  match py_strip (summary_agent.response_text_of rt raw_response) with
  | Ok s => plain (summary_agent.extract_array s)
  | Raise _ => true
  end.

(** The file at [p], if there is one, holds plain text. *)
Definition plain_file (fs : gmap string string) (p : string) : bool :=
  match fs !! p with
  | Some content => plain content
  | None => true
  end.

(** [os.path.isfile(p)] and [os.path.isdir(p)] *)
Definition is_file (fs : gmap string string) (p : string) : bool :=
  bool_decide (is_Some (fs !! p)).

Definition is_folder (fs : gmap string string) (p : string) : bool :=
  match osdir.entries fs p with
  | [] => false
  | _ => true
  end.

(** The folders on the way to [rest], a path that continues [seen]: the
    part of the path before each of its slashes. *)
Fixpoint folders_from (seen rest : string) : list string :=
  match rest with
  | EmptyString => []
  | String c r =>
      if Ascii.eqb c "/" then seen :: folders_from (seen +:+ "/") r
      else folders_from (seen +:+ String c EmptyString) r
  end.

Definition folders (p : string) : list string := folders_from "" p.

(** The parts of a path between its slashes. *)
Fixpoint parts_from (part rest : string) : list string :=
  match rest with
  | EmptyString => [part]
  | String c r =>
      if Ascii.eqb c "/" then part :: parts_from "" r
      else parts_from (part +:+ String c EmptyString) r
  end.

Definition parts (p : string) : list string := parts_from "" p.

Definition proper_part (s : string) : bool :=
  negb (String.eqb s "" || String.eqb s "." || String.eqb s "..").

(** A path that names a file in so many words: it has no NUL, and no
    part of it is empty, as the last part of [dir/] is, or a dot name;
    one slash may lead it. *)
Definition spelled_out (p : string) : bool :=
  negb (pystr.mem (ascii_of_nat 0) p)
  && forallb proper_part
       match parts p with
       | EmptyString :: ((_ :: _) as rest) => rest
       | l => l
       end.

(** A path at which [os.makedirs(dirname(p), exist_ok=True)] and then
    [open(p, 'w')] succeed: [p] is spelled out, it is not a folder, and
    no folder on the way to it is a regular file. Where this fails, one
    of the two calls may raise and leave no file, whereas [makedirs] and
    [write_text] of the model go through. *)
Definition can_create (fs : gmap string string) (p : string) : bool :=
  spelled_out p
  && negb (is_folder fs p)
  && forallb (fun q => negb (is_file fs q)) (folders p).

(** A path at which [open(p, 'w')] succeeds on its own: as [can_create],
    and the folder of [p] is there already. *)
Definition can_open (fs : gmap string string) (p : string) : bool :=
  can_create fs p
  && (String.eqb (ospath.dirname p) "" || is_folder fs (ospath.dirname p)).

(** Dates as [strftime] writes them with [%Y-%m-%d], for a year of four
    digits: zero-padded decimal numbers. *)
Definition digit (n : nat) : ascii := ascii_of_nat (48 + n mod 10).

Definition two_digits (n : nat) : string :=
  String (digit (n / 10)) (String (digit n) EmptyString).

Definition iso_date (year month day : nat) : string :=
  two_digits (year / 100) +:+ two_digits year +:+ "-"
  +:+ two_digits month +:+ "-" +:+ two_digits day.

(** The first date is not after the second. *)
Definition date_le (y1 m1 d1 y2 m2 d2 : nat) : Prop :=
  y1 < y2 \/ (y1 = y2 /\ (m1 < m2 \/ (m1 = m2 /\ d1 <= d2))).

End spec.

(** ** Concrete worlds, to run the model *)

Module demo.

(** Compact JSON text, without escapes; a float is shown with one
    decimal. It stands for [json.dump] when the model is run. *)
Fixpoint dump (v : pyval) : string :=
  match v with
  | PNone => "null"
  | PBool true => "true"
  | PBool false => "false"
  | PInt z => pystr.str_of_Z z
  | PFloat f => pyfloat.format_fixed 1 f
  | PStr s => String pystr.quote s +:+ String pystr.quote EmptyString
  | PList l =>
      "[" +:+ (fix items (l : list pyval) : string :=
                 match l with
                 | [] => ""
                 | [x] => dump x
                 | x :: r => dump x +:+ ", " +:+ items r
                 end) l +:+ "]"
  | PDict d =>
      "{" +:+ (fix items (d : list (string * pyval)) : string :=
                 match d with
                 | [] => ""
                 | [(k, x)] =>
                     String pystr.quote k +:+ String pystr.quote ": " +:+ dump x
                 | (k, x) :: r =>
                     String pystr.quote k +:+ String pystr.quote ": " +:+ dump x
                     +:+ ", " +:+ items r
                 end) d +:+ "}"
  end.

Definition rt : runtime := Runtime dump dump None "2025-03-01".

Definition raw_path : string := "data/raw/gdelt_articles_2025-03-01.json".
Definition scored_path : string :=
  "data/scored/generated_scored_articles_2025-03-01.json".

(** A raw batch of two records. *)
Definition raw_two : string :=
  pystr.dq "[{'title': 'Flood Hits City', 'name': 'Riverside', 'count': 3},
 {'title': 'Landslide Closes Road', 'html': '<a href=x>y</a>'}]".

(** The raw batch is on disk, nothing else. *)
Definition w_raw : world := World {[ raw_path := raw_two ]} [].

(** The raw batch and an instruction file are on disk. *)
Definition w_prompt : world :=
  World (<[rl_agent.prompt_path := "Rate this: {state}"]> {[ raw_path := raw_two ]}) [].

(** The chain's answer: the inputs and the output text under [text]. *)
Definition chain_answer (state_text text : string) : result pyval :=
  Ok (PDict [("state", PStr state_text); ("text", PStr text)]).

(** The fenced answer with a language tag. *)
Definition fenced : string :=
  "```json" +:+ nl +:+ pystr.dq "{'tweet_worthiness': 9, 'summary': 'ok'}"
  +:+ nl +:+ "```".

(** An evaluator that always gives the fenced answer. *)
Definition ev_fenced (n : nat) (template state_text : string) : result pyval :=
  chain_answer state_text fenced.

(** An evaluator that has no idea. *)
Definition ev_no_idea (n : nat) (template state_text : string) : result pyval :=
  chain_answer state_text "no idea".

(** An evaluator that scores 42. *)
Definition ev_out_of_range (n : nat) (template state_text : string)
  : result pyval :=
  chain_answer state_text (pystr.dq "{'tweet_worthiness': 42, 'summary': 'huge'}").

(** An evaluator that answers the first record well and the second with
    a bare number. *)
Definition ev_bare_number (n : nat) (template state_text : string)
  : result pyval :=
  match n with
  | O => chain_answer state_text fenced
  | S _ => chain_answer state_text "42"
  end.

Definition titled (t : string) : pyval := PDict [("title", PStr t)].

(** The four titles of the deduplication example. *)
Definition flood_batch : list pyval :=
  [titled "Flood Hits City"; titled "flood hits city"; titled ""; titled ""].

Definition review (score : pyval) (reasoning : string) : pydict.dict :=
  [("title", PStr "t"); ("user_score", score);
   ("user_reasoning", PStr reasoning)].

(** Reviewed records with the scores 6, 8 and a text that is no number. *)
Definition reviews : list pydict.dict :=
  [review (PInt 6) "fair"; review (PInt 8) "good"; review (PStr "x") "odd"].

Definition reviews_path : string := "data/scored/reviewed.json".

Definition reviews_text : string :=
  pystr.dq "[{'title': 't', 'user_score': 6, 'user_reasoning': 'fair'},
 {'title': 't', 'user_score': 8, 'user_reasoning': 'good'},
 {'title': 't', 'user_score': 'x', 'user_reasoning': 'odd'}]".

(** A scored file with three reviewed records and the instruction file. *)
Definition w_reviews : world :=
  World (<["config/agent_prompt.txt" := "old instructions"]>
           {[ reviews_path := reviews_text ]}) [].

(** A rewrite collaborator that answers with new instructions. *)
Definition rewriter (original_prompt feedback : string) : result pyval :=
  Ok (PStr " new instructions ").

Definition update_args : main.args :=
  main.Args reviews_path None "config/agent_prompt.txt".

Definition feature (i : Z) : pyval :=
  PDict [("properties",
          PDict [("name", PStr ("place " +:+ pystr.str_of_Z i));
                 ("count", PInt i);
                 ("html", PStr (pystr.dq "<a href='u' title='Story'>s</a>"))]);
         ("geometry", PDict [("type", PStr "Point")])].

(** A response with twelve features. *)
Definition twelve : list pyval := map feature (seqZ 1 12).

Definition news_source (params : pydict.dict)
  : result gdelt_pipeline.response :=
  Ok (gdelt_pipeline.Response true 200
        (Ok (PDict [("type", PStr "FeatureCollection");
                    ("features", PList twelve)]))).

(** The world after the evaluator that scores 42 has run on the raw
    batch, and the scored file it holds. *)
Definition w_scored_42 : world :=
  Eval vm_compute in
    (rl_agent.run_simulation rt ev_out_of_range None None w_raw).2.

Definition content_42 : string :=
  Eval vm_compute in default "" (files w_scored_42 !! scored_path).

(** The world after a run on the raw batch with an instruction file. *)
Definition w_scored_prompt : world :=
  Eval vm_compute in
    (rl_agent.run_simulation rt ev_fenced None None w_prompt).2.

(** A configuration that asks for 250 records. *)
Definition config_250 : pydict.dict := [("maxrecords", PInt 250)].

(** A rewrite collaborator that is out of service. *)
Definition rewriter_down (original_prompt feedback : string) : result pyval :=
  Raise TypeError.

(** A scored batch of three records: two share a title up to case and
    white space, the third scored 3. *)
Definition scored_flood : pyval :=
  PDict [("title", PStr "Flood Hits City"); ("tweet_worthiness", PInt 9);
         ("summary", PStr "a")].

Definition scored_flood_again : pyval :=
  PDict [("title", PStr " flood hits city"); ("tweet_worthiness", PInt 8);
         ("summary", PStr "b")].

Definition scored_quiet : pyval :=
  PDict [("title", PStr "Quiet Day"); ("tweet_worthiness", PInt 3);
         ("summary", PStr "c")].

Definition scored_items : list pyval :=
  [scored_flood; scored_flood_again; scored_quiet].

Definition w_scored_three : world :=
  World {[ scored_path := dump (PList scored_items) ]} [].

Definition summary_path : string := "data/summary/summary_2025-03-01.json".

(** A summarizer that answers with a record the stage had dropped. *)
Definition summarizer_off_topic (articles_json : string) : result pyval :=
  Ok (PDict [("articles", PStr articles_json);
             ("text", PStr (dump (PList [scored_quiet])))]).

(** The scored file of the day holds the scored batch of three, and the
    review gate works on it. *)
Definition agree_request : app.request :=
  app.Request app.POST [("action", "agree")].

Definition manual_request : app.request :=
  app.Request app.POST [("user_score", " 42 "); ("user_reasoning", "too loud")].

Definition bad_request : app.request :=
  app.Request app.POST [("user_score", "seven")].

Definition get_request : app.request := app.Request app.GET [].

(** Two scored files, of two dates. *)
Definition w_two_days : world :=
  World (<[spec.scored_file "2025-02-28" := "[]"]>
           {[ spec.scored_file "2025-03-01" := "[]" ]}) [].

(** Two scored files named after dates without zero padding. *)
Definition w_unpadded : world :=
  World (<[spec.scored_file "2025-3-10" := "[]"]>
           {[ spec.scored_file "2025-10-3" := "[]" ]}) [].

(** A scored file with three reviewed records, and a configuration file
    next to the place of the instruction file, which is not there. *)
Definition w_reviews_first : world :=
  World (<["config/gdelt_config.json" := "{}"]>
           {[ reviews_path := reviews_text ]}) [].





(** The two records of the raw batch. *)
Definition raw_items : list pyval :=
  [PDict [("title", PStr "Flood Hits City"); ("name", PStr "Riverside");
          ("count", PInt 3)];
   PDict [("title", PStr "Landslide Closes Road");
          ("html", PStr "<a href=x>y</a>")]].

(** The world after the run that meets a bare number. *)
Definition w_failed : world :=
  Eval vm_compute in
    (rl_agent.run_simulation rt ev_bare_number None None w_raw).2.

(** An empty raw batch is on disk. *)
Definition w_empty : world := World {[ raw_path := "[]" ]} [].

(** The world after a run whose output file is named without a folder. *)
Definition w_scored_bare : world :=
  Eval vm_compute in
    (rl_agent.run_simulation rt ev_fenced None (Some "scored.json") w_raw).2.

End demo.

(** * Properties *)

(** ** The monad *)

Ltac io_unfold :=
  unfold bind, ret, lift, raise, try_catch, print, emit, path_exists,
    read_text, write_text, makedirs in *.

Lemma bind_ok {A B} (m : M A) (k : A -> M B) w a w1 :
  m w = (Ok a, w1) -> bind m k w = k a w1.
Proof. intros H. unfold bind. by rewrite H. Qed.

Lemma bind_raise {A B} (m : M A) (k : A -> M B) w e w1 :
  m w = (Raise e, w1) -> bind m k w = (Raise e, w1).
Proof. intros H. unfold bind. by rewrite H. Qed.

Lemma bind_inv_ok {A B} (m : M A) (k : A -> M B) w b w' :
  bind m k w = (Ok b, w') ->
  exists a w1, m w = (Ok a, w1) /\ k a w1 = (Ok b, w').
Proof.
  unfold bind. destruct (m w) as [[a|e] w1]; intros H; [eauto | discriminate].
Qed.

(** ** C1: the idempotency guard *)

Section scoring_guard.

Variable rt : runtime.

Lemma run_simulation_skips ev fin fout w :
  exists_in (files w) (default (rl_agent.default_output_file rt) fout) = true ->
  rl_agent.run_simulation rt ev fin fout w = (Ok tt, w).
Proof.
  intros Hex. unfold rl_agent.run_simulation, bind, path_exists.
  by rewrite Hex.
Qed.

Lemma exists_in_file (fs : gmap string string) p :
  is_Some (fs !! p) -> exists_in fs p = true.
Proof.
  intros H. unfold exists_in. rewrite bool_decide_true; done.
Qed.

(** C1. If the scored file of the date exists when the orchestrator
    starts, the run returns at once and leaves the world as it is: no
    evaluator call, no file touched. So when the scored file exists once
    a first run is over, a second run for the same date, whatever the
    evaluator would answer, ends in the very same world: the scored file
    is what the first run left. *)
Theorem scoring_is_idempotent ev1 ev2 fin fout w :
  let out := default (rl_agent.default_output_file rt) fout in
  let w1 := (rl_agent.run_simulation rt ev1 fin fout w).2 in
  (exists_in (files w) out = true ->
   rl_agent.run_simulation rt ev1 fin fout w = (Ok tt, w))
  /\ (is_Some (files w1 !! out) ->
      rl_agent.run_simulation rt ev2 fin fout w1 = (Ok tt, w1)
      /\ files (rl_agent.run_simulation rt ev2 fin fout w1).2 !! out
         = files w1 !! out
      /\ spec.count_evals (trace (rl_agent.run_simulation rt ev2 fin fout w1).2)
         = spec.count_evals (trace w1)).
Proof.
  intros out w1. split.
  - apply run_simulation_skips.
  - intros Hfile.
    assert (Hrun : rl_agent.run_simulation rt ev2 fin fout w1 = (Ok tt, w1))
      by (apply run_simulation_skips, exists_in_file, Hfile).
    rewrite Hrun. done.
Qed.

End scoring_guard.

(** A first run scores the raw batch of the day; a second run with another
    evaluator changes nothing. *)
Lemma scoring_is_idempotent_witness :
  let w1 := (rl_agent.run_simulation demo.rt demo.ev_fenced None None demo.w_raw).2 in
  files w1 !! demo.scored_path <> None
  /\ rl_agent.run_simulation demo.rt demo.ev_no_idea None None w1 = (Ok tt, w1).
Proof.
  intros w1.
  assert (Hfile : is_Some (files w1 !! demo.scored_path))
    by (vm_compute; eauto).
  split.
  - vm_compute. discriminate.
  - exact (proj1 (proj2 (scoring_is_idempotent demo.rt demo.ev_fenced
                           demo.ev_no_idea None None demo.w_raw) Hfile)).
Defined.

(** ** C6: the recovery protocol on a fenced answer *)

Lemma greedy_until_last c mid post :
  pystr.mem c post = false ->
  re.greedy_until c (mid +:+ String c post) = Some (mid +:+ String c "").
Proof.
  intros Hpost. induction mid as [|x mid IH]; simpl.
  - assert (Hnone : re.greedy_until c post = None).
    { clear -Hpost. induction post as [|y post IH]; simpl in *; [done|].
      apply orb_false_iff in Hpost as [Hy Hp]. rewrite (IH Hp).
      rewrite Ascii.eqb_sym in Hy. by rewrite Hy. }
    rewrite Hnone. by rewrite Ascii.eqb_refl.
  - by rewrite IH.
Qed.

(** The search with [o.*c] gives the span from the first [o] to the last
    [c]. *)
Lemma search_span_first_to_last o c pre mid post :
  pystr.mem o pre = false ->
  pystr.mem c post = false ->
  re.search_span o c (pre +:+ String o (mid +:+ String c post))
  = Some (String o (mid +:+ String c "")).
Proof.
  intros Hpre Hpost. induction pre as [|x pre IH]; simpl.
  - rewrite Ascii.eqb_refl. by rewrite greedy_until_last.
  - simpl in Hpre. apply orb_false_iff in Hpre as [Hx Hp].
    rewrite Ascii.eqb_sym in Hx. rewrite Hx. simpl.
    destruct pre; apply IH, Hp.
Qed.

(** Without an [o] there is no match, and the whole text is the
    candidate. *)
Lemma search_span_none o c s :
  pystr.mem o s = false -> re.search_span o c s = None.
Proof.
  induction s as [|x s IH]; simpl; [done|].
  intros H. apply orb_false_iff in H as [Hx Hs].
  rewrite Ascii.eqb_sym in Hx. rewrite Hx. simpl.
  destruct s; [done | by apply IH].
Qed.

(** C6. The answer that is a fenced block with a language tag around
    the object with tweet_worthiness 9 and summary ok is recovered: once
    stripped and unfenced, the span from the first opening brace to the
    last closing brace is the object's text, and it decodes to the verdict
    with exactly these two values, whether the answer comes as text or
    under the text key of the chain's dict. *)
Theorem fenced_answer_is_recovered (rt : runtime) (w : world) :
  let object := pystr.dq "{'tweet_worthiness': 9, 'summary': 'ok'}" in
  let verdict := PDict [("tweet_worthiness", PInt 9); ("summary", PStr "ok")] in
  pystr.strip_chars "`" (pystr.strip demo.fenced) = "json" +:+ nl +:+ object +:+ nl
  /\ rl_agent.extract_json (pystr.strip demo.fenced) = object
  /\ json.loads object = Ok verdict
  /\ rl_agent.parse_response rt (PStr demo.fenced) w
     = (Ok verdict, World (files w) (trace w ++ [EvPrint demo.fenced]))
  /\ rl_agent.parse_response rt
       (PDict [("state", PStr "s"); ("text", PStr demo.fenced)]) w
     = (Ok verdict, World (files w) (trace w ++ [EvPrint demo.fenced]))
  /\ spec.verdict rt (PStr demo.fenced) = verdict.
Proof.
  repeat split; vm_compute; reflexivity.
Qed.

(** ** C7: the update command *)

Lemma load_global_chain :
  prompt_agent.load_global "chain" = Raise (NameError "chain").
Proof. vm_compute. reflexivity. Qed.

Lemma improve_agent_prompt_raises generated_json_path daily_dir prompt_path w :
  prompt_agent.improve_agent_prompt generated_json_path daily_dir prompt_path w
  = (Raise (NameError "chain"), w).
Proof.
  unfold prompt_agent.improve_agent_prompt, bind, lift.
  by rewrite load_global_chain.
Qed.

(** C7, what the code does. The update command never gets as far as
    the scored file: [improve_agent_prompt] of [src/prompt_agent.py]
    raises [NameError] on its first line, for every argument and in every
    world, so nothing is read, the instruction file is not written and
    nothing is reported. *)
Theorem update_command_raises_name_error (rt : runtime) (a : main.args)
  (w : world) :
  main.run_prompt_update rt a w = (Raise (NameError "chain"), w).
Proof.
  unfold main.run_prompt_update, bind.
  by rewrite improve_agent_prompt_raises.
Qed.

(** The sibling [improve_prompt] of [src/prompt_updater.py], which the
    comment in [main.py] says the command calls, does on the same scored
    file what the command is meant to do. *)
Lemma improve_prompt_updates_instructions :
  exists w',
    prompt_updater.improve_prompt demo.rt demo.rewriter demo.reviews_path None
      "config/agent_prompt.txt" demo.w_reviews = (Ok true, w')
    /\ files w' !! "config/agent_prompt.txt" = Some "new instructions"
    /\ main.run_prompt_update demo.rt demo.update_args demo.w_reviews
       = (Raise (NameError "chain"), demo.w_reviews).
Proof.
  eexists. split; [vm_compute; reflexivity|]. split; vm_compute; reflexivity.
Qed.

(** ** C4 and C5: an answer that is JSON but no object *)

(** C4, what the code does. The answer 42 holds no JSON object, yet it
    decodes, to a number; [action.get] then raises outside the [try]. The
    run stops at the second record with [AttributeError]: no fallback
    verdict for it, and no scored file for the batch. *)
Theorem bare_number_answer_is_fatal :
  spec.decode demo.rt (PStr "42") = Ok (PInt 42)
  /\ rl_agent.inject (demo.titled "t") (PInt 42) = Raise AttributeError
  /\ exists w',
      rl_agent.run_simulation demo.rt demo.ev_bare_number None None demo.w_raw
      = (Raise AttributeError, w')
      /\ files w' = files demo.w_raw
      /\ spec.count_evals (trace w') = 2
      /\ spec.count_writes (trace w') = 0.
Proof.
  split; [vm_compute; reflexivity|]. split; [vm_compute; reflexivity|].
  eexists. split; [vm_compute; reflexivity|]. repeat split.
Qed.

(** The answer of the claim's example is handled as the claim says. *)
Lemma no_idea_gives_fallback (rt : runtime) (d : pydict.dict) :
  spec.verdict rt (PStr "no idea") = rl_agent.fallback_action
  /\ rl_agent.inject (PDict d) (spec.verdict rt (PStr "no idea"))
     = Ok (PDict (pydict.set (pydict.set d "tweet_worthiness" (PInt 0))
                    "summary" (PStr "Could not evaluate article."))).
Proof.
  assert (H : spec.verdict rt (PStr "no idea") = rl_agent.fallback_action)
    by (vm_compute; reflexivity).
  split; [exact H|]. rewrite H. reflexivity.
Qed.

(** C5, what the code does. On a batch of two records whose second
    answer is a bare number, no output record is produced at all: the run
    raises and writes nothing. *)
Theorem bare_number_answer_loses_batch :
  exists items w',
    rl_agent.load_articles demo.rt demo.raw_path demo.w_raw
    = (Ok (PList items), World (files demo.w_raw) [EvRead demo.raw_path])
    /\ length items = 2
    /\ rl_agent.run_simulation demo.rt demo.ev_bare_number None None demo.w_raw
       = (Raise AttributeError, w')
    /\ files w' !! demo.scored_path = None.
Proof.
  eexists. eexists. split; [vm_compute; reflexivity|].
  split; [reflexivity|]. split; vm_compute; reflexivity.
Qed.

(** ** The scoring loop, turn by turn *)

Section scoring_loop.
Variable rt : runtime.
Variable ev : nat -> string -> string -> result pyval.

Lemma count_reads_app p (t1 t2 : list event) :
  spec.count_reads p (t1 ++ t2) = spec.count_reads p t1 + spec.count_reads p t2.
Proof. unfold spec.count_reads. by rewrite filter_app, length_app. Qed.

Lemma count_evals_app (t1 t2 : list event) :
  spec.count_evals (t1 ++ t2) = spec.count_evals t1 + spec.count_evals t2.
Proof. unfold spec.count_evals. by rewrite filter_app, length_app. Qed.

Lemma count_writes_app (t1 t2 : list event) :
  spec.count_writes (t1 ++ t2) = spec.count_writes t1 + spec.count_writes t2.
Proof. unfold spec.count_writes. by rewrite filter_app, length_app. Qed.

Lemma count_filter_cons (f : event -> bool) e (t : list event) :
  length (filter f (e :: t)) = (if f e then 1 else 0) + length (filter f t).
Proof.
  rewrite filter_cons. destruct (decide (f e)) as [H|H]; destruct (f e); simpl in *; done.
Qed.

Ltac count_events :=
  unfold spec.count_evals, spec.count_writes, spec.count_reads;
  repeat rewrite count_filter_cons; simpl; try done; try lia.


Lemma get_agent_prompt_inv w tmpl w1 :
  rl_agent.get_agent_prompt w = (Ok tmpl, w1) ->
  files w1 = files w
  /\ exists t, trace w1 = (trace w ++ t)%list
     /\ spec.count_evals t = 0 /\ spec.count_writes t = 0
     /\ spec.count_reads rl_agent.prompt_path t
        = (if exists_in (files w) rl_agent.prompt_path then 1 else 0).
Proof.
  unfold rl_agent.get_agent_prompt, bind, path_exists, read_text, ret.
  destruct (exists_in (files w) rl_agent.prompt_path).
  - destruct (files w !! rl_agent.prompt_path); [|discriminate].
    intros [= <- <-]. split; [done|]. exists [EvRead rl_agent.prompt_path].
    repeat split; count_events.
  - intros [= <- <-]. split; [done|]. exists []. by rewrite app_nil_r.
Qed.

Lemma get_agent_action_inv st w resp w2 :
  rl_agent.get_agent_action rt ev st w = (Ok resp, w2) ->
  files w2 = files w
  /\ exists template t,
      ev (spec.count_evals (trace w)) template st = Ok resp
      /\ trace w2 = (trace w ++ t)%list
      /\ spec.count_evals t = 1 /\ spec.count_writes t = 0
      /\ spec.count_reads rl_agent.prompt_path t
         = (if exists_in (files w) rl_agent.prompt_path then 1 else 0).
Proof.
  unfold rl_agent.get_agent_action. intros H.
  apply bind_inv_ok in H as (tmpl & w1 & Hp & H).
  apply get_agent_prompt_inv in Hp as (Hf1 & t1 & Ht1 & He1 & Hw1 & Hr1).
  apply bind_inv_ok in H as (r & w1' & Hev & H).
  unfold rl_agent.invoke_evaluator in Hev. injection Hev as Hev <-.
  unfold bind, print, emit, ret in H. simpl in H. injection H as -> <-.
  simpl. split; [done|]. exists tmpl, (t1 ++ [EvEval tmpl st; EvPrint (py_str rt resp)])%list.
  fold (spec.count_evals (trace w1)) in Hev.
  rewrite Ht1, count_evals_app, He1, Nat.add_0_r in Hev.
  split; [done|]. rewrite Ht1. split; [by rewrite <- !app_assoc|].
  rewrite count_evals_app, count_writes_app, count_reads_app, He1, Hw1, Hr1.
  repeat split; count_events.
Qed.

Lemma parse_or_fallback resp w :
  exists t,
    try_catch (rl_agent.parse_response rt resp)
      (fun _ => ret rl_agent.fallback_action) w
    = (Ok (spec.verdict rt resp), World (files w) (trace w ++ t))
    /\ spec.count_evals t = 0 /\ spec.count_writes t = 0
    /\ spec.count_reads rl_agent.prompt_path t = 0.
Proof.
  unfold try_catch, rl_agent.parse_response, spec.verdict, spec.decode,
    bind, lift, print, emit, ret.
  destruct (py_strip (rl_agent.response_text_of rt resp)) as [s|e]; simpl.
  - destruct (json.loads (rl_agent.extract_json s)) as [v|e]; simpl;
      (exists [EvPrint s]; repeat split; count_events).
  - exists []. rewrite app_nil_r. by destruct w.
Qed.

Lemma score_article_inv a w s w' :
  rl_agent.score_article rt ev a w = (Ok s, w') ->
  spec.scored_from rt ev a s
  /\ files w' = files w
  /\ exists t,
      trace w' = (trace w ++ t)%list
      /\ spec.count_evals t = 1 /\ spec.count_writes t = 0
      /\ spec.count_reads rl_agent.prompt_path t
         = (if exists_in (files w) rl_agent.prompt_path then 1 else 0).
Proof.
  unfold rl_agent.score_article.
  intros H. apply bind_inv_ok in H as (st & w1 & Hst & H).
  unfold lift in Hst. injection Hst as Hst <-.
  apply bind_inv_ok in H as (resp & w2 & Hact & H).
  apply get_agent_action_inv in Hact as (Hf2 & tmpl & t2 & Hev & Ht2 & He2 & Hw2 & Hr2).
  apply bind_inv_ok in H as (action & w3 & Hparse & H).
  unfold lift in H. injection H as Hinj <-.
  destruct (parse_or_fallback resp w2) as (t3 & Hp & He3 & Hw3 & Hr3).
  rewrite Hp in Hparse. injection Hparse as <- <-. simpl.
  split; [by exists (spec.count_evals (trace w)), tmpl, st, resp|].
  split; [done|]. exists (t2 ++ t3)%list.
  rewrite Ht2, count_evals_app, count_writes_app, count_reads_app.
  rewrite He2, He3, Hw2, Hw3, Hr2, Hr3, <- app_assoc. repeat split; lia.
Qed.

Lemma score_loop_inv items : forall acc w out w',
  rl_agent.score_loop rt ev items acc w = (Ok out, w') ->
  files w' = files w
  /\ exists scored t,
      out = (acc ++ scored)%list
      /\ Forall2 (spec.scored_from rt ev) items scored
      /\ trace w' = (trace w ++ t)%list
      /\ spec.count_evals t = length items
      /\ spec.count_writes t = 0
      /\ spec.count_reads rl_agent.prompt_path t
         = (if exists_in (files w) rl_agent.prompt_path then length items else 0).
Proof.
  induction items as [|a items IH]; intros acc w out w' H; simpl in H.
  - unfold ret in H. injection H as <- <-. split; [done|].
    exists [], []. rewrite !app_nil_r. repeat split; try done.
    by destruct (exists_in _ _).
  - apply bind_inv_ok in H as (s & w1 & Hs & H).
    apply score_article_inv in Hs as (Hfrom & Hf1 & t1 & Ht1 & He1 & Hw1 & Hr1).
    apply IH in H as (Hf & scored & t & -> & Hall & Ht & He & Hw & Hr).
    split; [congruence|]. exists (s :: scored), (t1 ++ t)%list.
    rewrite Hf1 in Hr.
    rewrite Ht, Ht1, count_evals_app, count_writes_app, count_reads_app.
    rewrite He1, He, Hw1, Hw, Hr1, Hr, <- !app_assoc. simpl.
    repeat split; try done; try lia.
    + by constructor.
    + destruct (exists_in _ _); lia.
Qed.

Lemma load_articles_inv fn w v w1 :
  rl_agent.load_articles rt fn w = (Ok v, w1) ->
  w1 = World (files w) (trace w ++ [EvRead fn]).
Proof.
  unfold rl_agent.load_articles, bind, read_text, lift.
  destruct (files w !! fn); [|discriminate]. by intros [= _ <-].
Qed.


Lemma run_simulation_inv fin fout w w' :
  let inp := default (rl_agent.default_input_file rt) fin in
  let out := default (rl_agent.default_output_file rt) fout in
  rl_agent.run_simulation rt ev fin fout w = (Ok tt, w') ->
  (exists_in (files w) out = true /\ w' = w)
  \/ (exists_in (files w) out = false
      /\ exists v,
          rl_agent.load_articles rt inp w
          = (Ok v, World (files w) (trace w ++ [EvRead inp]))
          /\ ((truthy v = false
               /\ w' = World (files w) (trace w ++ [EvRead inp]))
              \/ (truthy v = true
                  /\ exists items scored t,
                      py_iter v = Ok items
                      /\ Forall2 (spec.scored_from rt ev) items scored
                      /\ spec.count_evals t = length items
                      /\ spec.count_writes t = 0
                      /\ spec.count_reads rl_agent.prompt_path t
                         = (if exists_in (files w) rl_agent.prompt_path
                            then length items else 0)
                      /\ w' = if String.eqb (ospath.dirname out) ""
                              then World (files w)
                                     (trace w ++ [EvRead inp] ++ t)
                              else World
                                     (<[out := json_dump rt (PList scored)]>
                                        (files w))
                                     (trace w ++ [EvRead inp] ++ t
                                      ++ [EvWrite out
                                            (json_dump rt (PList scored))])))).
Proof.
  intros inp out. unfold rl_agent.run_simulation.
  fold inp. fold out. intros H.
  apply bind_inv_ok in H as (skip & w0 & Hskip & H).
  unfold path_exists in Hskip. injection Hskip as <- <-.
  destruct (exists_in (files w) out) eqn:Hex.
  { left. unfold ret in H. injection H as <-. done. }
  right. split; [done|].
  apply bind_inv_ok in H as (v & w1 & Hload & H).
  pose proof (load_articles_inv _ _ _ _ Hload) as ->.
  exists v. split; [done|].
  destruct (truthy v) eqn:Htruthy; simpl in H.
  2:{ left. unfold ret in H. injection H as <-. done. }
  right. split; [done|].
  apply bind_inv_ok in H as (items & w2 & Hiter & H).
  unfold lift in Hiter. injection Hiter as Hiter <-.
  apply bind_inv_ok in H as (scored & w3 & Hloop & H).
  apply score_loop_inv in Hloop
    as (Hf & scored' & t & -> & Hall & Ht & He & Hw & Hr).
  simpl in *. exists items, scored', t. repeat split; try done.
  unfold try_catch, bind, makedirs, raise, ret, write_text in H.
  destruct (String.eqb (ospath.dirname out) "").
  - injection H as <-. destruct w3 as [f3 t3]. simpl in *.
    by rewrite Hf, Ht, <- app_assoc.
  - injection H as <-. rewrite Hf, Ht, <- !app_assoc. done.
Qed.

(** ** C9: how often the instruction file is read *)

(** C9, amended. A run that comes to its end reads the instruction
    file once for every evaluator invocation, that is once per record:
    on a date not yet scored whose raw file holds a list of N records,
    the evaluator is invoked N times and the instruction file is read N
    times if it exists, and never if it does not (the built-in prompt is
    used then). *)
Theorem instructions_read_once_per_record fin fout w w' :
  let inp := default (rl_agent.default_input_file rt) fin in
  let out := default (rl_agent.default_output_file rt) fout in
  inp <> rl_agent.prompt_path ->
  rl_agent.run_simulation rt ev fin fout w = (Ok tt, w') ->
  exists t,
    trace w' = (trace w ++ t)%list
    /\ spec.count_reads rl_agent.prompt_path t
       = (if exists_in (files w) rl_agent.prompt_path
          then spec.count_evals t else 0)
    /\ (forall items w1,
          exists_in (files w) out = false ->
          rl_agent.load_articles rt inp w = (Ok (PList items), w1) ->
          spec.count_evals t = length items).
Proof.
  intros inp out Hne Hrun.
  assert (Hread : spec.count_reads rl_agent.prompt_path [EvRead inp] = 0).
  { unfold spec.count_reads. rewrite count_filter_cons.
    change (spec.is_read rl_agent.prompt_path (EvRead inp))
      with (String.eqb rl_agent.prompt_path inp).
    destruct (String.eqb_spec rl_agent.prompt_path inp); [congruence|].
    reflexivity. }
  apply run_simulation_inv in Hrun
    as [[Hex ->] | (Hex & v & Hload & [[Hv ->] | (Hv & items & scored & t
          & Hiter & Hall & He & Hw & Hr & ->)])].
  all: fold inp out in Hex; try fold inp in Hload.
  - exists []. rewrite app_nil_r. split; [done|]. split.
    + by destruct (exists_in (files w) rl_agent.prompt_path).
    + intros items w1 Hex'. congruence.
  - exists [EvRead inp]. split; [done|]. split.
    + rewrite Hread. by destruct (exists_in (files w) rl_agent.prompt_path).
    + intros items w1 _ Hl. rewrite Hl in Hload. injection Hload as <-.
      by destruct items.
  - assert (Hcount : forall tl,
               spec.count_evals tl = 0 ->
               spec.count_reads rl_agent.prompt_path tl = 0 ->
               spec.count_reads rl_agent.prompt_path ([EvRead inp] ++ t ++ tl)
               = (if exists_in (files w) rl_agent.prompt_path
                  then spec.count_evals ([EvRead inp] ++ t ++ tl) else 0)
               /\ spec.count_evals ([EvRead inp] ++ t ++ tl) = length items).
    { intros tl He0 Hr0.
      rewrite !count_reads_app, !count_evals_app, Hread, Hr, He, He0, Hr0.
      replace (spec.count_evals [EvRead inp]) with 0 by done.
      destruct (exists_in (files w) rl_agent.prompt_path); lia. }
    destruct (String.eqb (ospath.dirname _) "").
    + exists ([EvRead inp] ++ t)%list. split; [done|].
      destruct (Hcount [] eq_refl eq_refl) as [H1 H2].
      rewrite app_nil_r in H1, H2. split; [done|].
      intros items' w1 _ Hl. rewrite Hl in Hload. injection Hload as <-.
      simpl in Hiter. congruence.
    + exists ([EvRead inp] ++ t ++ [EvWrite out (json_dump rt (PList scored))])%list.
      split; [done|].
      destruct (Hcount [EvWrite out (json_dump rt (PList scored))]
                  eq_refl eq_refl)
        as [H1 H2].
      split; [done|].
      intros items' w1 _ Hl. rewrite Hl in Hload. injection Hload as <-.
      simpl in Hiter. congruence.
Qed.

(** ** C3 and C5: what a completed run puts into the records *)

Lemma lookup_set_eq d k v : pydict.lookup (pydict.set d k v) k = Some v.
Proof.
  induction d as [|[k' v'] d IH]; simpl.
  - by rewrite String.eqb_refl.
  - destruct (String.eqb_spec k k') as [->|Hne]; simpl.
    + by rewrite String.eqb_refl.
    + destruct (String.eqb_spec k k'); [done|]. exact IH.
Qed.

Lemma lookup_set_ne d k k' v :
  k <> k' -> pydict.lookup (pydict.set d k v) k' = pydict.lookup d k'.
Proof.
  intros Hne. induction d as [|[k0 v0] d IH]; simpl.
  - destruct (String.eqb_spec k' k); [congruence|done].
  - destruct (String.eqb_spec k k0) as [->|Hk]; simpl.
    + destruct (String.eqb_spec k' k0); [congruence|done].
    + destruct (String.eqb_spec k' k0); [done|]. exact IH.
Qed.

(** The record after [inject]: both fields hold what [action.get]
    gave, every other field is as before. *)
Lemma inject_fields a action s :
  rl_agent.inject a action = Ok s ->
  py_getitem s "tweet_worthiness" = py_get action "tweet_worthiness" (PInt 0)
  /\ py_getitem s "summary"
     = py_get action "summary" (PStr "No summary provided")
  /\ exists d d',
      a = PDict d /\ s = PDict d'
      /\ forall k, k <> "tweet_worthiness" -> k <> "summary" ->
                   pydict.lookup d' k = pydict.lookup d k.
Proof.
  unfold rl_agent.inject. destruct action as [| | | | | |act]; try discriminate.
  destruct a as [| | | | | |d]; try discriminate. simpl.
  intros [= <-]. simpl. rewrite lookup_set_eq.
  rewrite lookup_set_ne, lookup_set_eq by discriminate.
  repeat split. exists d. eexists. repeat split.
  intros k H1 H2. rewrite !lookup_set_ne; solve [done | congruence].
Qed.

(** *** The answer behind each record *)

Lemma get_agent_prompt_template w tmpl w1 :
  rl_agent.get_agent_prompt w = (Ok tmpl, w1) ->
  tmpl = spec.prompt_of (files w).
Proof.
  unfold rl_agent.get_agent_prompt, bind, path_exists, read_text, ret,
    spec.prompt_of.
  destruct (exists_in (files w) rl_agent.prompt_path) eqn:Hex.
  - destruct (files w !! rl_agent.prompt_path); [|discriminate].
    by intros [= <- _].
  - intros [= <- _].
    unfold exists_in in Hex. apply orb_false_iff in Hex as [Hex _].
    apply bool_decide_eq_false in Hex.
    destruct (files w !! rl_agent.prompt_path) eqn:E; [|done].
    exfalso. eauto.
Qed.

(** The answer for a record is that of the next invocation of the
    evaluator, under the instructions of the world. *)
Lemma get_agent_action_at st w resp w2 :
  rl_agent.get_agent_action rt ev st w = (Ok resp, w2) ->
  ev (spec.count_evals (trace w)) (spec.prompt_of (files w)) st = Ok resp.
Proof.
  unfold rl_agent.get_agent_action. intros H.
  apply bind_inv_ok in H as (tmpl & w1 & Hp & H).
  pose proof (get_agent_prompt_template _ _ _ Hp) as ->.
  apply get_agent_prompt_inv in Hp as (Hf1 & t1 & Ht1 & He1 & _).
  apply bind_inv_ok in H as (r & w1' & Hev & H).
  unfold rl_agent.invoke_evaluator in Hev. injection Hev as Hev <-.
  unfold bind, print, emit, ret in H. simpl in H. injection H as -> _.
  fold (spec.count_evals (trace w1)) in Hev.
  by rewrite Ht1, count_evals_app, He1, Nat.add_0_r in Hev.
Qed.

Lemma score_article_at a w s w' :
  rl_agent.score_article rt ev a w = (Ok s, w') ->
  spec.scored_at rt ev (spec.prompt_of (files w))
    (spec.count_evals (trace w)) a s.
Proof.
  unfold rl_agent.score_article.
  intros H. apply bind_inv_ok in H as (st & w1 & Hst & H).
  unfold lift in Hst. injection Hst as Hst <-.
  apply bind_inv_ok in H as (resp & w2 & Hact & H).
  apply get_agent_action_at in Hact.
  apply bind_inv_ok in H as (action & w3 & Hparse & H).
  unfold lift in H. injection H as Hinj _.
  destruct (parse_or_fallback resp w2) as (t3 & Hp & _).
  rewrite Hp in Hparse. injection Hparse as <- _.
  by exists st, resp.
Qed.

(** The loop scores record [i] with the answer of invocation [i],
    counted from the start of the loop. *)
Lemma score_loop_at items : forall acc w out w',
  rl_agent.score_loop rt ev items acc w = (Ok out, w') ->
  exists scored,
    out = (acc ++ scored)%list
    /\ length scored = length items
    /\ forall i a s,
         items !! i = Some a -> scored !! i = Some s ->
         spec.scored_at rt ev (spec.prompt_of (files w))
           (spec.count_evals (trace w) + i) a s.
Proof.
  induction items as [|a items IH]; intros acc w out w' H; simpl in H.
  - unfold ret in H. injection H as <- _. exists [].
    rewrite app_nil_r. split; [done|]. split; [done|].
    intros i a s Hi. by rewrite lookup_nil in Hi.
  - apply bind_inv_ok in H as (s & w1 & Hs & H).
    pose proof (score_article_at _ _ _ _ Hs) as Hat.
    apply score_article_inv in Hs as (_ & Hf1 & t1 & Ht1 & He1 & _).
    apply IH in H as (scored & -> & Hlen & Hall).
    exists (s :: scored). split; [by rewrite <- app_assoc|].
    split; [simpl; lia|].
    intros [|i] a' s' Hi Hs'; simpl in Hi, Hs'.
    + injection Hi as <-. injection Hs' as <-. by rewrite Nat.add_0_r.
    + specialize (Hall i a' s' Hi Hs').
      rewrite Hf1, Ht1, count_evals_app, He1 in Hall.
      by replace (spec.count_evals (trace w) + S i)
        with (spec.count_evals (trace w) + 1 + i) by lia.
Qed.

(** A run that comes to its end on a date not yet scored, with the
    answer behind each record. *)
Lemma run_simulation_at fin fout w w' :
  let inp := default (rl_agent.default_input_file rt) fin in
  let out := default (rl_agent.default_output_file rt) fout in
  exists_in (files w) out = false ->
  rl_agent.run_simulation rt ev fin fout w = (Ok tt, w') ->
  exists v,
    rl_agent.load_articles rt inp w
    = (Ok v, World (files w) (trace w ++ [EvRead inp]))
    /\ ((truthy v = false
         /\ w' = World (files w) (trace w ++ [EvRead inp]))
        \/ (truthy v = true
            /\ exists items scored t,
                py_iter v = Ok items
                /\ length scored = length items
                /\ (forall i a s,
                      items !! i = Some a -> scored !! i = Some s ->
                      spec.scored_at rt ev (spec.prompt_of (files w))
                        (spec.count_evals (trace w) + i) a s)
                /\ spec.count_evals t = length items
                /\ spec.count_writes t = 0
                /\ w' = if String.eqb (ospath.dirname out) ""
                        then World (files w) (trace w ++ [EvRead inp] ++ t)
                        else World
                               (<[out := json_dump rt (PList scored)]>
                                  (files w))
                               (trace w ++ [EvRead inp] ++ t
                                ++ [EvWrite out
                                      (json_dump rt (PList scored))]))).
Proof.
  intros inp out Hex. unfold rl_agent.run_simulation.
  fold inp. fold out. intros H.
  apply bind_inv_ok in H as (skip & w0 & Hskip & H).
  unfold path_exists in Hskip. injection Hskip as <- <-.
  rewrite Hex in H.
  apply bind_inv_ok in H as (v & w1 & Hload & H).
  pose proof (load_articles_inv _ _ _ _ Hload) as ->.
  exists v. split; [done|].
  destruct (truthy v) eqn:Htruthy; simpl in H.
  2:{ left. unfold ret in H. injection H as <-. done. }
  right. split; [done|].
  apply bind_inv_ok in H as (items & w2 & Hiter & H).
  unfold lift in Hiter. injection Hiter as Hiter <-.
  apply bind_inv_ok in H as (scored & w3 & Hloop & H).
  pose proof (score_loop_at _ _ _ _ _ Hloop) as (scored' & -> & Hlen & Hat).
  apply score_loop_inv in Hloop
    as (Hf & scored'' & t & _ & _ & Ht & He & Hw & _).
  simpl in Hat, Hf, Ht.
  rewrite count_evals_app in Hat.
  replace (spec.count_evals [EvRead inp]) with 0 in Hat by done.
  rewrite Nat.add_0_r in Hat.
  exists items, scored', t. repeat split; try done.
  unfold try_catch, bind, makedirs, raise, ret, write_text in H.
  destruct (String.eqb (ospath.dirname out) "").
  - injection H as <-. destruct w3 as [f3 t3]. simpl in *.
    by rewrite Hf, Ht, <- app_assoc.
  - injection H as <-. simpl. rewrite Hf, Ht, <- !app_assoc. done.
Qed.

(** What the verdict of an answer puts under tweet_worthiness. *)
Lemma tweet_worthiness_of_verdict a response s :
  rl_agent.inject a (spec.verdict rt response) = Ok s ->
  py_getitem s "tweet_worthiness"
  = py_get (spec.verdict rt response) "tweet_worthiness" (PInt 0)
  /\ (forall e, spec.decode rt response = Raise e ->
        py_getitem s "tweet_worthiness" = Ok (PInt 0))
  /\ (forall d, spec.decode rt response = Ok (PDict d) ->
        pydict.lookup d "tweet_worthiness" = None ->
        py_getitem s "tweet_worthiness" = Ok (PInt 0))
  /\ (forall d v, spec.decode rt response = Ok (PDict d) ->
        pydict.lookup d "tweet_worthiness" = Some v ->
        py_getitem s "tweet_worthiness" = Ok v
        /\ (spec.in_range v ->
            exists z, py_getitem s "tweet_worthiness" = Ok (PInt z)
                      /\ (0 <= z <= 10)%Z)).
Proof.
  intros Hinj. apply inject_fields in Hinj as (Htw & _ & _).
  split; [done|]. unfold spec.verdict in Htw. repeat split.
  - intros e He'. by rewrite He' in Htw.
  - intros d Hd Hl. rewrite Hd in Htw. rewrite Htw. simpl.
    unfold pydict.get. by rewrite Hl.
  - rewrite H in Htw. rewrite Htw. simpl. unfold pydict.get. by rewrite H0.
  - intros (z & -> & Hz). exists z. split; [|done].
    rewrite H in Htw. rewrite Htw. simpl. unfold pydict.get. by rewrite H0.
Qed.

(** C3, amended. In the batch a run writes, record [i] is raw record
    [i] scored with the answer that invocation [i] of the evaluator gave
    for it, and its tweet_worthiness is the value that the object decoded
    from that answer carries under that key, whatever its type or size;
    it is 0 when the object has no such key and when the answer cannot be
    decoded. So it is an integer from 0 to 10 whenever the evaluator gave
    one, and on fallback. The raw file and the answers are taken to be
    plain text. *)
Theorem tweet_worthiness_is_the_answers fin fout w w' content :
  let inp := default (rl_agent.default_input_file rt) fin in
  let out := default (rl_agent.default_output_file rt) fout in
  exists_in (files w) out = false ->
  spec.plain_file (files w) inp = true ->
  (forall n template state_text response,
     ev n template state_text = Ok response ->
     spec.plain_answer rt response = true) ->
  rl_agent.run_simulation rt ev fin fout w = (Ok tt, w') ->
  files w' !! out = Some content ->
  exists raw items scored,
    rl_agent.load_articles rt inp w
    = (Ok raw, World (files w) (trace w ++ [EvRead inp]))
    /\ py_iter raw = Ok items
    /\ content = json_dump rt (PList scored)
    /\ length scored = length items
    /\ forall i a s,
         items !! i = Some a -> scored !! i = Some s ->
         exists state_text response,
           rl_agent.state_representation rt a = Ok state_text
           /\ ev (spec.count_evals (trace w) + i) (spec.prompt_of (files w))
                state_text = Ok response
           /\ py_getitem s "tweet_worthiness"
              = py_get (spec.verdict rt response) "tweet_worthiness" (PInt 0)
           /\ (forall e, spec.decode rt response = Raise e ->
                 py_getitem s "tweet_worthiness" = Ok (PInt 0))
           /\ (forall d, spec.decode rt response = Ok (PDict d) ->
                 pydict.lookup d "tweet_worthiness" = None ->
                 py_getitem s "tweet_worthiness" = Ok (PInt 0))
           /\ (forall d v, spec.decode rt response = Ok (PDict d) ->
                 pydict.lookup d "tweet_worthiness" = Some v ->
                 py_getitem s "tweet_worthiness" = Ok v
                 /\ (spec.in_range v ->
                     exists z, py_getitem s "tweet_worthiness" = Ok (PInt z)
                               /\ (0 <= z <= 10)%Z)).
Proof.
  intros inp out Hex _ _ Hrun Hfile.
  assert (Hnone : files w !! out = None).
  { unfold exists_in in Hex. apply orb_false_iff in Hex as [Hex' _].
    apply bool_decide_eq_false in Hex'.
    destruct (files w !! out) eqn:E; [|done]. exfalso. eauto. }
  apply (run_simulation_at fin fout w w' Hex) in Hrun
    as (v & Hload & [[Hv ->] | (Hv & items & scored & t
          & Hiter & Hlen & Hat & He & Hw & ->)]).
  { simpl in Hfile. congruence. }
  fold inp in Hload. fold out in Hfile.
  destruct (String.eqb (ospath.dirname out) ""); simpl in Hfile.
  { congruence. }
  rewrite lookup_insert_eq in Hfile. injection Hfile as <-.
  exists v, items, scored. split; [done|]. split; [done|].
  split; [done|]. split; [done|].
  intros i a s Hi Hs.
  destruct (Hat i a s Hi Hs) as (st & resp & Hst & Hev & Hinj).
  exists st, resp. split; [done|]. split; [done|].
  by apply (tweet_worthiness_of_verdict a).
Qed.

(** The positive side of C5: a run that comes to its end on a raw
    batch, with an output file that can be created, writes one record per
    raw record, in the order of the raw batch: record [i] is raw record
    [i] with both fields set from the answer of invocation [i]. It
    writes once, after the last evaluator call. The answers are taken to
    be plain text. *)
Lemma completed_run_scores_every_record fin fout w w' content items :
  let inp := default (rl_agent.default_input_file rt) fin in
  let out := default (rl_agent.default_output_file rt) fout in
  exists_in (files w) out = false ->
  files w !! inp = Some content ->
  json.loads content = Ok (PList items) ->
  items <> [] ->
  ospath.dirname out <> "" ->
  spec.can_create (files w) out = true ->
  (forall n template state_text response,
     ev n template state_text = Ok response ->
     spec.plain_answer rt response = true) ->
  rl_agent.run_simulation rt ev fin fout w = (Ok tt, w') ->
  exists scored t,
    files w' = <[out := json_dump rt (PList scored)]> (files w)
    /\ trace w'
       = (trace w ++ [EvRead inp] ++ t
          ++ [EvWrite out (json_dump rt (PList scored))])%list
    /\ spec.count_writes t = 0
    /\ spec.count_evals t = length items
    /\ length scored = length items
    /\ forall i a s,
         items !! i = Some a -> scored !! i = Some s ->
         spec.scored_at rt ev (spec.prompt_of (files w))
           (spec.count_evals (trace w) + i) a s
         /\ (exists v, py_getitem s "tweet_worthiness" = Ok v)
         /\ (exists v, py_getitem s "summary" = Ok v)
         /\ py_get s "title" PNone = py_get a "title" PNone.
Proof.
  intros inp out Hex Hfile Hloads Hne Hdir _ _ Hrun.
  assert (Hload : rl_agent.load_articles rt inp w
                  = (Ok (PList items),
                     World (files w) (trace w ++ [EvRead inp]))).
  { unfold rl_agent.load_articles, bind, read_text, lift.
    by rewrite Hfile, Hloads. }
  apply (run_simulation_at fin fout w w' Hex) in Hrun
    as (v & Hload' & [[Hv ->] | (Hv & items' & scored & t
          & Hiter & Hlen & Hat & He & Hw & ->)]);
    fold inp in Hload'; rewrite Hload in Hload'; injection Hload' as <-.
  { by destruct items. }
  simpl in Hiter. injection Hiter as <-. fold out.
  destruct (String.eqb (ospath.dirname out) "") eqn:Hd;
    [by apply String.eqb_eq in Hd|].
  exists scored, t. simpl.
  split; [done|]. split; [done|]. split; [done|]. split; [done|].
  split; [done|]. intros i a s Hi Hs.
  destruct (Hat i a s Hi Hs) as (st & resp & Hst & Hev & Hinj).
  split; [by exists st, resp|].
  pose proof Hinj as Hact. unfold rl_agent.inject in Hact.
  destruct (spec.verdict rt resp) as [| | | | | |act] eqn:Hverdict;
    try discriminate.
  apply inject_fields in Hinj as (Htw & Hsm & d & d' & -> & -> & Hkeep).
  simpl in Htw, Hsm. repeat split; eauto.
  simpl. unfold pydict.get. by rewrite Hkeep.
Qed.

End scoring_loop.


(** With an instruction file on disk, a run over the two records of the
    demo batch invokes the evaluator twice and reads the file twice. *)
Lemma instructions_read_once_per_record_witness :
  exists t,
    trace demo.w_scored_prompt = (trace demo.w_prompt ++ t)%list
    /\ spec.count_reads rl_agent.prompt_path t = spec.count_evals t
    /\ spec.count_evals t = 2.
Proof.
  destruct (instructions_read_once_per_record demo.rt demo.ev_fenced None None
              demo.w_prompt demo.w_scored_prompt) as (t & Ht & Hr & Hn).
  - vm_compute. discriminate.
  - vm_compute. reflexivity.
  - exists t. split; [exact Ht|]. split.
    + assert (Hex : exists_in (files demo.w_prompt) rl_agent.prompt_path = true)
        by (vm_compute; reflexivity).
      rewrite Hex in Hr. exact Hr.
    + assert (Hl : exists items w1,
                 rl_agent.load_articles demo.rt demo.raw_path demo.w_prompt
                 = (Ok (PList items), w1) /\ length items = 2)
        by (vm_compute; do 2 eexists; split; reflexivity).
      destruct Hl as (items & w1 & Hl & Hlen).
      assert (Hex : exists_in (files demo.w_prompt) demo.scored_path = false)
        by (vm_compute; reflexivity).
      rewrite <- Hlen. exact (Hn items w1 Hex Hl).
Defined.

(** C9 as stated fails: the instruction file is read twice in this
    run, not once. *)
Lemma instructions_read_twice :
  rl_agent.run_simulation demo.rt demo.ev_fenced None None demo.w_prompt
  = (Ok tt, demo.w_scored_prompt)
  /\ spec.count_reads rl_agent.prompt_path (trace demo.w_scored_prompt) = 2
  /\ spec.count_reads rl_agent.prompt_path (trace demo.w_scored_prompt) <> 1.
Proof.
  split; [vm_compute; reflexivity|]. split; [vm_compute; reflexivity|].
  vm_compute. discriminate.
Qed.

(** The evaluator that scores 42: record [i] of the written batch
    carries what answer [i] carries. *)
Lemma tweet_worthiness_is_the_answers_witness :
  exists items scored : list pyval,
    demo.content_42 = json_dump demo.rt (PList scored)
    /\ length scored = length items
    /\ forall i a s,
         items !! i = Some a -> scored !! i = Some s ->
         exists state_text response,
           demo.ev_out_of_range i rl_agent.default_prompt state_text
           = Ok response
           /\ py_getitem s "tweet_worthiness"
              = py_get (spec.verdict demo.rt response) "tweet_worthiness"
                  (PInt 0).
Proof.
  assert (Hex : exists_in (files demo.w_raw) demo.scored_path = false)
    by (vm_compute; reflexivity).
  assert (Hraw : spec.plain_file (files demo.w_raw) demo.raw_path = true)
    by (vm_compute; reflexivity).
  assert (Hplain : forall n template state_text response,
             demo.ev_out_of_range n template state_text = Ok response ->
             spec.plain_answer demo.rt response = true)
    by (intros n template state_text response [= <-]; vm_compute;
        reflexivity).
  assert (Hrun : rl_agent.run_simulation demo.rt demo.ev_out_of_range None
                   None demo.w_raw = (Ok tt, demo.w_scored_42))
    by (vm_compute; reflexivity).
  assert (Hfile : files demo.w_scored_42 !! demo.scored_path
                  = Some demo.content_42)
    by (vm_compute; reflexivity).
  assert (Hprompt : spec.prompt_of (files demo.w_raw)
                    = rl_agent.default_prompt)
    by (vm_compute; reflexivity).
  destruct (tweet_worthiness_is_the_answers demo.rt demo.ev_out_of_range
              None None demo.w_raw demo.w_scored_42 demo.content_42
              Hex Hraw Hplain Hrun Hfile)
    as (raw & items & scored & _ & _ & Hc & Hlen & Hall).
  exists items, scored. split; [exact Hc|]. split; [exact Hlen|].
  intros i a s Hi Hs.
  destruct (Hall i a s Hi Hs) as (st & resp & _ & Hev & Htw & _).
  rewrite Hprompt in Hev.
  exists st, resp. split; [exact Hev | exact Htw].
Defined.

(** C3 as stated fails: the evaluator answers with the score 42, and
    42 is what the first record of the written batch carries. *)
Lemma out_of_range_score_is_kept :
  let s1 := PDict [("title", PStr "Flood Hits City"); ("name", PStr "Riverside");
                   ("count", PInt 3); ("tweet_worthiness", PInt 42);
                   ("summary", PStr "huge")] in
  let s2 := PDict [("title", PStr "Landslide Closes Road");
                   ("html", PStr "<a href=x>y</a>");
                   ("tweet_worthiness", PInt 42); ("summary", PStr "huge")] in
  rl_agent.run_simulation demo.rt demo.ev_out_of_range None None demo.w_raw
  = (Ok tt, demo.w_scored_42)
  /\ files demo.w_scored_42 !! demo.scored_path
     = Some (json_dump demo.rt (PList [s1; s2]))
  /\ py_getitem s1 "tweet_worthiness" = Ok (PInt 42)
  /\ ~ spec.in_range (PInt 42).
Proof.
  intros s1 s2. split; [vm_compute; reflexivity|].
  split; [vm_compute; reflexivity|]. split; [reflexivity|].
  intros (z & [= <-] & Hz). lia.
Qed.

(** ** C10: the fetch stage keeps ten features *)

Lemma rmapM_length {A B} (f : A -> result B) l out :
  rmapM f l = Ok out -> length out = length l.
Proof.
  revert out. induction l as [|a l IH]; simpl; intros out H.
  - by injection H as <-.
  - destruct (f a); [|discriminate]. simpl in H.
    destruct (rmapM f l); [|discriminate]. injection H as <-.
    simpl. by rewrite (IH _ eq_refl).
Qed.

(** The loop with its growing list is a map that stops at the first
    exception. *)
Lemma process_loop_rmapM features : forall processed_articles,
  gdelt_pipeline.process_loop features processed_articles
  = rbind (rmapM gdelt_pipeline.process_feature features)
      (fun out => Ok (processed_articles ++ out)%list).
Proof.
  induction features as [|f features IH]; intros acc; simpl.
  - by rewrite app_nil_r.
  - destruct (gdelt_pipeline.process_feature f) as [p|e]; simpl; [|done].
    rewrite IH. destruct (rmapM _ features); simpl; [|done].
    by rewrite <- app_assoc.
Qed.

Lemma first_ten_length features l :
  gdelt_pipeline.first_ten features = Ok l -> length l <= 10.
Proof.
  destruct features; simpl; try discriminate; intros [= <-];
    rewrite length_take; lia.
Qed.

(** Whatever the news source does, the fetch stage returns at most ten
    records. *)
Lemma fetch_never_exceeds_ten news_source custom_params :
  length (gdelt_pipeline.fetch_gdelt_articles news_source custom_params) <= 10.
Proof.
  unfold gdelt_pipeline.fetch_gdelt_articles, gdelt_pipeline.fetch_body.
  destruct (news_source _) as [resp|e]; simpl; [|lia].
  destruct (gdelt_pipeline.ok resp); simpl; [|lia].
  destruct (gdelt_pipeline.body resp) as [data|e]; simpl; [|lia].
  destruct (py_get data "features" (PList [])) as [features|e]; simpl; [|lia].
  destruct (truthy features); simpl; [|lia].
  destruct (gdelt_pipeline.first_ten features) as [l|e] eqn:Hten; simpl; [|lia].
  rewrite process_loop_rmapM.
  destruct (rmapM gdelt_pipeline.process_feature l) as [out|e] eqn:Hout;
    simpl; [|lia].
  apply rmapM_length in Hout. apply first_ten_length in Hten. lia.
Qed.

(** C10. On a successful response whose features are a list, the fetch
    stage returns at most ten records, whatever the query configuration
    asks for: the records are those made from the first ten features, in
    order, and there are min(10, number of features) of them; when one
    of these features cannot be processed, none is returned. *)
Theorem fetch_keeps_first_ten news_source custom_params resp data features :
  news_source (gdelt_pipeline.merge_params custom_params) = Ok resp ->
  gdelt_pipeline.ok resp = true ->
  gdelt_pipeline.body resp = Ok data ->
  py_get data "features" (PList []) = Ok (PList features) ->
  let out := gdelt_pipeline.fetch_gdelt_articles news_source custom_params in
  length out <= 10
  /\ (forall processed,
        rmapM gdelt_pipeline.process_feature (take 10 features) = Ok processed ->
        out = processed /\ length out = Nat.min 10 (length features))
  /\ (forall e,
        rmapM gdelt_pipeline.process_feature (take 10 features) = Raise e ->
        out = []).
Proof.
  intros Hsrc Hok Hbody Hfeat out. split; [apply fetch_never_exceeds_ten|].
  assert (Hout : out = match rmapM gdelt_pipeline.process_feature
                               (take 10 features) with
                       | Ok processed => processed
                       | Raise _ => []
                       end).
  { unfold out, gdelt_pipeline.fetch_gdelt_articles, gdelt_pipeline.fetch_body.
    rewrite Hsrc. simpl. rewrite Hok, Hbody. simpl. rewrite Hfeat. simpl.
    destruct features as [|f features]; [done|]. simpl negb. cbv iota.
    unfold gdelt_pipeline.first_ten.
    change (rbind (Ok ?l) ?k) with (k l). cbv beta.
    rewrite process_loop_rmapM.
    by destruct (rmapM _ _). }
  split.
  - intros processed Hp. rewrite Hout, Hp. split; [done|].
    apply rmapM_length in Hp. by rewrite Hp, length_take.
  - intros e He. by rewrite Hout, He.
Qed.

(** Twelve features and a configuration that asks for 250 records: ten
    records come back, the first ten. *)
Lemma fetch_keeps_first_ten_witness :
  length (gdelt_pipeline.fetch_gdelt_articles demo.news_source
            (Some demo.config_250)) = 10
  /\ map (fun a => py_get a "name" PNone)
       (gdelt_pipeline.fetch_gdelt_articles demo.news_source
          (Some demo.config_250))
     = map (fun i => Ok (PStr ("place " +:+ pystr.str_of_Z i))) (seqZ 1 10).
Proof.
  assert (Hp : exists processed,
             rmapM gdelt_pipeline.process_feature (take 10 demo.twelve)
             = Ok processed)
    by (vm_compute; eexists; reflexivity).
  destruct Hp as [processed Hp].
  destruct (fetch_keeps_first_ten demo.news_source (Some demo.config_250)
              (gdelt_pipeline.Response true 200
                 (Ok (PDict [("type", PStr "FeatureCollection");
                             ("features", PList demo.twelve)])))
              (PDict [("type", PStr "FeatureCollection");
                      ("features", PList demo.twelve)])
              demo.twelve eq_refl eq_refl eq_refl eq_refl)
    as (_ & Hfirst & _).
  destruct (Hfirst processed Hp) as [_ Hlen].
  split; [exact Hlen|]. vm_compute. reflexivity.
Defined.

(** ** Deduplication by title in the summary stage *)

Lemma existsb_eqb_elem_of (t : string) (l : list string) :
  existsb (String.eqb t) l = true <-> t ∈ l.
Proof.
  rewrite existsb_exists. split.
  - intros (x & Hin & Heq). apply String.eqb_eq in Heq as ->.
    by apply list_elem_of_In.
  - intros Hin. exists t. split; [by apply list_elem_of_In|apply String.eqb_refl].
Qed.

Lemma first_with_title_here (earlier rest : list string) t :
  spec.first_with_title (earlier ++ t :: rest) (length earlier)
  = negb (String.eqb t "") && negb (existsb (String.eqb t) earlier).
Proof.
  unfold spec.first_with_title.
  rewrite list_lookup_middle by done.
  by rewrite take_app_length.
Qed.

Lemma seen_skip (seen : gset string) (earlier : list string) t :
  (forall t', t' ∈ seen <-> t' <> "" /\ t' ∈ earlier) ->
  t = "" \/ t ∈ earlier ->
  forall t', t' ∈ seen <-> t' <> "" /\ t' ∈ (earlier ++ [t])%list.
Proof.
  intros Hseen Ht t'. rewrite Hseen. split.
  - intros [Hne Hin]. split; [done|]. apply elem_of_app. by left.
  - intros [Hne Hin]. split; [done|].
    apply elem_of_app in Hin as [Hin|Hin]; [done|].
    apply list_elem_of_singleton in Hin as ->.
    destruct Ht as [->|Ht]; done.
Qed.

Lemma seen_add (seen : gset string) (earlier : list string) t :
  (forall t', t' ∈ seen <-> t' <> "" /\ t' ∈ earlier) ->
  t <> "" ->
  forall t', t' ∈ ({[t]} ∪ seen : gset string)
             <-> t' <> "" /\ t' ∈ (earlier ++ [t])%list.
Proof.
  intros Hseen Ht t'. rewrite elem_of_union, elem_of_singleton, Hseen. split.
  - intros [->|[Hne Hin]]; (split; [done|]); apply elem_of_app.
    + right. by apply list_elem_of_singleton.
    + by left.
  - intros [Hne Hin]. apply elem_of_app in Hin as [Hin|Hin]; [by right|].
    left. by apply list_elem_of_singleton in Hin.
Qed.

Lemma dedup_loop_spec l : forall tl earlier seen acc,
  rmapM summary_agent.normalized_title l = Ok tl ->
  (forall t, t ∈ seen <-> t <> "" /\ t ∈ earlier) ->
  exists seen',
    summary_agent.dedup_loop l (seen, acc)
    = Ok (seen',
          (acc ++ mjoin (imap (fun i a =>
                           if spec.first_with_title (earlier ++ tl)
                                (length earlier + i)
                           then [a] else []) l))%list).
Proof.
  induction l as [|a l IH]; intros tl earlier seen acc Htl Hseen; simpl in *.
  - exists seen. by rewrite app_nil_r.
  - unfold summary_agent.dedup_step.
    destruct (summary_agent.normalized_title a) as [t|e]; [|discriminate].
    simpl in Htl.
    destruct (rmapM summary_agent.normalized_title l) as [tr|e] eqn:Htr;
      [|discriminate].
    injection Htl as <-. simpl.
    rewrite Nat.add_0_r, first_with_title_here.
    assert (Hshift :
              imap ((fun i a0 =>
                       if spec.first_with_title (earlier ++ t :: tr)
                            (length earlier + i)
                       then [a0] else []) ∘ S) l
              = imap (fun i a0 =>
                        if spec.first_with_title ((earlier ++ [t]) ++ tr)
                             (length (earlier ++ [t]) + i)
                        then [a0] else []) l).
    { apply imap_ext. intros i x _. simpl.
      rewrite <- app_assoc, length_app. simpl.
      by replace (length earlier + 1 + i) with (length earlier + S i) by lia. }
    rewrite Hshift.
    destruct (String.eqb_spec t "") as [->|Hne]; simpl.
    { destruct (IH tr (earlier ++ [""])%list seen acc eq_refl) as [seen' Hloop];
        [apply seen_skip; [done|by left]|].
      exists seen'. exact Hloop. }
    destruct (decide (t ∈ earlier)) as [Hin|Hnin].
    + assert (Hex : existsb (String.eqb t) earlier = true)
        by by apply existsb_eqb_elem_of.
      rewrite Hex. simpl.
      rewrite bool_decide_false by (intros Hn; apply Hn, Hseen; done).
      destruct (IH tr (earlier ++ [t])%list seen acc eq_refl) as [seen' Hloop].
      * apply seen_skip; [done|by right].
      * exists seen'. exact Hloop.
    + assert (Hex : existsb (String.eqb t) earlier = false).
      { apply not_true_is_false. by rewrite existsb_eqb_elem_of. }
      rewrite Hex. simpl.
      rewrite bool_decide_true by (intros Hn; apply Hseen in Hn as [_ ?]; done).
      destruct (IH tr (earlier ++ [t])%list ({[t]} ∪ seen) (acc ++ [a])%list eq_refl)
        as [seen' Hloop].
      * by apply seen_add.
      * exists seen'. simpl. rewrite Hloop. by rewrite <- app_assoc.
Qed.

Lemma first_with_title_spec titles i :
  spec.first_with_title titles i = true
  <-> exists t, titles !! i = Some t /\ t <> ""
                /\ forall j, j < i -> titles !! j <> Some t.
Proof.
  unfold spec.first_with_title. destruct (titles !! i) as [t|] eqn:Hi.
  - rewrite andb_true_iff, !negb_true_iff. split.
    + intros [Hne Hex]. exists t. split; [done|]. split.
      * by destruct (String.eqb_spec t "").
      * intros j Hj Htj. apply not_true_iff_false in Hex. apply Hex.
        apply existsb_eqb_elem_of, list_elem_of_lookup. exists j.
        rewrite lookup_take_lt; done.
    + intros (t' & [= <-] & Hne & Hfirst). split.
      * by destruct (String.eqb_spec t "").
      * apply not_true_iff_false. rewrite existsb_eqb_elem_of.
        intros (j & Hj)%list_elem_of_lookup.
        apply lookup_take_Some in Hj as [Hj Hlt]. by apply (Hfirst j).
  - split; [done|]. by intros (t & ? & _).
Qed.

(** For a batch whose records all have a usable title,
    [deduplicate_articles] returns, in the order of the batch, exactly
    the records that are the first with their normalised title, the title
    being non-empty: record [i] is kept if and only if its normalised
    title is not empty and differs from that of every earlier record. A
    record whose title is empty or missing is never kept. *)
Theorem dedup_keeps_first_of_each_title articles titles :
  rmapM summary_agent.normalized_title articles = Ok titles ->
  summary_agent.deduplicate_articles articles
  = Ok (spec.firsts_by_title articles titles)
  /\ (forall i,
        spec.first_with_title titles i = true
        <-> exists t, titles !! i = Some t /\ t <> ""
                      /\ forall j, j < i -> titles !! j <> Some t)
  /\ (forall i, titles !! i = Some "" -> spec.first_with_title titles i = false).
Proof.
  intros Htitles. split; [|split].
  - unfold summary_agent.deduplicate_articles.
    destruct (dedup_loop_spec articles titles [] ∅ [] Htitles) as [seen' Hloop].
    { intros t. split.
      - intros H. by apply elem_of_empty in H.
      - intros [_ H]. by apply elem_of_nil in H. }
    rewrite Hloop. reflexivity.
  - apply first_with_title_spec.
  - intros i Hi. unfold spec.first_with_title. by rewrite Hi.
Qed.

(** The four titles of the specification's example: one record is kept,
    the first. *)
Lemma dedup_keeps_first_of_each_title_witness :
  summary_agent.deduplicate_articles demo.flood_batch
  = Ok [demo.titled "Flood Hits City"].
Proof.
  exact (proj1 (dedup_keeps_first_of_each_title demo.flood_batch
                  ["flood hits city"; "flood hits city"; ""; ""] eq_refl)).
Defined.

(** What the loop keeps can be fed to it again: from the same set of
    seen titles it keeps everything. *)
Lemma dedup_loop_kept l : forall seen acc seen' out,
  summary_agent.dedup_loop l (seen, acc) = Ok (seen', out) ->
  exists kept,
    out = (acc ++ kept)%list
    /\ forall acc2,
        summary_agent.dedup_loop kept (seen, acc2)
        = Ok (seen', (acc2 ++ kept)%list).
Proof.
  induction l as [|a l IH]; intros seen acc seen' out H; simpl in H.
  - injection H as <- <-. exists []. split; [by rewrite app_nil_r|].
    intros acc2. simpl. by rewrite app_nil_r.
  - unfold summary_agent.dedup_step in H.
    destruct (summary_agent.normalized_title a) as [t|e] eqn:Ht;
      [|discriminate].
    simpl in H.
    destruct (negb (String.eqb t "") && bool_decide (t ∉ seen)) eqn:Hkeep;
      simpl in H.
    + apply IH in H as (kept & -> & Hagain).
      exists (a :: kept). split; [by rewrite <- app_assoc|].
      intros acc2. simpl. unfold summary_agent.dedup_step.
      rewrite Ht. simpl. rewrite Hkeep. simpl.
      rewrite Hagain. by rewrite <- app_assoc.
    + apply IH in H as (kept & -> & Hagain). by exists kept.
Qed.

(** Deduplication is idempotent: a deduplicated batch passes through
    [deduplicate_articles] unchanged. *)
Theorem dedup_is_idempotent articles out :
  summary_agent.deduplicate_articles articles = Ok out ->
  summary_agent.deduplicate_articles out = Ok out.
Proof.
  unfold summary_agent.deduplicate_articles. intros H.
  destruct (summary_agent.dedup_loop articles (∅, [])) as [[seen' out']|e]
    eqn:Hloop; [|discriminate].
  simpl in H. injection H as ->.
  apply dedup_loop_kept in Hloop as (kept & -> & Hagain).
  simpl. by rewrite Hagain.
Qed.

Lemma dedup_is_idempotent_witness :
  summary_agent.deduplicate_articles [demo.titled "Flood Hits City"]
  = Ok [demo.titled "Flood Hits City"].
Proof.
  apply (dedup_is_idempotent demo.flood_batch). vm_compute. reflexivity.
Defined.

(** When a title is usable: the record is a dict whose title, if it has
    one, is a string. *)
Lemma normalized_title_raises a e :
  summary_agent.normalized_title a = Raise e
  <-> e = AttributeError
      /\ match a with
         | PDict d =>
             match pydict.lookup d "title" with
             | Some (PStr _) | None => False
             | Some _ => True
             end
         | _ => True
         end.
Proof.
  unfold summary_agent.normalized_title.
  destruct a as [| | | | | |d]; simpl;
    try (split; [by intros [= <-] | by intros [-> _]]).
  unfold pydict.get. destruct (pydict.lookup d "title") as [v|]; simpl.
  - destruct v; simpl;
      try (split; [by intros [= <-] | by intros [-> _]]).
    split; [discriminate | by intros [_ []]].
  - split; [discriminate | by intros [_ []]].
Qed.

Lemma dedup_loop_raises l : forall st,
  match rmapM summary_agent.normalized_title l with
  | Ok _ => exists st', summary_agent.dedup_loop l st = Ok st'
  | Raise e => summary_agent.dedup_loop l st = Raise e
  end.
Proof.
  induction l as [|a l IH]; intros st; simpl.
  - by exists st.
  - unfold summary_agent.dedup_step.
    destruct (summary_agent.normalized_title a) as [t|e]; simpl; [|done].
    destruct (negb (String.eqb t "") && bool_decide (t ∉ st.1)); simpl.
    + specialize (IH ({[t]} ∪ st.1, (st.2 ++ [a])%list)).
      by destruct (rmapM summary_agent.normalized_title l).
    + specialize (IH st).
      by destruct (rmapM summary_agent.normalized_title l).
Qed.

(** [deduplicate_articles] raises exactly when some record has no
    usable title, that is when it is not a dict or carries a title that is
    not a string (a null title, say); the exception is [AttributeError],
    and no record is returned then. *)
Theorem dedup_raises_on_unusable_title articles :
  (forall e,
     summary_agent.deduplicate_articles articles = Raise e
     <-> rmapM summary_agent.normalized_title articles = Raise e)
  /\ (forall a rest e,
        summary_agent.normalized_title a = Raise e ->
        summary_agent.deduplicate_articles (a :: rest) = Raise AttributeError)
  /\ (forall rest,
        summary_agent.deduplicate_articles (PDict [("title", PNone)] :: rest)
        = Raise AttributeError).
Proof.
  split; [|split].
  - intros e. unfold summary_agent.deduplicate_articles.
    pose proof (dedup_loop_raises articles (∅, [])) as H.
    destruct (rmapM summary_agent.normalized_title articles) as [tl|e'].
    + destruct H as [st' ->]. simpl. split; discriminate.
    + rewrite H. simpl. split; intros [= ->]; reflexivity.
  - intros a rest e Ha. apply normalized_title_raises in Ha as [-> Ha].
    unfold summary_agent.deduplicate_articles. simpl.
    unfold summary_agent.dedup_step.
    assert (Hr : summary_agent.normalized_title a = Raise AttributeError)
      by (by apply normalized_title_raises).
    by rewrite Hr.
  - intros rest. reflexivity.
Qed.

(** ** The feedback aggregator *)

Section feedback.

Variable rt : runtime.

Lemma contains_lookup d k :
  pydict.contains d k = true -> exists v, pydict.lookup d k = Some v.
Proof.
  unfold pydict.contains. destruct (pydict.lookup d k); [eauto|discriminate].
Qed.

(** One turn of the loop on a record that is a dict. *)
Lemma feedback_step_dict acc d :
  prompt_updater.feedback_step rt acc (PDict d)
  = Ok match spec.usable_score d with
       | Some f =>
           ((acc.1 ++ [f])%list, (acc.2 ++ [spec.feedback_line rt d f])%list)
       | None => acc
       end.
Proof.
  unfold prompt_updater.feedback_step, spec.usable_score, spec.reviewed.
  simpl. destruct (pydict.contains d "user_score") eqn:Hs; simpl; [|done].
  destruct (pydict.contains d "user_reasoning") eqn:Hr; simpl; [|done].
  apply contains_lookup in Hs as [v Hs]. apply contains_lookup in Hr as [v' Hr].
  rewrite Hs. simpl. destruct (py_float v) as [f|e]; [|done].
  rewrite Hr. simpl. unfold spec.feedback_line, pydict.get. by rewrite Hr.
Qed.

Lemma feedback_loop_dicts ds : forall acc,
  prompt_updater.feedback_loop rt (map PDict ds) acc
  = Ok ((acc.1 ++ map snd (omap spec.survivor ds))%list,
        (acc.2 ++ map (fun df => spec.feedback_line rt df.1 df.2)
                    (omap spec.survivor ds))%list).
Proof.
  induction ds as [|d ds IH]; intros [scores lines].
  - simpl. by rewrite !app_nil_r.
  - change (prompt_updater.feedback_loop rt (map PDict (d :: ds)) (scores, lines))
      with (rbind (prompt_updater.feedback_step rt (scores, lines) (PDict d))
              (prompt_updater.feedback_loop rt (map PDict ds))).
    rewrite feedback_step_dict.
    change (omap spec.survivor (d :: ds))
      with (match spec.survivor d with
            | Some y => y :: omap spec.survivor ds
            | None => omap spec.survivor ds
            end).
    destruct (spec.usable_score d) as [f|] eqn:Hu.
    + assert (Hs : spec.survivor d = Some (d, f))
        by (unfold spec.survivor; by rewrite Hu).
      rewrite Hs. simpl. rewrite IH. simpl. by rewrite <- !app_assoc.
    + assert (Hs : spec.survivor d = None)
        by (unfold spec.survivor; by rewrite Hu).
      rewrite Hs. simpl. by rewrite IH.
Qed.

(** The aggregator on a batch of records: the records that survive are
    those that carry both human fields and whose score [float] accepts;
    the scores and the lines of the feedback document are theirs, in the
    order of the batch, a line reading Score, the score with one decimal,
    a dash and the reasoning. A record whose score is no number is in
    neither list. The mean is the sum of the scores divided by their
    number, shown with two decimals. *)
Theorem feedback_aggregates_usable_scores (ds : list pydict.dict) :
  let survivors := omap spec.survivor ds in
  prompt_updater.feedback_loop rt (map PDict ds) ([], [])
  = Ok (map snd survivors,
        map (fun df => spec.feedback_line rt df.1 df.2) survivors)
  /\ (forall d f,
        (d, f) ∈ survivors
        <-> d ∈ ds
            /\ pydict.contains d "user_score" = true
            /\ pydict.contains d "user_reasoning" = true
            /\ exists v, pydict.lookup d "user_score" = Some v
                         /\ py_float v = Ok f)
  /\ sublist (map fst survivors) ds
  /\ prompt_updater.feedback_section (map snd survivors)
       (map (fun df => spec.feedback_line rt df.1 df.2) survivors)
     = nl +:+ nl +:+ "=== Human Feedback Integration ===" +:+ nl
       +:+ "Average Human Score: "
       +:+ pyfloat.format_fixed 2
             (pyfloat.div
                (fold_left pyfloat.add (map snd survivors) (S754_zero false))
                (pyfloat.of_Z (Z.of_nat (length survivors))))
       +:+ nl +:+ "Detailed Feedback:" +:+ nl
       +:+ prompt_updater.entry_lines
             (map (fun df => spec.feedback_line rt df.1 df.2) survivors).
Proof.
  intros survivors. split; [|split; [|split]].
  - by rewrite feedback_loop_dicts.
  - intros d f. unfold survivors. rewrite list_elem_of_omap. split.
    + intros (d' & Hin & Hs). unfold spec.survivor, spec.usable_score in Hs.
      destruct (spec.reviewed d') eqn:Hrev; [|discriminate].
      destruct (pydict.lookup d' "user_score") as [v|] eqn:Hv; [|discriminate].
      destruct (py_float v) as [f'|] eqn:Hf; [|discriminate].
      injection Hs as <- <-.
      apply andb_true_iff in Hrev as [H1 H2]. eauto 10.
    + intros (Hin & H1 & H2 & v & Hv & Hf). exists d. split; [done|].
      unfold spec.survivor, spec.usable_score, spec.reviewed.
      by rewrite H1, H2, Hv, Hf.
  - unfold survivors. clear. induction ds as [|d ds IH]; simpl; [constructor|].
    unfold spec.survivor at 1. destruct (spec.usable_score d); simpl.
    + by apply sublist_skip.
    + by apply sublist_cons.
  - unfold prompt_updater.feedback_section, prompt_updater.avg_score,
      prompt_updater.sum. by rewrite length_map.
Qed.

End feedback.

(** Scores 6, 8 and the text x: the mean is 7.00 and two lines are
    listed. *)
Lemma feedback_example (rt : runtime) :
  exists scores lines,
    prompt_updater.feedback_loop rt (map PDict demo.reviews) ([], [])
    = Ok (scores, lines)
    /\ length scores = 2
    /\ prompt_updater.feedback_section scores lines
       = nl +:+ nl +:+ "=== Human Feedback Integration ===" +:+ nl
         +:+ "Average Human Score: 7.00" +:+ nl
         +:+ "Detailed Feedback:" +:+ nl
         +:+ "Score: 6.0 - fair" +:+ nl
         +:+ "Score: 8.0 - good" +:+ nl.
Proof.
  do 2 eexists. split; [|split].
  - rewrite feedback_loop_dicts. simpl. reflexivity.
  - reflexivity.
  - vm_compute. reflexivity.
Qed.

(** ** Computations that write no file *)

Lemma bind_inv {A B} (m : M A) (k : A -> M B) w r w' :
  bind m k w = (r, w') ->
  (exists e, m w = (Raise e, w') /\ r = Raise e)
  \/ (exists a w1, m w = (Ok a, w1) /\ k a w1 = (r, w')).
Proof.
  unfold bind. destruct (m w) as [[a|e] w1]; intros H.
  - right. eauto.
  - left. injection H as <- <-. eauto.
Qed.

Lemma writes_nothing_ret {A} (a : A) : spec.writes_nothing (ret a).
Proof.
  intros w r w' [= <- <-]. split; [done|]. exists []. by rewrite app_nil_r.
Qed.

Lemma writes_nothing_lift {A} (x : result A) : spec.writes_nothing (lift x).
Proof.
  intros w r w' [= <- <-]. split; [done|]. exists []. by rewrite app_nil_r.
Qed.

Lemma writes_nothing_raise {A} e : spec.writes_nothing (@raise A e).
Proof.
  intros w r w' [= <- <-]. split; [done|]. exists []. by rewrite app_nil_r.
Qed.

Lemma writes_nothing_path_exists p : spec.writes_nothing (path_exists p).
Proof.
  intros w r w' [= <- <-]. split; [done|]. exists []. by rewrite app_nil_r.
Qed.

Lemma writes_nothing_emit e :
  spec.is_write e = false -> spec.writes_nothing (emit e).
Proof.
  intros He w r w' [= <- <-]. split; [done|]. exists [e]. split; [done|].
  unfold spec.count_writes. rewrite count_filter_cons, He. done.
Qed.

Lemma writes_nothing_read_text p : spec.writes_nothing (read_text p).
Proof.
  intros w r w'. unfold read_text. destruct (files w !! p).
  - intros [= <- <-]. split; [done|]. by exists [EvRead p].
  - intros [= <- <-]. split; [done|]. exists []. by rewrite app_nil_r.
Qed.

Lemma writes_nothing_makedirs d : spec.writes_nothing (makedirs d).
Proof.
  unfold makedirs. destruct (String.eqb d "").
  - apply writes_nothing_raise.
  - apply writes_nothing_ret.
Qed.

Lemma writes_nothing_bind {A B} (m : M A) (k : A -> M B) :
  spec.writes_nothing m -> (forall a, spec.writes_nothing (k a)) ->
  spec.writes_nothing (bind m k).
Proof.
  intros Hm Hk w r w' H.
  apply bind_inv in H as [(e & H & ->) | (a & w1 & H & Hka)].
  - by apply Hm in H.
  - apply Hm in H as (Hf & t & Ht & Hc).
    apply Hk in Hka as (Hf' & t' & Ht' & Hc').
    split; [congruence|]. exists (t ++ t')%list.
    rewrite Ht', Ht, <- app_assoc. split; [done|].
    unfold spec.count_writes in *. rewrite filter_app, length_app. lia.
Qed.

Lemma writes_nothing_try_catch {A} (m : M A) (h : exn -> M A) :
  spec.writes_nothing m -> (forall e, spec.writes_nothing (h e)) ->
  spec.writes_nothing (try_catch m h).
Proof.
  intros Hm Hh w r w'. unfold try_catch.
  destruct (m w) as [[a|e] w1] eqn:H.
  - intros [= <- <-]. by apply Hm in H.
  - intros Hhe. apply Hm in H as (Hf & t & Ht & Hc).
    apply Hh in Hhe as (Hf' & t' & Ht' & Hc').
    split; [congruence|]. exists (t ++ t')%list.
    rewrite Ht', Ht, <- app_assoc. split; [done|].
    unfold spec.count_writes in *. rewrite filter_app, length_app. lia.
Qed.

Lemma writes_nothing_if {A} (b : bool) (m1 m2 : M A) :
  spec.writes_nothing m1 -> spec.writes_nothing m2 ->
  spec.writes_nothing (if b then m1 else m2).
Proof. by destruct b. Qed.

Ltac quiet :=
  repeat first
    [ apply writes_nothing_bind; [|intros ?]
    | apply writes_nothing_try_catch; [|intros ?]
    | apply writes_nothing_if
    | apply writes_nothing_ret
    | apply writes_nothing_lift
    | apply writes_nothing_raise
    | apply writes_nothing_path_exists
    | apply writes_nothing_read_text
    | apply writes_nothing_makedirs
    | apply writes_nothing_emit; reflexivity ].

Section scoring_frame.

Variable rt : runtime.
Variable ev : nat -> string -> string -> result pyval.

Lemma writes_nothing_invoke_evaluator template state_text :
  spec.writes_nothing (rl_agent.invoke_evaluator ev template state_text).
Proof.
  intros w r w' [= <- <-]. split; [done|].
  by exists [EvEval template state_text].
Qed.

Lemma writes_nothing_score_article a :
  spec.writes_nothing (rl_agent.score_article rt ev a).
Proof.
  unfold rl_agent.score_article, rl_agent.get_agent_action,
    rl_agent.get_agent_prompt, rl_agent.parse_response, print.
  quiet. apply writes_nothing_invoke_evaluator.
Qed.

Lemma writes_nothing_score_loop items : forall acc,
  spec.writes_nothing (rl_agent.score_loop rt ev items acc).
Proof.
  induction items as [|a items IH]; intros acc; simpl.
  - apply writes_nothing_ret.
  - apply writes_nothing_bind; [apply writes_nothing_score_article|].
    intros s. apply IH.
Qed.

Lemma writes_nothing_load_articles fn :
  spec.writes_nothing (rl_agent.load_articles rt fn).
Proof. unfold rl_agent.load_articles. quiet. Qed.

(** What a run does to the files, whatever its outcome: nothing, or one
    write, of the output file, as its last event, and then it returns. *)
Lemma run_simulation_effects fin fout w r w' :
  let out := default (rl_agent.default_output_file rt) fout in
  rl_agent.run_simulation rt ev fin fout w = (r, w') ->
  exists t,
    spec.count_writes t = 0
    /\ ((files w' = files w /\ trace w' = (trace w ++ t)%list)
        \/ (r = Ok tt
            /\ String.eqb (ospath.dirname out) "" = false
            /\ exists c,
                files w' = <[out := c]> (files w)
                /\ trace w' = (trace w ++ t ++ [EvWrite out c])%list)).
Proof.
  intros out. unfold rl_agent.run_simulation. fold out.
  set (inp := default (rl_agent.default_input_file rt) fin).
  intros H.
  apply bind_inv in H as [(e & H & ->) | (skip & w1 & Hskip & H)];
    [discriminate|].
  injection Hskip as <- <-.
  destruct (exists_in (files w) out).
  { injection H as <- <-. exists []. split; [done|]. left.
    by rewrite app_nil_r. }
  apply bind_inv in H as [(e & H & ->) | (articles & w2 & Hload & H)].
  { apply writes_nothing_load_articles in H as (Hf & t & Ht & Hc).
    exists t. split; [done|]. by left. }
  apply writes_nothing_load_articles in Hload as (Hf2 & t2 & Ht2 & Hc2).
  destruct (truthy articles); simpl in H.
  2:{ injection H as <- <-. exists t2. split; [done|]. by left. }
  apply bind_inv in H as [(e & H & ->) | (items & w3 & Hiter & H)].
  { injection H as _ <-. exists t2. split; [done|]. by left. }
  injection Hiter as _ <-.
  apply bind_inv in H as [(e & H & ->) | (scored & w4 & Hloop & H)].
  { apply writes_nothing_score_loop in H as (Hf & t & Ht & Hc).
    exists (t2 ++ t)%list. split.
    - unfold spec.count_writes in *. rewrite filter_app, length_app. lia.
    - left. split; [congruence|]. by rewrite Ht, Ht2, <- app_assoc. }
  apply writes_nothing_score_loop in Hloop as (Hf4 & t4 & Ht4 & Hc4).
  assert (Hc : spec.count_writes (t2 ++ t4) = 0).
  { unfold spec.count_writes in *. rewrite filter_app, length_app. lia. }
  exists (t2 ++ t4)%list. split; [done|].
  unfold try_catch, bind, makedirs, raise, ret, write_text in H.
  destruct (String.eqb (ospath.dirname out) "").
  - injection H as <- <-. left. split; [congruence|].
    by rewrite Ht4, Ht2, <- app_assoc.
  - injection H as <- <-. right. split; [done|]. split; [done|].
    exists (json_dump rt (PList scored)). simpl. split; [congruence|].
    by rewrite Ht4, Ht2, <- !app_assoc.
Qed.

(** A run that raises has written nothing: the file system is as it was
    before the run, whatever the evaluator was asked in the meantime. The
    scores obtained up to the failure are lost. *)
Theorem failed_run_writes_nothing fin fout w e w' :
  rl_agent.run_simulation rt ev fin fout w = (Raise e, w') ->
  files w' = files w
  /\ spec.count_writes (trace w') = spec.count_writes (trace w).
Proof.
  intros H. apply run_simulation_effects in H
    as (t & Hc & [[Hf Ht] | [[=] _]]).
  split; [done|]. rewrite Ht.
  unfold spec.count_writes in *. rewrite filter_app, length_app. lia.
Qed.

(** Whatever its outcome, a run touches no file but its output file,
    and writes at most once. *)
Theorem run_touches_only_the_scored_file fin fout w r w' :
  let out := default (rl_agent.default_output_file rt) fout in
  rl_agent.run_simulation rt ev fin fout w = (r, w') ->
  (forall p, p <> out -> files w' !! p = files w !! p)
  /\ spec.count_writes (trace w') <= spec.count_writes (trace w) + 1.
Proof.
  intros out H. apply run_simulation_effects in H
    as (t & Hc & [[Hf Ht] | (_ & _ & c & Hf & Ht)]); fold out in Hf, Ht.
  - split; [by rewrite Hf|]. rewrite Ht.
    unfold spec.count_writes in *. rewrite filter_app, length_app. lia.
  - split.
    + intros p Hp. rewrite Hf. by rewrite lookup_insert_ne.
    + rewrite Ht. unfold spec.count_writes in *.
      rewrite !filter_app, !length_app, count_filter_cons. simpl. lia.
Qed.

(** When there is nothing to score, nothing is spent: without the raw
    file the run raises at once and leaves the world as it is; with a raw
    file that holds an empty batch (or any other falsy value) the run
    reads it and returns. In neither case is the evaluator invoked or a
    file written. *)
Theorem nothing_to_score_costs_nothing fin fout w :
  let inp := default (rl_agent.default_input_file rt) fin in
  let out := default (rl_agent.default_output_file rt) fout in
  exists_in (files w) out = false ->
  (files w !! inp = None ->
   rl_agent.run_simulation rt ev fin fout w = (Raise (FileNotFoundError inp), w))
  /\ (forall content v,
        files w !! inp = Some content ->
        json.loads content = Ok v ->
        truthy v = false ->
        rl_agent.run_simulation rt ev fin fout w
        = (Ok tt, World (files w) (trace w ++ [EvRead inp]))).
Proof.
  intros inp out Hex.
  assert (Hskip : path_exists out w = (Ok false, w))
    by (unfold path_exists; by rewrite Hex).
  split.
  - intros Hnone.
    assert (Hl : rl_agent.load_articles rt inp w
                 = (Raise (FileNotFoundError inp), w)).
    { unfold rl_agent.load_articles, bind, read_text. by rewrite Hnone. }
    unfold rl_agent.run_simulation. fold inp out.
    rewrite (bind_ok _ _ _ _ _ Hskip). simpl.
    by rewrite (bind_raise _ _ _ _ _ Hl).
  - intros content v Hfile Hloads Hv.
    assert (Hl : rl_agent.load_articles rt inp w
                 = (Ok v, World (files w) (trace w ++ [EvRead inp]))).
    { unfold rl_agent.load_articles, bind, read_text, lift.
      rewrite Hfile, Hloads. reflexivity. }
    unfold rl_agent.run_simulation. fold inp out.
    rewrite (bind_ok _ _ _ _ _ Hskip). simpl.
    rewrite (bind_ok _ _ _ _ _ Hl). by rewrite Hv.
Qed.

(** An answer that cannot be decoded costs the record nothing but its
    verdict: whatever the evaluator said, the record comes out with the
    score 0 and the summary of the fallback, its other fields as they
    were, and the files untouched. *)
Theorem undecodable_answer_gets_fallback d st w resp w2 e :
  rl_agent.state_representation rt (PDict d) = Ok st ->
  rl_agent.get_agent_action rt ev st w = (Ok resp, w2) ->
  spec.plain_answer rt resp = true ->
  spec.decode rt resp = Raise e ->
  exists w',
    rl_agent.score_article rt ev (PDict d) w
    = (Ok (PDict (pydict.set
                    (pydict.set d "tweet_worthiness" (PInt 0))
                    "summary" (PStr "Could not evaluate article."))), w')
    /\ files w' = files w.
Proof.
  intros Hst Hact _ Hdec.
  destruct (parse_or_fallback rt resp w2) as (t & Hp & _).
  assert (Hv : spec.verdict rt resp = rl_agent.fallback_action)
    by (unfold spec.verdict; by rewrite Hdec).
  rewrite Hv in Hp.
  exists (World (files w2) (trace w2 ++ t)). split.
  - unfold rl_agent.score_article.
    unfold bind at 1. unfold lift at 1. rewrite Hst.
    unfold bind at 1. rewrite Hact.
    unfold bind at 1. rewrite Hp. reflexivity.
  - simpl. by apply get_agent_action_inv in Hact as [Hf _].
Qed.

(** A run whose output file is named without a folder scores every
    record and then writes nothing: creating the folder of the output
    file fails on the empty folder name, inside the [try] that guards
    the write. The evaluator has been invoked once per record by then. *)
Theorem bare_output_name_loses_the_scores fin name w w' items w1 :
  let inp := default (rl_agent.default_input_file rt) fin in
  ospath.dirname name = "" ->
  exists_in (files w) name = false ->
  rl_agent.load_articles rt inp w = (Ok (PList items), w1) ->
  rl_agent.run_simulation rt ev fin (Some name) w = (Ok tt, w') ->
  files w' = files w
  /\ exists t,
      trace w' = (trace w ++ t)%list
      /\ spec.count_evals t = length items
      /\ spec.count_writes t = 0.
Proof.
  intros inp Hdir Hex Hload Hrun.
  apply run_simulation_inv in Hrun
    as [[Hex' _] | (_ & v & Hload' & [[Hv ->] | (Hv & items' & scored & t
          & Hiter & Hall & He & Hw & Hr & ->)])];
    simpl in *; try fold inp in Hload'.
  - congruence.
  - rewrite Hload in Hload'. injection Hload' as <- _.
    destruct items; [|done]. split; [done|]. by exists [EvRead inp].
  - rewrite Hload in Hload'. injection Hload' as <- _.
    simpl in Hiter. injection Hiter as <-.
    rewrite Hdir. simpl. split; [done|].
    exists ([EvRead inp] ++ t)%list. split; [done|].
    rewrite count_evals_app, count_writes_app, He, Hw. done.
Qed.

End scoring_frame.

(** The verdict of the answer that is no JSON at all. *)
Lemma undecodable_answer_gets_fallback_witness :
  exists w',
    rl_agent.score_article demo.rt demo.ev_no_idea
      (PDict [("title", PStr "Flood")]) demo.w_raw
    = (Ok (PDict [("title", PStr "Flood"); ("tweet_worthiness", PInt 0);
                  ("summary", PStr "Could not evaluate article.")]), w')
    /\ files w' = files demo.w_raw.
Proof.
  eapply (undecodable_answer_gets_fallback demo.rt demo.ev_no_idea
            [("title", PStr "Flood")]).
  - vm_compute. reflexivity.
  - vm_compute. reflexivity.
  - vm_compute. reflexivity.
  - vm_compute. reflexivity.
Defined.

(** The run that meets a bare number leaves the files as they were. *)
Lemma failed_run_writes_nothing_witness :
  files demo.w_failed = files demo.w_raw
  /\ spec.count_writes (trace demo.w_failed)
     = spec.count_writes (trace demo.w_raw).
Proof.
  apply (failed_run_writes_nothing demo.rt demo.ev_bare_number None None
           demo.w_raw AttributeError demo.w_failed).
  vm_compute. reflexivity.
Defined.

(** The run with the evaluator that scores 42 leaves the raw file as it
    was. *)
Lemma run_touches_only_the_scored_file_witness :
  files demo.w_scored_42 !! demo.raw_path = files demo.w_raw !! demo.raw_path.
Proof.
  assert (Hrun : rl_agent.run_simulation demo.rt demo.ev_out_of_range None
                   None demo.w_raw = (Ok tt, demo.w_scored_42))
    by (vm_compute; reflexivity).
  apply (proj1 (run_touches_only_the_scored_file demo.rt demo.ev_out_of_range
                  None None demo.w_raw (Ok tt) demo.w_scored_42 Hrun)).
  vm_compute. discriminate.
Defined.

(** An empty raw batch: the run reads it and returns. *)
Lemma nothing_to_score_costs_nothing_witness :
  rl_agent.run_simulation demo.rt demo.ev_fenced None None demo.w_empty
  = (Ok tt, World (files demo.w_empty) (trace demo.w_empty ++ [EvRead demo.raw_path])).
Proof.
  assert (Hex : exists_in (files demo.w_empty) demo.scored_path = false)
    by (vm_compute; reflexivity).
  assert (Hfile : files demo.w_empty !! demo.raw_path = Some "[]")
    by (vm_compute; reflexivity).
  exact (proj2 (nothing_to_score_costs_nothing demo.rt demo.ev_fenced None None
                  demo.w_empty Hex) "[]" (PList []) Hfile eq_refl eq_refl).
Defined.

(** The demo batch scored into a file named without a folder: two
    evaluator calls, no file. *)
Lemma bare_output_name_loses_the_scores_witness :
  files demo.w_scored_bare = files demo.w_raw
  /\ exists t,
      trace demo.w_scored_bare = (trace demo.w_raw ++ t)%list
      /\ spec.count_evals t = 2
      /\ spec.count_writes t = 0.
Proof.
  assert (Hdir : ospath.dirname "scored.json" = "") by (vm_compute; reflexivity).
  assert (Hex : exists_in (files demo.w_raw) "scored.json" = false)
    by (vm_compute; reflexivity).
  assert (Hload : rl_agent.load_articles demo.rt demo.raw_path demo.w_raw
                  = (Ok (PList demo.raw_items),
                     World (files demo.w_raw) [EvRead demo.raw_path]))
    by (vm_compute; reflexivity).
  assert (Hrun : rl_agent.run_simulation demo.rt demo.ev_fenced None
                   (Some "scored.json") demo.w_raw = (Ok tt, demo.w_scored_bare))
    by (vm_compute; reflexivity).
  exact (bare_output_name_loses_the_scores demo.rt demo.ev_fenced None
           "scored.json" demo.w_raw demo.w_scored_bare demo.raw_items _
           Hdir Hex Hload Hrun).
Defined.

(** The demo batch, scored by the evaluator that answers 42: two records
    are written, each a raw record with both fields set. *)
Lemma completed_run_scores_every_record_witness :
  exists (scored : list pyval) t,
    files demo.w_scored_42
    = <[demo.scored_path := json_dump demo.rt (PList scored)]> (files demo.w_raw)
    /\ trace demo.w_scored_42
       = (trace demo.w_raw ++ [EvRead demo.raw_path] ++ t
          ++ [EvWrite demo.scored_path (json_dump demo.rt (PList scored))])%list
    /\ spec.count_evals t = 2
    /\ length scored = 2
    /\ forall i a s,
         demo.raw_items !! i = Some a -> scored !! i = Some s ->
         spec.scored_at demo.rt demo.ev_out_of_range rl_agent.default_prompt
           i a s.
Proof.
  assert (Hex : exists_in (files demo.w_raw) demo.scored_path = false)
    by (vm_compute; reflexivity).
  assert (Hfile : files demo.w_raw !! demo.raw_path = Some demo.raw_two)
    by (vm_compute; reflexivity).
  assert (Hloads : json.loads demo.raw_two = Ok (PList demo.raw_items))
    by (vm_compute; reflexivity).
  assert (Hne : demo.raw_items <> []) by discriminate.
  assert (Hdir : ospath.dirname demo.scored_path <> "")
    by (vm_compute; discriminate).
  assert (Hcan : spec.can_create (files demo.w_raw) demo.scored_path = true)
    by (vm_compute; reflexivity).
  assert (Hplain : forall n template state_text response,
             demo.ev_out_of_range n template state_text = Ok response ->
             spec.plain_answer demo.rt response = true)
    by (intros n template state_text response [= <-]; vm_compute;
        reflexivity).
  assert (Hrun : rl_agent.run_simulation demo.rt demo.ev_out_of_range None
                   None demo.w_raw = (Ok tt, demo.w_scored_42))
    by (vm_compute; reflexivity).
  assert (Hprompt : spec.prompt_of (files demo.w_raw)
                    = rl_agent.default_prompt)
    by (vm_compute; reflexivity).
  destruct (completed_run_scores_every_record demo.rt demo.ev_out_of_range
              None None demo.w_raw demo.w_scored_42 demo.raw_two
              demo.raw_items Hex Hfile Hloads Hne Hdir Hcan Hplain Hrun)
    as (scored & t & Hf & Ht & _ & He & Hlen & Hall).
  exists scored, t. split; [exact Hf|]. split; [exact Ht|].
  split; [exact He|]. split; [exact Hlen|].
  intros i a s Hi Hs. destruct (Hall i a s Hi Hs) as [Hat _].
  rewrite Hprompt in Hat. exact Hat.
Defined.

(** ** What the recovery protocol takes for the object *)

(** The candidate that [run_simulation] hands to the decoder is not the
    first JSON object of the answer but the span from the first opening
    brace to the last closing brace: for an answer that does not start
    with a fence, whatever stands before the first opening brace and
    after the last closing brace is dropped, and everything in between is
    kept, further braces included. *)
Theorem extract_json_takes_outer_span pre mid post :
  let s := pre +:+ String "{" (mid +:+ String "}" post) in
  pystr.startswith "```" s = false ->
  pystr.mem "{" pre = false ->
  pystr.mem "}" post = false ->
  rl_agent.extract_json s = String "{" (mid +:+ "}").
Proof.
  intros s Hfence Hpre Hpost. unfold rl_agent.extract_json.
  rewrite Hfence. unfold s.
  by rewrite search_span_first_to_last.
Qed.

(** Two objects in one answer are taken as one span, which is no JSON
    text: the record gets the fallback verdict. *)
Lemma extract_json_takes_outer_span_witness :
  rl_agent.extract_json (pystr.dq "x {'a': 1} and {'b': 2} y")
  = pystr.dq "{'a': 1} and {'b': 2}"
  /\ json.loads (pystr.dq "{'a': 1} and {'b': 2}") = Raise JSONDecodeError.
Proof.
  split; [|vm_compute; reflexivity].
  assert (Hs : pystr.dq "x {'a': 1} and {'b': 2} y"
               = "x " +:+ String "{" (pystr.dq "'a': 1} and {'b': 2"
                                        +:+ String "}" " y"))
    by (vm_compute; reflexivity).
  assert (Hm : pystr.dq "{'a': 1} and {'b': 2}"
               = String "{" (pystr.dq "'a': 1} and {'b': 2" +:+ "}"))
    by (vm_compute; reflexivity).
  rewrite Hs, Hm.
  apply (extract_json_takes_outer_span "x " (pystr.dq "'a': 1} and {'b': 2")
           " y"); vm_compute; reflexivity.
Defined.

(** ** The fetch stage: failures and the shape of a record *)

(** The fetch stage never raises and never returns a partial batch on
    failure: when the request fails, when the response is not a success,
    when its body is no JSON, no object, or has no features, the result
    is the empty list. *)
Theorem fetch_failure_gives_no_records news_source custom_params :
  let params := gdelt_pipeline.merge_params custom_params in
  let out := gdelt_pipeline.fetch_gdelt_articles news_source custom_params in
  (forall e, news_source params = Raise e -> out = [])
  /\ (forall resp,
        news_source params = Ok resp ->
        (gdelt_pipeline.ok resp = false -> out = [])
        /\ (forall e, gdelt_pipeline.ok resp = true ->
              gdelt_pipeline.body resp = Raise e -> out = [])
        /\ (forall data, gdelt_pipeline.ok resp = true ->
              gdelt_pipeline.body resp = Ok data ->
              (forall d, data <> PDict d) -> out = [])
        /\ (forall d features, gdelt_pipeline.ok resp = true ->
              gdelt_pipeline.body resp = Ok (PDict d) ->
              pydict.get d "features" (PList []) = features ->
              truthy features = false -> out = [])).
Proof.
  intros params out.
  unfold out, gdelt_pipeline.fetch_gdelt_articles, gdelt_pipeline.fetch_body.
  fold params. split.
  - intros e ->. reflexivity.
  - intros resp ->. simpl. repeat split.
    + intros ->. reflexivity.
    + intros e -> ->. reflexivity.
    + intros data -> -> Hnd. simpl.
      destruct data; try reflexivity. by destruct (Hnd d).
    + intros d features -> -> <- Ht. simpl. by rewrite Ht.
Qed.




(** ** The prompt rewrite, from the scored file to the instruction file *)

Section improving.

Variable rt : runtime.
Variable rewriter : string -> string -> result pyval.

Lemma load_generated_missing g w :
  exists_in (files w) g = false ->
  prompt_updater.load_generated g w = (Ok None, w).
Proof.
  intros Hex. unfold prompt_updater.load_generated, bind, path_exists.
  by rewrite Hex.
Qed.

Lemma load_generated_file g w content :
  files w !! g = Some content ->
  prompt_updater.load_generated g w
  = (Ok match json.loads content with
        | Ok v => Some v
        | Raise _ => None
        end, World (files w) (trace w ++ [EvRead g])).
Proof.
  intros Hfile.
  unfold prompt_updater.load_generated, bind, path_exists.
  rewrite exists_in_file by (rewrite Hfile; eauto).
  unfold try_catch, prompt_updater.load_json, bind, read_text, lift, ret.
  rewrite Hfile. by destruct (json.loads content).
Qed.

Lemma update_from_dicts ds p w :
  prompt_updater.update_from rt rewriter (PList (map PDict ds)) None p w
  = match omap spec.survivor ds with
    | [] => (Ok false, w)
    | _ :: _ =>
        try_catch
          (found <- path_exists p ;;
           original_prompt <- (if found : bool then read_text p else ret "") ;;
           improved_prompt <- prompt_updater.agent_improve_prompt rewriter
                                original_prompt (spec.feedback_of rt ds) ;;
           write_text p improved_prompt ;;
           ret tt ;;
           ret true)
          (fun _ => ret false) w
    end.
Proof.
  unfold prompt_updater.update_from.
  unfold bind at 1. unfold lift at 1. simpl py_iter. cbv iota beta.
  unfold bind at 1. unfold lift at 1.
  rewrite feedback_loop_dicts. simpl fst. simpl snd. simpl app.
  unfold spec.feedback_of.
  destruct (omap spec.survivor ds) as [|s l]; reflexivity.
Qed.

Lemma agent_improve_prompt_run original feedback w :
  prompt_updater.agent_improve_prompt rewriter original feedback w
  = (match rewriter original feedback with
     | Ok raw =>
         match spec.answer_text raw with
         | Some s => Ok (pystr.strip s)
         | None => Raise AttributeError
         end
     | Raise e => Raise e
     end, World (files w) (trace w ++ [EvRewrite original feedback])).
Proof.
  unfold prompt_updater.agent_improve_prompt, bind, emit, lift,
    spec.answer_text.
  destruct (rewriter original feedback) as [raw|e]; [|done].
  destruct raw as [| | | | | |d]; try done.
  by destruct (pydict.get d "text" (PDict d)).
Qed.

(** Without a scored file that can be read there is no update: when the
    file is missing the rewrite returns false at once, when it holds no
    JSON it returns false after reading it. The instruction file and the
    rewrite collaborator are not touched. *)
Theorem update_without_scored_file_fails g p w :
  (exists_in (files w) g = false ->
   prompt_updater.improve_prompt rt rewriter g None p w = (Ok false, w))
  /\ (forall content e,
        files w !! g = Some content ->
        json.loads content = Raise e ->
        prompt_updater.improve_prompt rt rewriter g None p w
        = (Ok false, World (files w) (trace w ++ [EvRead g]))).
Proof.
  unfold prompt_updater.improve_prompt. split.
  - intros Hex. by rewrite (bind_ok _ _ _ _ _ (load_generated_missing _ _ Hex)).
  - intros content e Hfile Hbad.
    rewrite (bind_ok _ _ _ _ _ (load_generated_file _ _ _ Hfile)).
    by rewrite Hbad.
Qed.

(** When no record of the scored file carries a usable human score, the
    rewrite returns false having read the scored file and nothing else:
    the rewrite collaborator is not invoked and the instruction file is
    neither read nor written. *)
Theorem no_usable_feedback_changes_nothing g p w content ds :
  files w !! g = Some content ->
  json.loads content = Ok (PList (map PDict ds)) ->
  omap spec.survivor ds = [] ->
  prompt_updater.improve_prompt rt rewriter g None p w
  = (Ok false, World (files w) (trace w ++ [EvRead g])).
Proof.
  intros Hfile Hloads Hnone. unfold prompt_updater.improve_prompt.
  rewrite (bind_ok _ _ _ _ _ (load_generated_file _ _ _ Hfile)).
  rewrite Hloads, update_from_dicts. by rewrite Hnone.
Qed.

(** A successful rewrite: with usable feedback in the scored file, the
    rewrite collaborator is invoked once, with the current instructions
    (the empty text when there is no instruction file) and the feedback
    document of the surviving records; the instruction file then holds the
    text of its answer, stripped, and nothing else has changed. When
    there is no instruction file yet, its path is one that can be opened
    for writing: its folder is there. *)
Theorem update_replaces_instructions g p w content ds original raw answer :
  files w !! g = Some content ->
  json.loads content = Ok (PList (map PDict ds)) ->
  omap spec.survivor ds <> [] ->
  files w !! p = Some original
  \/ (exists_in (files w) p = false /\ original = ""
      /\ spec.can_open (files w) p = true) ->
  rewriter original (spec.feedback_of rt ds) = Ok raw ->
  spec.answer_text raw = Some answer ->
  prompt_updater.improve_prompt rt rewriter g None p w
  = (Ok true,
     World (<[p := pystr.strip answer]> (files w))
       (trace w ++ [EvRead g]
        ++ (if exists_in (files w) p then [EvRead p] else [])
        ++ [EvRewrite original (spec.feedback_of rt ds);
            EvWrite p (pystr.strip answer)])).
Proof.
  intros Hfile Hloads Hsome Hp Hrw Hans. unfold prompt_updater.improve_prompt.
  rewrite (bind_ok _ _ _ _ _ (load_generated_file _ _ _ Hfile)).
  rewrite Hloads, update_from_dicts.
  destruct (omap spec.survivor ds) as [|s l] eqn:Hs; [done|].
  unfold try_catch. unfold bind at 1. unfold path_exists at 1. simpl files.
  destruct Hp as [Hp | (Hp & -> & _)].
  - rewrite exists_in_file by (rewrite Hp; eauto).
    unfold bind at 1. unfold read_text at 1. simpl files. rewrite Hp.
    unfold bind at 1. rewrite agent_improve_prompt_run, Hrw, Hans.
    simpl. by rewrite <- !app_assoc.
  - rewrite Hp. unfold bind at 1. unfold ret at 1.
    unfold bind at 1. rewrite agent_improve_prompt_run, Hrw, Hans.
    simpl. by rewrite <- !app_assoc.
Qed.

(** A rewrite that fails leaves the instructions as they are: when the
    rewrite collaborator raises, or answers with something that has no
    text, the rewrite returns false and no file has changed. *)
Theorem failed_rewrite_keeps_instructions g p w content ds original :
  files w !! g = Some content ->
  json.loads content = Ok (PList (map PDict ds)) ->
  omap spec.survivor ds <> [] ->
  files w !! p = Some original
  \/ (exists_in (files w) p = false /\ original = "") ->
  (exists e, rewriter original (spec.feedback_of rt ds) = Raise e)
  \/ (exists raw, rewriter original (spec.feedback_of rt ds) = Ok raw
                  /\ spec.answer_text raw = None) ->
  exists w',
    prompt_updater.improve_prompt rt rewriter g None p w = (Ok false, w')
    /\ files w' = files w
    /\ spec.count_writes (trace w') = spec.count_writes (trace w).
Proof.
  intros Hfile Hloads Hsome Hp Hrw. unfold prompt_updater.improve_prompt.
  rewrite (bind_ok _ _ _ _ _ (load_generated_file _ _ _ Hfile)).
  rewrite Hloads, update_from_dicts.
  destruct (omap spec.survivor ds) as [|s l] eqn:Hs; [done|].
  assert (Hagent : forall w1,
             prompt_updater.agent_improve_prompt rewriter original
               (spec.feedback_of rt ds) w1
             = (Raise match rewriter original (spec.feedback_of rt ds) with
                      | Raise e => e
                      | Ok _ => AttributeError
                      end,
                World (files w1)
                  (trace w1 ++ [EvRewrite original (spec.feedback_of rt ds)]))).
  { intros w1. rewrite agent_improve_prompt_run.
    destruct Hrw as [[e ->] | (raw & -> & ->)]; reflexivity. }
  unfold try_catch. unfold bind at 1. unfold path_exists at 1. simpl files.
  destruct Hp as [Hp | [Hp ->]].
  - rewrite exists_in_file by (rewrite Hp; eauto).
    unfold bind at 1. unfold read_text at 1. simpl files. rewrite Hp.
    unfold bind at 1. rewrite Hagent. eexists. split; [reflexivity|].
    simpl. split; [done|]. rewrite !count_writes_app. simpl.
    unfold spec.count_writes. rewrite !count_filter_cons. simpl. lia.
  - rewrite Hp. unfold bind at 1. unfold ret at 1.
    unfold bind at 1. rewrite Hagent. eexists. split; [reflexivity|].
    simpl. split; [done|]. rewrite !count_writes_app. simpl.
    unfold spec.count_writes. rewrite !count_filter_cons. simpl. lia.
Qed.

End improving.

(** The raw batch taken for a scored file: none of its records carries a
    human score, and the rewrite returns false. *)
Lemma no_usable_feedback_changes_nothing_witness :
  prompt_updater.improve_prompt demo.rt demo.rewriter demo.raw_path None
    "config/agent_prompt.txt" demo.w_raw
  = (Ok false, World (files demo.w_raw) (trace demo.w_raw ++ [EvRead demo.raw_path])).
Proof.
  apply (no_usable_feedback_changes_nothing demo.rt demo.rewriter
           demo.raw_path "config/agent_prompt.txt" demo.w_raw demo.raw_two
           [[("title", PStr "Flood Hits City"); ("name", PStr "Riverside");
             ("count", PInt 3)];
            [("title", PStr "Landslide Closes Road");
             ("html", PStr "<a href=x>y</a>")]]);
    vm_compute; reflexivity.
Defined.

(** The three reviewed records: the instruction file ends up holding the
    stripped answer of the rewrite collaborator, whether it was there
    before or only its folder was. *)
Lemma update_replaces_instructions_witness :
  (exists w',
     prompt_updater.improve_prompt demo.rt demo.rewriter demo.reviews_path None
       "config/agent_prompt.txt" demo.w_reviews = (Ok true, w')
     /\ files w' !! "config/agent_prompt.txt" = Some "new instructions")
  /\ (exists w',
        prompt_updater.improve_prompt demo.rt demo.rewriter demo.reviews_path
          None "config/agent_prompt.txt" demo.w_reviews_first = (Ok true, w')
        /\ files w' !! "config/agent_prompt.txt" = Some "new instructions").
Proof.
  split.
  - eexists. split.
    + apply (update_replaces_instructions demo.rt demo.rewriter
               demo.reviews_path "config/agent_prompt.txt" demo.w_reviews
               demo.reviews_text demo.reviews "old instructions"
               (PStr " new instructions ") " new instructions ").
      * vm_compute. reflexivity.
      * vm_compute. reflexivity.
      * vm_compute. discriminate.
      * left. vm_compute. reflexivity.
      * reflexivity.
      * reflexivity.
    + vm_compute. reflexivity.
  - eexists. split.
    + apply (update_replaces_instructions demo.rt demo.rewriter
               demo.reviews_path "config/agent_prompt.txt"
               demo.w_reviews_first demo.reviews_text demo.reviews ""
               (PStr " new instructions ") " new instructions ").
      * vm_compute. reflexivity.
      * vm_compute. reflexivity.
      * vm_compute. discriminate.
      * right. split; [vm_compute; reflexivity|].
        split; [reflexivity | vm_compute; reflexivity].
      * reflexivity.
      * reflexivity.
    + vm_compute. reflexivity.
Defined.

(** The three reviewed records and a rewrite collaborator that is out
    of service: the instructions stay. *)
Lemma failed_rewrite_keeps_instructions_witness :
  exists w',
    prompt_updater.improve_prompt demo.rt demo.rewriter_down demo.reviews_path
      None "config/agent_prompt.txt" demo.w_reviews = (Ok false, w')
    /\ files w' = files demo.w_reviews
    /\ spec.count_writes (trace w') = spec.count_writes (trace demo.w_reviews).
Proof.
  apply (failed_rewrite_keeps_instructions demo.rt demo.rewriter_down
           demo.reviews_path "config/agent_prompt.txt" demo.w_reviews
           demo.reviews_text demo.reviews "old instructions").
  - vm_compute. reflexivity.
  - vm_compute. reflexivity.
  - vm_compute. discriminate.
  - left. vm_compute. reflexivity.
  - left. exists TypeError. reflexivity.
Defined.

(** ** The summary stage *)

Lemma filter_worthy_spec items : forall filtered,
  summary_agent.filter_worthy items = Ok filtered ->
  Forall (fun a => summary_agent.worthy a = Ok true) filtered
  /\ sublist filtered items
  /\ (forall a, a ∈ items -> summary_agent.worthy a = Ok true -> a ∈ filtered).
Proof.
  induction items as [|a items IH]; simpl; intros filtered H.
  - injection H as <-. split; [constructor|]. split; [constructor|].
    intros a Ha. by apply elem_of_nil in Ha.
  - destruct (summary_agent.worthy a) as [keep|] eqn:Hw; [|discriminate].
    simpl in H.
    destruct (summary_agent.filter_worthy items) as [more|]; [|discriminate].
    injection H as <-.
    destruct (IH more eq_refl) as (Hall & Hsub & Hin).
    destruct keep.
    + split; [by constructor|]. split; [by apply sublist_skip|].
      intros b Hb Hwb. apply elem_of_cons in Hb as [->|Hb].
        -- apply elem_of_cons. by left.
        -- apply elem_of_cons. right. by apply Hin.
    + repeat split; [done|by apply sublist_cons|].
      intros b Hb Hwb. apply elem_of_cons in Hb as [->|Hb]; [congruence|].
      by apply Hin.
Qed.

(** What the loop of [deduplicate_articles] keeps, and the titles it has
    seen at its end. *)
Lemma dedup_loop_titles l : forall seen acc seen' out,
  summary_agent.dedup_loop l (seen, acc) = Ok (seen', out) ->
  exists kept,
    out = (acc ++ kept)%list
    /\ sublist kept l
    /\ (forall t, t ∈ seen'
                  <-> t ∈ seen
                      \/ (t <> ""
                          /\ exists a, a ∈ l
                               /\ summary_agent.normalized_title a = Ok t))
    /\ (forall t, t ∈ seen' -> t ∉ seen ->
                  exists b, b ∈ kept
                            /\ summary_agent.normalized_title b = Ok t).
Proof.
  induction l as [|a l IH]; intros seen acc seen' out H; simpl in H.
  - injection H as <- <-. exists []. rewrite app_nil_r.
    split; [done|]. split; [constructor|]. split.
    + intros t. split; [by left|]. intros [Ht|(_ & b & Hb & _)]; [done|].
      by apply elem_of_nil in Hb.
    + intros t Ht Hn. done.
  - unfold summary_agent.dedup_step in H.
    destruct (summary_agent.normalized_title a) as [ta|e] eqn:Hta;
      [|discriminate].
    simpl in H.
    destruct (negb (String.eqb ta "") && bool_decide (ta ∉ seen)) eqn:Hkeep;
      simpl in H.
    + apply andb_true_iff in Hkeep as [Hne Hnew].
      apply negb_true_iff in Hne.
      apply bool_decide_eq_true in Hnew.
      assert (Hne' : ta <> "") by (by destruct (String.eqb_spec ta "")).
      apply IH in H as (kept & -> & Hsub & Hseen & Hkept).
      exists (a :: kept). rewrite <- app_assoc.
      split; [done|]. split; [by apply sublist_skip|]. split.
      * intros t. rewrite Hseen, elem_of_union, elem_of_singleton. split.
        -- intros [[->|Ht] | (Hn & b & Hb & Htb)].
           ++ right. split; [done|]. exists a. split; [|done].
              apply elem_of_cons. by left.
           ++ by left.
           ++ right. split; [done|]. exists b. split; [|done].
              apply elem_of_cons. by right.
        -- intros [Ht | (Hn & b & Hb & Htb)]; [left; by right|].
           apply elem_of_cons in Hb as [->|Hb].
           ++ left. left. congruence.
           ++ right. split; [done|]. by exists b.
      * intros t Ht Hn.
        destruct (decide (t = ta)) as [->|Hd].
        -- exists a. split; [|done]. apply elem_of_cons. by left.
        -- destruct (Hkept t Ht) as (b & Hb & Htb).
           { rewrite elem_of_union, elem_of_singleton. by intros [?|?]. }
           exists b. split; [|done]. apply elem_of_cons. by right.
    + apply IH in H as (kept & -> & Hsub & Hseen & Hkept).
      exists kept. split; [done|]. split; [by apply sublist_cons|].
      split; [|done].
      intros t. rewrite Hseen. split.
      * intros [Ht | (Hn & b & Hb & Htb)]; [by left|].
        right. split; [done|]. exists b. split; [|done].
        apply elem_of_cons. by right.
      * intros [Ht | (Hn & b & Hb & Htb)]; [by left|].
        apply elem_of_cons in Hb as [->|Hb].
        -- left. rewrite Hta in Htb. injection Htb as ->.
           apply andb_false_iff in Hkeep as [Hk|Hk].
           ++ apply negb_false_iff in Hk.
              by destruct (String.eqb_spec t "").
           ++ apply bool_decide_eq_false in Hk.
              destruct (decide (t ∈ seen)); [done|]. by destruct Hk.
        -- right. split; [done|]. by exists b.
Qed.

(** The batch that the summary stage hands to its summarizer: every
    record in it scored 7 or more, it is a selection of the scored batch
    in its order, and it is complete up to titles, that is every scored
    record with 7 or more and a title that is not empty has a record of
    its normalised title in it. *)
Theorem summary_batch_is_worthy_and_complete items filtered unique :
  summary_agent.filter_worthy items = Ok filtered ->
  summary_agent.deduplicate_articles filtered = Ok unique ->
  Forall (fun a =>
            exists d, a = PDict d
                      /\ py_ge_int (pydict.get d "tweet_worthiness" (PInt 0)) 7
                         = Ok true) unique
  /\ sublist unique items
  /\ (forall a t,
        a ∈ items ->
        summary_agent.worthy a = Ok true ->
        summary_agent.normalized_title a = Ok t ->
        t <> "" ->
        exists b, b ∈ unique /\ summary_agent.normalized_title b = Ok t).
Proof.
  intros Hfilter Hdedup.
  apply filter_worthy_spec in Hfilter as (Hall & Hsub & Hin).
  unfold summary_agent.deduplicate_articles in Hdedup.
  destruct (summary_agent.dedup_loop filtered (∅, [])) as [[seen' out]|]
    eqn:Hloop; [|discriminate].
  simpl in Hdedup. injection Hdedup as <-.
  apply dedup_loop_titles in Hloop as (kept & -> & Hk & Hseen & Hkept).
  simpl. split; [|split].
  - apply Forall_forall. intros a Ha.
    assert (Hw : summary_agent.worthy a = Ok true).
    { rewrite Forall_forall in Hall. apply Hall.
      by eapply elem_of_sublist. }
    unfold summary_agent.worthy in Hw.
    destruct a as [| | | | | |d]; try discriminate. by exists d.
  - by etrans.
  - intros a t Ha Hw Ht Hne. apply Hkept.
    + apply Hseen. right. split; [done|]. exists a. split; [|done].
      by apply Hin.
    + apply not_elem_of_empty.
Qed.

Section summary_stage.

Variable rt : runtime.
Variable json_dumps_indent2 : pyval -> string.
Variable summarizer : string -> result pyval.

(** A run of the summary stage on a scored file that holds a batch. *)
Lemma run_summary_agent_run fin fout w content items filtered unique :
  let inp := default (summary_agent.default_input_file rt) fin in
  let out := default (summary_agent.default_output_file rt) fout in
  let text := json_dumps_indent2 (PList unique) in
  let w1 :=
    World (files w)
      (trace w ++ [EvRead inp; EvEval summary_agent.summary_template text]) in
  files w !! inp = Some content ->
  json.loads content = Ok (PList items) ->
  items <> [] ->
  summary_agent.filter_worthy items = Ok filtered ->
  summary_agent.deduplicate_articles filtered = Ok unique ->
  summary_agent.run_summary_agent rt json_dumps_indent2 summarizer fin fout w
  = match summarizer text with
    | Raise e => (Raise e, w1)
    | Ok raw_response =>
        let summary :=
          match summary_agent.parse_summary rt raw_response with
          | Ok summary_articles => summary_articles
          | Raise _ => PList unique
          end in
        if String.eqb (ospath.dirname out) ""
        then (Raise (FileNotFoundError ""), w1)
        else (Ok tt,
              World (<[out := json_dump rt summary]> (files w))
                (trace w1 ++ [EvWrite out (json_dump rt summary)]))
    end.
Proof.
  intros inp out text w1 Hfile Hloads Hne Hfilter Hdedup.
  assert (Hpe : path_exists inp w = (Ok true, w)).
  { unfold path_exists. by rewrite exists_in_file by (rewrite Hfile; eauto). }
  assert (Hld : summary_agent.load_scored_articles inp w
                = (Ok (PList items),
                   World (files w) (trace w ++ [EvRead inp]))).
  { unfold summary_agent.load_scored_articles, bind, read_text, lift.
    by rewrite Hfile, Hloads. }
  unfold summary_agent.run_summary_agent. fold inp out.
  rewrite (bind_ok _ _ _ _ _ Hpe). cbv beta.
  change (negb true) with false. cbv iota.
  rewrite (bind_ok _ _ _ _ _ Hld). cbv beta.
  destruct items as [|a items]; [done|].
  change (negb (truthy (PList (a :: items)))) with false. cbv iota.
  erewrite bind_ok by reflexivity.
  erewrite bind_ok by (unfold lift; rewrite Hfilter; reflexivity).
  erewrite bind_ok by (unfold lift; rewrite Hdedup; reflexivity).
  fold text. unfold bind at 1, summary_agent.invoke_summarizer.
  simpl files. simpl trace.
  destruct (summarizer text) as [raw|e].
  - unfold bind, makedirs, raise, ret, try_catch, write_text.
    destruct (String.eqb (ospath.dirname out) "") eqn:Hd.
    + apply String.eqb_eq in Hd. rewrite Hd. unfold w1.
      by rewrite <- app_assoc.
    + simpl. unfold w1. simpl. by rewrite <- !app_assoc.
  - unfold w1. by rewrite <- app_assoc.
Qed.

(** The summary file holds what the summarizer answered, as decoded, and
    nothing checks it: a record of the answer need not be one of the
    batch nor have scored 7. Only when the answer cannot be decoded does
    the file hold the batch that was handed to the summarizer. The
    summarizer is invoked once, and the file is written once. The output
    file is one that can be created, and the answer is plain text. *)
Theorem summary_file_holds_answer_or_fallback fin fout w content items filtered
  unique raw_response :
  let inp := default (summary_agent.default_input_file rt) fin in
  let out := default (summary_agent.default_output_file rt) fout in
  let text := json_dumps_indent2 (PList unique) in
  files w !! inp = Some content ->
  json.loads content = Ok (PList items) ->
  items <> [] ->
  summary_agent.filter_worthy items = Ok filtered ->
  summary_agent.deduplicate_articles filtered = Ok unique ->
  summarizer text = Ok raw_response ->
  spec.plain_summary rt raw_response = true ->
  ospath.dirname out <> "" ->
  spec.can_create (files w) out = true ->
  exists w',
    summary_agent.run_summary_agent rt json_dumps_indent2 summarizer fin fout w
    = (Ok tt, w')
    /\ trace w'
       = (trace w ++ [EvRead inp; EvEval summary_agent.summary_template text;
                      EvWrite out (default "" (files w' !! out))])%list
    /\ (forall v, summary_agent.parse_summary rt raw_response = Ok v ->
                  files w' = <[out := json_dump rt v]> (files w))
    /\ (forall e, summary_agent.parse_summary rt raw_response = Raise e ->
                  files w' = <[out := json_dump rt (PList unique)]> (files w)).
Proof.
  intros inp out text Hfile Hloads Hne Hfilter Hdedup Hsum _ Hdir _.
  rewrite (run_summary_agent_run fin fout w content items filtered unique
             Hfile Hloads Hne Hfilter Hdedup).
  fold inp out text. rewrite Hsum. cbv zeta.
  destruct (String.eqb_spec (ospath.dirname out) "") as [Hd|_]; [done|].
  eexists. split; [reflexivity|]. simpl. rewrite lookup_insert_eq. simpl.
  split; [by rewrite <- app_assoc|]. split.
  - by intros v ->.
  - by intros e ->.
Qed.

(** An output file named without a folder makes the summary stage raise,
    after the summarizer has been invoked: the folder of the output file
    is created outside the [try] that guards the write. Nothing is
    written. *)
Theorem summary_bare_output_raises fin name w content items filtered unique
  raw_response :
  let inp := default (summary_agent.default_input_file rt) fin in
  let text := json_dumps_indent2 (PList unique) in
  files w !! inp = Some content ->
  json.loads content = Ok (PList items) ->
  items <> [] ->
  summary_agent.filter_worthy items = Ok filtered ->
  summary_agent.deduplicate_articles filtered = Ok unique ->
  summarizer text = Ok raw_response ->
  ospath.dirname name = "" ->
  summary_agent.run_summary_agent rt json_dumps_indent2 summarizer fin
    (Some name) w
  = (Raise (FileNotFoundError ""),
     World (files w)
       (trace w ++ [EvRead inp; EvEval summary_agent.summary_template text])).
Proof.
  intros inp text Hfile Hloads Hne Hfilter Hdedup Hsum Hdir.
  rewrite (run_summary_agent_run fin (Some name) w content items filtered
             unique Hfile Hloads Hne Hfilter Hdedup).
  fold inp text. rewrite Hsum. cbv zeta. simpl default. by rewrite Hdir.
Qed.

(** Without a scored file, or with one that holds an empty batch, the
    summary stage returns without invoking the summarizer and without
    writing. *)
Theorem summary_without_batch_does_nothing fin fout w :
  let inp := default (summary_agent.default_input_file rt) fin in
  (exists_in (files w) inp = false ->
   summary_agent.run_summary_agent rt json_dumps_indent2 summarizer fin fout w
   = (Ok tt, w))
  /\ (forall content v,
        files w !! inp = Some content ->
        json.loads content = Ok v ->
        truthy v = false ->
        summary_agent.run_summary_agent rt json_dumps_indent2 summarizer fin
          fout w
        = (Ok tt, World (files w) (trace w ++ [EvRead inp]))).
Proof.
  intros inp. unfold summary_agent.run_summary_agent. fold inp. split.
  - intros Hex. unfold bind, path_exists. by rewrite Hex.
  - intros content v Hfile Hloads Hv.
    assert (Hpe : path_exists inp w = (Ok true, w)).
    { unfold path_exists.
      by rewrite exists_in_file by (rewrite Hfile; eauto). }
    assert (Hld : summary_agent.load_scored_articles inp w
                  = (Ok v, World (files w) (trace w ++ [EvRead inp]))).
    { unfold summary_agent.load_scored_articles, bind, read_text, lift.
      by rewrite Hfile, Hloads. }
    rewrite (bind_ok _ _ _ _ _ Hpe). cbv beta.
  change (negb true) with false. cbv iota.
    rewrite (bind_ok _ _ _ _ _ Hld). cbv beta. by rewrite Hv.
Qed.

End summary_stage.

(** The scored batch of three: one record reaches the summarizer. *)
Lemma summary_batch_is_worthy_and_complete_witness :
  sublist [demo.scored_flood] demo.scored_items
  /\ exists b, b ∈ [demo.scored_flood]
               /\ summary_agent.normalized_title b = Ok "flood hits city".
Proof.
  destruct (summary_batch_is_worthy_and_complete demo.scored_items
              [demo.scored_flood; demo.scored_flood_again] [demo.scored_flood])
    as (_ & Hsub & Hcomplete).
  - vm_compute. reflexivity.
  - vm_compute. reflexivity.
  - split; [exact Hsub|].
    apply (Hcomplete demo.scored_flood_again "flood hits city").
    + apply elem_of_cons. right. apply elem_of_cons. by left.
    + vm_compute. reflexivity.
    + vm_compute. reflexivity.
    + discriminate.
Defined.

(** The summarizer answers with the record that scored 3: this is what
    the summary file holds. *)
Lemma summary_file_holds_answer_or_fallback_witness :
  exists w',
    summary_agent.run_summary_agent demo.rt demo.dump demo.summarizer_off_topic
      None None demo.w_scored_three = (Ok tt, w')
    /\ files w' !! demo.summary_path
       = Some (demo.dump (PList [demo.scored_quiet])).
Proof.
  destruct (summary_file_holds_answer_or_fallback demo.rt demo.dump
              demo.summarizer_off_topic None None demo.w_scored_three
              (demo.dump (PList demo.scored_items)) demo.scored_items
              [demo.scored_flood; demo.scored_flood_again] [demo.scored_flood]
              (PDict [("articles", PStr (demo.dump (PList [demo.scored_flood])));
                      ("text", PStr (demo.dump (PList [demo.scored_quiet])))]))
    as (w' & Hrun & _ & Hok & _).
  - vm_compute. reflexivity.
  - vm_compute. reflexivity.
  - discriminate.
  - vm_compute. reflexivity.
  - vm_compute. reflexivity.
  - reflexivity.
  - vm_compute. reflexivity.
  - vm_compute. discriminate.
  - vm_compute. reflexivity.
  - exists w'. split; [exact Hrun|].
    rewrite (Hok (PList [demo.scored_quiet])) by (vm_compute; reflexivity).
    apply lookup_insert_eq.
Defined.

(** The same batch summarised into a file named without a folder: the
    stage raises and writes nothing. *)
Lemma summary_bare_output_raises_witness :
  exists w',
    summary_agent.run_summary_agent demo.rt demo.dump demo.summarizer_off_topic
      None (Some "summary.json") demo.w_scored_three
    = (Raise (FileNotFoundError ""), w')
    /\ files w' = files demo.w_scored_three.
Proof.
  eexists. split.
  - apply (summary_bare_output_raises demo.rt demo.dump
             demo.summarizer_off_topic None "summary.json" demo.w_scored_three
             (demo.dump (PList demo.scored_items)) demo.scored_items
             [demo.scored_flood; demo.scored_flood_again] [demo.scored_flood]
             (PDict [("articles", PStr (demo.dump (PList [demo.scored_flood])));
                     ("text", PStr (demo.dump (PList [demo.scored_quiet])))])).
    + vm_compute. reflexivity.
    + vm_compute. reflexivity.
    + discriminate.
    + vm_compute. reflexivity.
    + vm_compute. reflexivity.
    + reflexivity.
    + vm_compute. reflexivity.
  - reflexivity.
Defined.

(** ** The review gate *)

Section review_gate.

Variable rt : runtime.
Variable DATA_PATH : string.

Lemma app_load_articles_file w content :
  files w !! DATA_PATH = Some content ->
  app.load_articles DATA_PATH w
  = (json.loads content, World (files w) (trace w ++ [EvRead DATA_PATH])).
Proof.
  intros Hfile. unfold app.load_articles, bind, read_text, lift.
  rewrite Hfile. by destruct (json.loads content).
Qed.

Lemma writes_nothing_app_load_articles :
  spec.writes_nothing (app.load_articles DATA_PATH).
Proof. unfold app.load_articles. quiet. Qed.

(** What a request to the article route does to the files, whatever
    its outcome: nothing, or one write, of the scored file, as its last
    event, and then it redirects. A write only comes from a POST. *)
Lemma article_effects article_index req w r w' :
  app.article rt DATA_PATH article_index req w = (r, w') ->
  exists t,
    spec.count_writes t = 0
    /\ ((files w' = files w /\ trace w' = (trace w ++ t)%list)
        \/ (app.method req = app.POST
            /\ r = Ok (app.Redirect (app.url_for_article (article_index + 1)))
            /\ exists c,
                files w' = <[DATA_PATH := c]> (files w)
                /\ trace w' = (trace w ++ t ++ [EvWrite DATA_PATH c])%list)).
Proof.
  unfold app.article. intros H.
  apply bind_inv in H as [(e & H & ->) | (articles & w1 & Hload & H)].
  { apply writes_nothing_app_load_articles in H as (Hf & t & Ht & Hc).
    exists t. split; [done|]. by left. }
  apply writes_nothing_app_load_articles in Hload as (Hf1 & t1 & Ht1 & Hc1).
  assert (Hquiet : forall (r0 : result app.response),
             (r0, w1) = (r, w') ->
             exists t, spec.count_writes t = 0
                       /\ (files w' = files w /\ trace w' = (trace w ++ t)%list
                           \/ app.method req = app.POST
                              /\ r = Ok (app.Redirect
                                           (app.url_for_article
                                              (article_index + 1)))
                              /\ exists c,
                                  files w' = <[DATA_PATH := c]> (files w)
                                  /\ trace w'
                                     = (trace w ++ t
                                        ++ [EvWrite DATA_PATH c])%list)).
  { intros r0 [= _ <-]. exists t1. split; [done|]. by left. }
  apply bind_inv in H as [(e & H & ->) | (total & w2 & Hlen & H)].
  { injection H as _ <-. by eapply Hquiet. }
  injection Hlen as _ <-.
  destruct (total <=? article_index)%nat.
  { by eapply Hquiet. }
  apply bind_inv in H as [(e & H & ->) | (article_data & w2 & Hitem & H)].
  { injection H as _ <-. by eapply Hquiet. }
  injection Hitem as _ <-.
  destruct (app.method req) eqn:Hm; try by eapply Hquiet.
  apply bind_inv in H as [(e & H & ->) | (verdict & w2 & Hv & H)].
  { injection H as _ <-. by eapply Hquiet. }
  injection Hv as _ <-.
  apply bind_inv in H as [(e & H & ->) | (a1 & w2 & Ha1 & H)].
  { injection H as _ <-. by eapply Hquiet. }
  injection Ha1 as _ <-.
  apply bind_inv in H as [(e & H & ->) | (a2 & w2 & Ha2 & H)].
  { injection H as _ <-. by eapply Hquiet. }
  injection Ha2 as _ <-.
  apply bind_inv in H as [(e & H & ->) | (articles' & w2 & Hset & H)].
  { injection H as _ <-. by eapply Hquiet. }
  injection Hset as _ <-.
  unfold bind, app.save_articles, write_text, ret in H.
  injection H as <- <-. exists t1. split; [done|]. right.
  split; [done|]. split; [done|].
  exists (json_dump rt articles'). simpl. split; [congruence|].
  by rewrite Ht1, <- app_assoc.
Qed.

(** Looking at a record changes nothing: a request that is not a POST
    writes no file, whatever the scored file holds. *)
Theorem viewing_a_record_writes_nothing article_index req :
  app.method req <> app.POST ->
  spec.writes_nothing (app.article rt DATA_PATH article_index req).
Proof.
  intros Hm w r w' H.
  apply article_effects in H as (t & Hc & [[Hf Ht] | (Hp & _)]); [|done].
  split; [done|]. by exists t.
Qed.

(** A review that raises has saved nothing: the scored file and every
    other file are as they were. The scored file holds plain text, so
    that what is loaded from it can be written back. *)
Theorem failed_review_saves_nothing article_index req w e w' :
  spec.plain_file (files w) DATA_PATH = true ->
  app.article rt DATA_PATH article_index req w = (Raise e, w') ->
  files w' = files w
  /\ spec.count_writes (trace w') = spec.count_writes (trace w).
Proof.
  intros _ H.
  apply article_effects in H as (t & Hc & [[Hf Ht] | (_ & [=] & _)]).
  split; [done|]. rewrite Ht, count_writes_app. lia.
Qed.

(** A request for a record past the end of the batch is answered with
    the completion page, whatever its method and its form: a verdict
    submitted there is dropped. *)
Theorem review_past_the_end_completes article_index req w content l :
  files w !! DATA_PATH = Some content ->
  json.loads content = Ok (PList l) ->
  length l <= article_index ->
  app.article rt DATA_PATH article_index req w
  = (Ok (app.Redirect "/completed"),
     World (files w) (trace w ++ [EvRead DATA_PATH])).
Proof.
  intros Hfile Hloads Hlen. unfold app.article.
  pose proof (app_load_articles_file _ _ Hfile) as Hload.
  rewrite Hloads in Hload.
  rewrite (bind_ok _ _ _ _ _ Hload). cbv beta.
  erewrite bind_ok by reflexivity. cbv beta.
  destruct (Nat.leb_spec (length l) article_index) as [_|Hlt]; [done|lia].
Qed.

(** A POST on a record of the batch that is a JSON object, with the
    verdict the form gives for it. *)
Lemma article_post_run article_index req w content l d verdict :
  files w !! DATA_PATH = Some content ->
  json.loads content = Ok (PList l) ->
  l !! article_index = Some (PDict d) ->
  app.method req = app.POST ->
  app.submitted (PDict d) (app.form req) = Ok verdict ->
  let saved :=
    json_dump rt
      (PList (<[article_index := PDict (spec.reviewed_as d verdict.1 verdict.2)]> l)) in
  app.article rt DATA_PATH article_index req w
  = (Ok (app.Redirect (app.url_for_article (article_index + 1))),
     World (<[DATA_PATH := saved]> (files w))
       (trace w ++ [EvRead DATA_PATH; EvWrite DATA_PATH saved])).
Proof.
  intros Hfile Hloads Hitem Hm Hv saved. unfold app.article.
  pose proof (app_load_articles_file _ _ Hfile) as Hload.
  rewrite Hloads in Hload.
  rewrite (bind_ok _ _ _ _ _ Hload). cbv beta.
  erewrite bind_ok by reflexivity. cbv beta.
  assert (Hlt : article_index < length l) by (by eapply lookup_lt_Some).
  destruct (Nat.leb_spec (length l) article_index) as [Hle|_]; [lia|].
  erewrite bind_ok by (unfold lift, app.item_at; rewrite Hitem; reflexivity).
  cbv beta. rewrite Hm.
  erewrite bind_ok by (unfold lift; rewrite Hv; reflexivity). cbv beta.
  erewrite bind_ok by reflexivity. cbv beta.
  erewrite bind_ok by reflexivity. cbv beta.
  erewrite bind_ok by reflexivity. cbv beta.
  unfold bind, app.save_articles, write_text, ret. simpl.
  unfold saved, spec.reviewed_as. by rewrite <- app_assoc.
Qed.

Lemma reviewed_as_fields d s r :
  pydict.lookup (spec.reviewed_as d s r) "user_score" = Some s
  /\ pydict.lookup (spec.reviewed_as d s r) "user_reasoning" = Some r
  /\ (forall k, k <> "user_score" -> k <> "user_reasoning" ->
        pydict.lookup (spec.reviewed_as d s r) k = pydict.lookup d k).
Proof.
  unfold spec.reviewed_as. split; [|split].
  - rewrite lookup_set_ne by discriminate. apply lookup_set_eq.
  - apply lookup_set_eq.
  - intros k H1 H2. rewrite !lookup_set_ne; solve [done | congruence].
Qed.

(** Agreeing with the evaluator copies its verdict: the record is saved
    with the evaluator's score as the human score and the evaluator's
    summary as the human reasoning (null where the record has none); its
    other fields, the other records and the length of the batch are
    unchanged, and the reviewer is sent on to the next record. *)
Theorem agreeing_copies_the_verdict article_index fields w content l d :
  files w !! DATA_PATH = Some content ->
  json.loads content = Ok (PList l) ->
  l !! article_index = Some (PDict d) ->
  app.form_get fields "action" = Some "agree" ->
  let d' := spec.reviewed_as d (pydict.get d "tweet_worthiness" PNone)
              (pydict.get d "summary" PNone) in
  let l' := <[article_index := PDict d']> l in
  app.article rt DATA_PATH article_index (app.Request app.POST fields) w
  = (Ok (app.Redirect (app.url_for_article (article_index + 1))),
     World (<[DATA_PATH := json_dump rt (PList l')]> (files w))
       (trace w ++ [EvRead DATA_PATH;
                    EvWrite DATA_PATH (json_dump rt (PList l'))]))
  /\ length l' = length l
  /\ (forall j, j <> article_index -> l' !! j = l !! j)
  /\ (forall k, k <> "user_score" -> k <> "user_reasoning" ->
        pydict.lookup d' k = pydict.lookup d k).
Proof.
  intros Hfile Hloads Hitem Hagree d' l'. split; [|split; [|split]].
  - apply (article_post_run article_index (app.Request app.POST fields) w
             content l d
             (pydict.get d "tweet_worthiness" PNone,
              pydict.get d "summary" PNone) Hfile Hloads Hitem eq_refl).
    unfold app.submitted. simpl app.form. rewrite Hagree.
    by rewrite bool_decide_true.
  - apply length_insert.
  - intros j Hj. by apply list_lookup_insert_ne.
  - apply reviewed_as_fields.
Qed.

(** A score typed in by hand is stored as the integer it reads as, and
    nothing checks its range: 42 or a negative number is saved as it is,
    with the reasoning of the form (null when the form has none). *)
Theorem manual_score_is_stored_unchecked article_index fields w content l d
  text z :
  files w !! DATA_PATH = Some content ->
  json.loads content = Ok (PList l) ->
  l !! article_index = Some (PDict d) ->
  app.form_get fields "action" <> Some "agree" ->
  app.form_get fields "user_score" = Some text ->
  pyint.of_str text = Ok z ->
  let d' := spec.reviewed_as d (PInt z)
              (app.of_option (app.form_get fields "user_reasoning")) in
  let saved := json_dump rt (PList (<[article_index := PDict d']> l)) in
  app.article rt DATA_PATH article_index (app.Request app.POST fields) w
  = (Ok (app.Redirect (app.url_for_article (article_index + 1))),
     World (<[DATA_PATH := saved]> (files w))
       (trace w ++ [EvRead DATA_PATH; EvWrite DATA_PATH saved]))
  /\ pydict.lookup d' "user_score" = Some (PInt z).
Proof.
  intros Hfile Hloads Hitem Hagree Hscore Hint d' saved. split.
  - apply (article_post_run article_index (app.Request app.POST fields) w
             content l d
             (PInt z, app.of_option (app.form_get fields "user_reasoning"))
             Hfile Hloads Hitem eq_refl).
    unfold app.submitted. simpl app.form.
    rewrite bool_decide_false by done.
    unfold app.py_int. by rewrite Hscore, Hint.
  - apply reviewed_as_fields.
Qed.

(** What the review gate saves is what the feedback aggregator takes:
    a record saved by the gate counts as reviewed, and its score enters
    the mean exactly when [float] accepts the stored score. A record
    agreed upon without an evaluator score is stored with a null score,
    and the aggregator passes over it. *)
Theorem saved_review_feeds_the_aggregator d fields verdict acc :
  app.submitted (PDict d) fields = Ok verdict ->
  let d' := spec.reviewed_as d verdict.1 verdict.2 in
  spec.reviewed d' = true
  /\ prompt_updater.feedback_step rt acc (PDict d')
     = Ok match py_float verdict.1 with
          | Ok f =>
              ((acc.1 ++ [f])%list,
               (acc.2 ++ ["Score: " +:+ pyfloat.format_fixed 1 f +:+ " - "
                          +:+ py_str rt verdict.2])%list)
          | Raise _ => acc
          end
  /\ (app.form_get fields "action" = Some "agree" ->
      pydict.lookup d "tweet_worthiness" = None ->
      prompt_updater.feedback_step rt acc (PDict d') = Ok acc).
Proof.
  intros Hv d'.
  destruct (reviewed_as_fields d verdict.1 verdict.2) as (Hs & Hr & _).
  fold d' in Hs, Hr.
  assert (Hrev : spec.reviewed d' = true).
  { unfold spec.reviewed, pydict.contains. by rewrite Hs, Hr. }
  assert (Hstep : prompt_updater.feedback_step rt acc (PDict d')
                  = Ok match py_float verdict.1 with
                       | Ok f =>
                           ((acc.1 ++ [f])%list,
                            (acc.2 ++ ["Score: " +:+ pyfloat.format_fixed 1 f
                                       +:+ " - " +:+ py_str rt verdict.2])%list)
                       | Raise _ => acc
                       end).
  { rewrite feedback_step_dict. unfold spec.usable_score.
    rewrite Hrev, Hs. destruct (py_float verdict.1); [|done].
    unfold spec.feedback_line, pydict.get. by rewrite Hr. }
  split; [done|]. split; [done|].
  intros Hagree Hnone. rewrite Hstep.
  unfold app.submitted in Hv. rewrite Hagree in Hv.
  rewrite bool_decide_true in Hv by done. simpl in Hv.
  injection Hv as <-. simpl. unfold pydict.get. by rewrite Hnone.
Qed.

End review_gate.

(** Looking at the first record of the scored batch. *)
Lemma viewing_a_record_writes_nothing_witness :
  spec.writes_nothing
    (app.article demo.rt demo.scored_path 0 demo.get_request).
Proof.
  apply (viewing_a_record_writes_nothing demo.rt demo.scored_path 0
           demo.get_request).
  discriminate.
Defined.

(** A score that is no number: the request raises and the scored file
    is as it was. *)
Lemma failed_review_saves_nothing_witness :
  let w' :=
    (app.article demo.rt demo.scored_path 0 demo.bad_request
       demo.w_scored_three).2 in
  files w' = files demo.w_scored_three
  /\ spec.count_writes (trace w') = spec.count_writes (trace demo.w_scored_three).
Proof.
  intros w'.
  apply (failed_review_saves_nothing demo.rt demo.scored_path 0
           demo.bad_request demo.w_scored_three ValueError w').
  - vm_compute. reflexivity.
  - vm_compute. reflexivity.
Defined.

(** A verdict for a fourth record of a batch of three. *)
Lemma review_past_the_end_completes_witness :
  app.article demo.rt demo.scored_path 3 demo.agree_request
    demo.w_scored_three
  = (Ok (app.Redirect "/completed"),
     World (files demo.w_scored_three)
       (trace demo.w_scored_three ++ [EvRead demo.scored_path])).
Proof.
  apply (review_past_the_end_completes demo.rt demo.scored_path 3
           demo.agree_request demo.w_scored_three
           (demo.dump (PList demo.scored_items)) demo.scored_items).
  - vm_compute. reflexivity.
  - vm_compute. reflexivity.
  - simpl. lia.
Defined.

(** Agreeing with the second record of the scored batch. *)
Lemma agreeing_copies_the_verdict_witness :
  exists w',
    app.article demo.rt demo.scored_path 1 demo.agree_request
      demo.w_scored_three
    = (Ok (app.Redirect (app.url_for_article 2)), w')
    /\ files w' !! demo.scored_path
       = Some (demo.dump
                 (PList [demo.scored_flood;
                         PDict [("title", PStr " flood hits city");
                                ("tweet_worthiness", PInt 8);
                                ("summary", PStr "b");
                                ("user_score", PInt 8);
                                ("user_reasoning", PStr "b")];
                         demo.scored_quiet])).
Proof.
  assert (Hfile : files demo.w_scored_three !! demo.scored_path
                  = Some (demo.dump (PList demo.scored_items)))
    by (vm_compute; reflexivity).
  assert (Hloads : json.loads (demo.dump (PList demo.scored_items))
                   = Ok (PList demo.scored_items))
    by (vm_compute; reflexivity).
  destruct (agreeing_copies_the_verdict demo.rt demo.scored_path 1
              [("action", "agree")] demo.w_scored_three
              (demo.dump (PList demo.scored_items)) demo.scored_items
              [("title", PStr " flood hits city");
               ("tweet_worthiness", PInt 8); ("summary", PStr "b")]
              Hfile Hloads eq_refl eq_refl) as [Hrun _].
  eexists. split; [exact Hrun|]. apply lookup_insert_eq.
Defined.

(** The score 42, typed in by hand with blanks around it, is saved. *)
Lemma manual_score_is_stored_unchecked_witness :
  exists w',
    app.article demo.rt demo.scored_path 0 demo.manual_request
      demo.w_scored_three
    = (Ok (app.Redirect (app.url_for_article 1)), w')
    /\ files w' !! demo.scored_path
       = Some (demo.dump
                 (PList [PDict [("title", PStr "Flood Hits City");
                                ("tweet_worthiness", PInt 9);
                                ("summary", PStr "a");
                                ("user_score", PInt 42);
                                ("user_reasoning", PStr "too loud")];
                         demo.scored_flood_again; demo.scored_quiet])).
Proof.
  assert (Hfile : files demo.w_scored_three !! demo.scored_path
                  = Some (demo.dump (PList demo.scored_items)))
    by (vm_compute; reflexivity).
  assert (Hloads : json.loads (demo.dump (PList demo.scored_items))
                   = Ok (PList demo.scored_items))
    by (vm_compute; reflexivity).
  assert (Hint : pyint.of_str " 42 " = Ok 42%Z) by (vm_compute; reflexivity).
  assert (Hno : app.form_get (app.form demo.manual_request) "action"
                <> Some "agree") by discriminate.
  destruct (manual_score_is_stored_unchecked demo.rt demo.scored_path 0
              (app.form demo.manual_request) demo.w_scored_three
              (demo.dump (PList demo.scored_items)) demo.scored_items
              [("title", PStr "Flood Hits City");
               ("tweet_worthiness", PInt 9); ("summary", PStr "a")]
              " 42 " 42%Z Hfile Hloads eq_refl Hno eq_refl Hint) as [Hrun _].
  eexists. split; [exact Hrun|]. apply lookup_insert_eq.
Defined.

(** A record without an evaluator score, agreed upon: the aggregator
    passes over it. *)
Lemma saved_review_feeds_the_aggregator_witness :
  prompt_updater.feedback_step demo.rt ([], [])
    (PDict (spec.reviewed_as [("title", PStr "t")] PNone PNone))
  = Ok ([], []).
Proof.
  exact (proj2 (proj2 (saved_review_feeds_the_aggregator demo.rt
                         [("title", PStr "t")] [("action", "agree")]
                         (PNone, PNone) ([], []) eq_refl))
           eq_refl eq_refl).
Defined.

(** ** Which scored file the review gate works on *)

Lemma ascii_compare_refl a : Ascii.compare a a = Eq.
Proof. unfold Ascii.compare. apply N.compare_refl. Qed.

Lemma string_compare_refl s : String.compare s s = Eq.
Proof.
  induction s as [|a s IH]; simpl; [done|]. by rewrite ascii_compare_refl.
Qed.

Lemma string_compare_lt_trans s1 : forall s2 s3,
  String.compare s1 s2 = Lt -> String.compare s2 s3 = Lt ->
  String.compare s1 s3 = Lt.
Proof.
  induction s1 as [|a s1 IH]; intros [|b s2] [|c s3]; simpl; try done.
  unfold Ascii.compare.
  destruct (N.compare_spec (N_of_ascii a) (N_of_ascii b)) as [Hab|Hab|Hab];
    destruct (N.compare_spec (N_of_ascii b) (N_of_ascii c)) as [Hbc|Hbc|Hbc];
    try done; intros H1 H2.
  - rewrite Hab, Hbc, N.compare_refl. by eapply IH.
  - rewrite Hab. by apply N.compare_lt_iff in Hbc as ->.
  - rewrite <- Hbc. by apply N.compare_lt_iff in Hab as ->.
  - assert (Hac : (N_of_ascii a < N_of_ascii c)%N) by lia.
    by apply N.compare_lt_iff in Hac as ->.
Qed.

Lemma string_leb_refl s : String.leb s s = true.
Proof. unfold String.leb. by rewrite string_compare_refl. Qed.

Lemma string_leb_trans s1 s2 s3 :
  String.leb s1 s2 = true -> String.leb s2 s3 = true ->
  String.leb s1 s3 = true.
Proof.
  unfold String.leb.
  destruct (String.compare s1 s2) eqn:H12; [|  |done].
  - apply String.compare_eq_iff in H12 as ->. done.
  - destruct (String.compare s2 s3) eqn:H23; [| |done].
    + apply String.compare_eq_iff in H23 as <-. by rewrite H12.
    + by rewrite (string_compare_lt_trans _ _ _ H12 H23).
Qed.

Lemma string_compare_app_l p a b :
  String.compare (p +:+ a) (p +:+ b) = String.compare a b.
Proof.
  induction p as [|c p IH]; simpl; [done|]. by rewrite ascii_compare_refl.
Qed.

Lemma string_compare_app_r s a : forall b,
  String.length a = String.length b ->
  String.compare (a +:+ s) (b +:+ s) = String.compare a b.
Proof.
  induction a as [|x a IH]; intros [|y b]; simpl; try done.
  - intros _. apply string_compare_refl.
  - intros [= Hlen]. by rewrite IH.
Qed.

Lemma elem_of_insert_sorted x y l :
  x ∈ app.insert_sorted y l <-> x = y \/ x ∈ l.
Proof.
  induction l as [|z l IH]; simpl.
  - rewrite list_elem_of_singleton. split; [by left|].
    intros [?|H]; [done|]. by apply elem_of_nil in H.
  - destruct (String.leb y z).
    + apply elem_of_cons.
    + rewrite !elem_of_cons, IH. tauto.
Qed.

Lemma elem_of_sort x l : x ∈ app.sort l <-> x ∈ l.
Proof.
  induction l as [|y l IH]; simpl; [done|].
  by rewrite elem_of_insert_sorted, elem_of_cons, IH.
Qed.

Lemma insert_sorted_sorted x l :
  StronglySorted (fun a b => String.leb a b = true) l ->
  StronglySorted (fun a b => String.leb a b = true) (app.insert_sorted x l).
Proof.
  induction 1 as [|z l Hs IH Hall]; simpl.
  - repeat constructor.
  - destruct (String.leb x z) eqn:Hxz.
    + constructor; [by constructor|]. constructor; [done|].
      eapply Forall_impl; [exact Hall|].
      intros q Hq. by eapply string_leb_trans.
    + constructor; [done|]. apply Forall_forall. intros q Hq.
      apply elem_of_insert_sorted in Hq as [->|Hq].
      * destruct (String.leb_total x z) as [H|H]; [congruence|done].
      * rewrite Forall_forall in Hall. by apply Hall.
Qed.

Lemma sort_sorted l :
  StronglySorted (fun a b => String.leb a b = true) (app.sort l).
Proof.
  induction l as [|x l IH]; simpl; [constructor|].
  by apply insert_sorted_sorted.
Qed.

Lemma last_cons {A} (more : list A) : forall f g,
  List.last (g :: more) f = List.last more g.
Proof.
  induction more as [|h more IH]; intros f g; [done|].
  change (List.last (g :: h :: more) f) with (List.last (h :: more) f).
  by rewrite (IH f h), (IH g h).
Qed.

Lemma last_is_greatest more : forall f,
  StronglySorted (fun a b => String.leb a b = true) (f :: more) ->
  List.last more f ∈ f :: more
  /\ forall q, q ∈ f :: more -> String.leb q (List.last more f) = true.
Proof.
  induction more as [|g more IH]; intros f Hs.
  - simpl. split; [apply elem_of_cons; by left|].
    intros q Hq. apply list_elem_of_singleton in Hq as ->.
    apply string_leb_refl.
  - apply StronglySorted_inv in Hs as [Hs Hall].
    destruct (IH g Hs) as [Hin Hmax].
    rewrite last_cons.
    split; [apply elem_of_cons; by right|].
    intros q Hq. apply elem_of_cons in Hq as [->|Hq]; [|by apply Hmax].
    apply Forall_cons in Hall as [Hfg _].
    eapply string_leb_trans; [exact Hfg|]. apply Hmax.
    apply elem_of_cons. by left.
Qed.

Lemma digit_compare a b :
  Ascii.compare (spec.digit a) (spec.digit b)
  = Nat.compare (a mod 10) (b mod 10).
Proof.
  unfold spec.digit.
  assert (Hlt : forall x y, x < 10 -> y < 10 ->
            Ascii.compare (ascii_of_nat (48 + x)) (ascii_of_nat (48 + y))
            = Nat.compare x y).
  { intros x y Hx Hy.
    do 10 (destruct x as [|x];
           [do 10 (destruct y as [|y]; [reflexivity|]); exfalso; lia|]).
    exfalso. lia. }
  apply Hlt; apply Nat.mod_upper_bound; discriminate.
Qed.

Lemma mod_100_digits n : n mod 100 = n mod 10 + 10 * ((n / 10) mod 10).
Proof. exact (Nat.Div0.mod_mul_r n 10 10). Qed.

(** Two digits are ordered as the numbers they write. *)
Lemma two_digits_compare n1 n2 s t :
  String.compare (spec.two_digits n1 +:+ s) (spec.two_digits n2 +:+ t)
  = match Nat.compare (n1 mod 100) (n2 mod 100) with
    | Eq => String.compare s t
    | c => c
    end.
Proof.
  unfold spec.two_digits.
  change (String.compare
            (String (spec.digit (n1 / 10)) (String (spec.digit n1) s))
            (String (spec.digit (n2 / 10)) (String (spec.digit n2) t))
          = match Nat.compare (n1 mod 100) (n2 mod 100) with
            | Eq => String.compare s t
            | c => c
            end).
  cbn [String.compare]. rewrite !digit_compare, !mod_100_digits.
  pose proof (Nat.mod_upper_bound n1 10 ltac:(discriminate)) as H1.
  pose proof (Nat.mod_upper_bound n2 10 ltac:(discriminate)) as H2.
  generalize dependent (n1 mod 10). generalize dependent (n2 mod 10).
  generalize ((n1 / 10) mod 10). generalize ((n2 / 10) mod 10).
  intros a2 a1 b2 Hb2 b1 Hb1.
  destruct (Nat.compare_spec a1 a2);
    destruct (Nat.compare_spec b1 b2);
    destruct (Nat.compare_spec (b1 + 10 * a1) (b2 + 10 * a2));
    try reflexivity; exfalso; lia.
Qed.

Lemma dash_compare s t :
  String.compare ("-" +:+ s) ("-" +:+ t) = String.compare s t.
Proof. apply (string_compare_app_l "-"). Qed.

(** Zero-padded dates are ordered as the days they name. *)
Lemma iso_date_order y1 m1 d1 y2 m2 d2 s :
  y1 < 100 * 100 -> m1 < 100 -> d1 < 100 ->
  y2 < 100 * 100 -> m2 < 100 -> d2 < 100 ->
  String.leb (spec.iso_date y1 m1 d1 +:+ s) (spec.iso_date y2 m2 d2 +:+ s)
  = true ->
  spec.date_le y1 m1 d1 y2 m2 d2.
Proof.
  intros Hy1 Hm1 Hd1 Hy2 Hm2 Hd2. unfold String.leb, spec.date_le.
  change (spec.iso_date y1 m1 d1 +:+ s)
    with (spec.two_digits (y1 / 100)
          +:+ (spec.two_digits y1
               +:+ ("-" +:+ (spec.two_digits m1
                             +:+ ("-" +:+ (spec.two_digits d1 +:+ s)))))).
  change (spec.iso_date y2 m2 d2 +:+ s)
    with (spec.two_digits (y2 / 100)
          +:+ (spec.two_digits y2
               +:+ ("-" +:+ (spec.two_digits m2
                             +:+ ("-" +:+ (spec.two_digits d2 +:+ s)))))).
  repeat (rewrite two_digits_compare || rewrite dash_compare).
  rewrite string_compare_refl.
  rewrite (Nat.mod_small (y1 / 100) 100)
    by (apply Nat.Div0.div_lt_upper_bound; lia).
  rewrite (Nat.mod_small (y2 / 100) 100)
    by (apply Nat.Div0.div_lt_upper_bound; lia).
  rewrite (Nat.mod_small m1 100), (Nat.mod_small m2 100),
    (Nat.mod_small d1 100), (Nat.mod_small d2 100) by done.
  pose proof (Nat.div_mod_eq y1 100) as E1.
  pose proof (Nat.div_mod_eq y2 100) as E2.
  pose proof (Nat.mod_upper_bound y1 100 ltac:(discriminate)) as L1.
  pose proof (Nat.mod_upper_bound y2 100 ltac:(discriminate)) as L2.
  generalize dependent (y1 mod 100). generalize dependent (y2 mod 100).
  generalize dependent (y1 / 100). generalize dependent (y2 / 100).
  intros c2 c1 r2 E2 L2 r1 E1 L1.
  destruct (Nat.compare_spec c1 c2);
    destruct (Nat.compare_spec r1 r2);
    destruct (Nat.compare_spec m1 m2);
    destruct (Nat.compare_spec d1 d2);
    try discriminate; intros _; lia.
Qed.

(** The scored file that the review gate picks when it is loaded is the
    greatest, in the order of the code points, of the entries of the
    scored folder that match the pattern, and the file without a date when
    none matches. For files named after dates written with zero padding,
    four digits for the year and two for the month and for the day, this
    is the file of the latest date: no such file in the folder is of a
    later day. *)
Theorem latest_file_is_the_greatest w :
  let found := app.glob_scored (files w) in
  exists p,
    app.get_latest_file w = (Ok p, w)
    /\ (found = [] -> p = "data/generated_scored_articles.json")
    /\ (found <> [] ->
        p ∈ found /\ forall q, q ∈ found -> String.leb q p = true)
    /\ (forall d1 d2,
          String.length d1 = String.length d2 ->
          spec.scored_file d1 ∈ found ->
          p = spec.scored_file d2 ->
          String.leb d1 d2 = true)
    /\ (forall y1 m1 d1 y2 m2 d2,
          y1 < 100 * 100 -> m1 < 100 -> d1 < 100 ->
          y2 < 100 * 100 -> m2 < 100 -> d2 < 100 ->
          spec.scored_file (spec.iso_date y1 m1 d1) ∈ found ->
          p = spec.scored_file (spec.iso_date y2 m2 d2) ->
          spec.date_le y1 m1 d1 y2 m2 d2).
Proof.
  intros found. unfold app.get_latest_file. fold found.
  pose proof (sort_sorted found) as Hsorted.
  assert (Hmem : forall q, q ∈ app.sort found <-> q ∈ found)
    by (intros q; apply elem_of_sort).
  destruct (app.sort found) as [|f more] eqn:Hsort.
  - assert (Hnil : found = []).
    { destruct found as [|q found']; [done|].
      assert (Hq : q ∈ @nil string) by (apply Hmem, elem_of_cons; by left).
      by apply elem_of_nil in Hq. }
    eexists. split; [reflexivity|]. split; [done|]. split; [done|]. split.
    + intros d1 d2 _ Hin. rewrite Hnil in Hin. by apply elem_of_nil in Hin.
    + intros y1 m1 d1 y2 m2 d2 _ _ _ _ _ _ Hin. rewrite Hnil in Hin.
      by apply elem_of_nil in Hin.
  - destruct (last_is_greatest more f Hsorted) as [Hin Hmax].
    assert (Hgreatest : forall q, q ∈ found ->
                                  String.leb q (List.last more f) = true)
      by (intros q Hq; by apply Hmax, Hmem).
    eexists. split; [reflexivity|]. split.
    { intros Hnil. rewrite Hnil in Hmem.
      assert (Hf : f ∈ @nil string) by (apply Hmem, elem_of_cons; by left).
      by apply elem_of_nil in Hf. }
    split.
    { intros _. split; [by apply Hmem|done]. }
    split.
    { intros d1 d2 Hlen Hd1 Hp. apply Hgreatest in Hd1. rewrite Hp in Hd1.
      unfold spec.scored_file, String.leb in *.
      by rewrite string_compare_app_l, string_compare_app_r in Hd1. }
    intros y1 m1 d1 y2 m2 d2 Hy1 Hm1 Hd1 Hy2 Hm2 Hd2 Hq Hp.
    apply Hgreatest in Hq. rewrite Hp in Hq.
    unfold spec.scored_file, String.leb in Hq.
    rewrite string_compare_app_l in Hq.
    by apply (iso_date_order y1 m1 d1 y2 m2 d2 ".json").
Qed.

(** With the scored files of two days on disk, the gate works on the
    later one. *)
Lemma latest_of_two_days :
  app.get_latest_file demo.w_two_days
  = (Ok (spec.scored_file "2025-03-01"), demo.w_two_days).
Proof. vm_compute. reflexivity. Qed.

(** Dates written without zero padding are not ordered as the days
    they name: with the scored files of 10 March and of 3 October on
    disk, the gate works on the earlier one. *)
Lemma latest_of_unpadded_dates :
  app.get_latest_file demo.w_unpadded
  = (Ok (spec.scored_file "2025-3-10"), demo.w_unpadded).
Proof. vm_compute. reflexivity. Qed.

(** ** Saving a batch, and the extract command *)





Section saving.

Variable rt : runtime.



Variable news_source : pydict.dict -> result gdelt_pipeline.response.


Variable dict_update_list : pydict.dict -> list pyval -> result pydict.dict.
Variable evaluator : nat -> string -> string -> result pyval.



(** *** A run of the agent that cannot fail *)







End saving.


